(** * CS2 market tracker: the price-matching and history core

    A shallow embedding of the pure logic of the services
    (apiService.js, the trending service, the price service and the
    price-history service) together with the properties of the
    specification that were checked against it. *)

From Stdlib Require Import List ZArith NArith Bool Lia String Ascii Sorted.
From Stdlib Require Import Permutation.
From Stdlib Require Import Floats Reals Lra.
From stdpp Require Import base option list gmap.
Import ListNotations.

Set Default Proof Using "Type".
Set Warnings "-inexact-float".

Local Open Scope N_scope.

(* ===================================================================== *)
(** * JavaScript strings *)
(* ===================================================================== *)

(** A JavaScript string is a sequence of UTF-16 code units; [includes],
    [startsWith], [split] and [trim] all work on code units. *)
Module JS.

Definition jsstring : Type := list N.

(** Literals are written as Rocq strings (UTF-8 bytes in the file) and
    transcoded to code units; code points above the BMP become surrogate
    pairs. *)
Fixpoint utf16_of_utf8 (bs : list N) : jsstring :=
  match bs with
  | [] => []
  | b :: r =>
    if b <? 128 then b :: utf16_of_utf8 r
    else if b <? 224 then
      match r with
      | c :: r' => ((b mod 32) * 64 + c mod 64) :: utf16_of_utf8 r'
      | _ => []
      end
    else if b <? 240 then
      match r with
      | c :: d :: r' =>
        ((b mod 16) * 4096 + (c mod 64) * 64 + d mod 64) :: utf16_of_utf8 r'
      | _ => []
      end
    else
      match r with
      | c :: d :: e :: r' =>
        let cp := (b mod 8) * 262144 + (c mod 64) * 4096
                  + (d mod 64) * 64 + e mod 64 in
        let v := cp - 65536 in
        (55296 + v / 1024) :: (56320 + v mod 1024) :: utf16_of_utf8 r'
      | _ => []
      end
  end.

Definition js (s : string) : jsstring :=
  utf16_of_utf8 (List.map N_of_ascii (list_ascii_of_string s)).

Definition unit_eqb (a b : N) : bool := N.eqb a b.

(** [s.startsWith(p)] *)
Fixpoint startsWith (s p : jsstring) {struct p} : bool :=
  match p, s with
  | [], _ => true
  | _ :: _, [] => false
  | a :: p', b :: s' => unit_eqb a b && startsWith s' p'
  end.

(** [s.includes(sub)] *)
Fixpoint includes (s sub : jsstring) : bool :=
  startsWith s sub ||
  match s with
  | [] => false
  | _ :: s' => includes s' sub
  end.

(** [a === b] on strings *)
Fixpoint str_eqb (a b : jsstring) : bool :=
  match a, b with
  | [], [] => true
  | x :: a', y :: b' => unit_eqb x y && str_eqb a' b'
  | _, _ => false
  end.

(** [s.split(sep)] for a separator of one code unit (the source only
    splits on ["|"]).  The result always has at least one piece. *)
Fixpoint split (s : jsstring) (sep : N) : list jsstring :=
  match s with
  | [] => [[]]
  | c :: s' =>
    if unit_eqb c sep then [] :: split s' sep
    else match split s' sep with
         | [] => [[c]]
         | p :: ps => (c :: p) :: ps
         end
  end.

(** White space and line terminators of ECMAScript, the code units that
    [trim] strips. *)
Definition isWhiteSpace (c : N) : bool :=
  ((9 <=? c) && (c <=? 13)) || (c =? 32) || (c =? 160) || (c =? 5760)
  || ((8192 <=? c) && (c <=? 8202)) || (c =? 8232) || (c =? 8233)
  || (c =? 8239) || (c =? 8287) || (c =? 12288) || (c =? 65279).

Fixpoint trimStart (s : jsstring) : jsstring :=
  match s with
  | [] => []
  | c :: s' => if isWhiteSpace c then trimStart s' else s
  end.

Definition trimEnd (s : jsstring) : jsstring := rev (trimStart (rev s)).

Definition trim (s : jsstring) : jsstring := trimEnd (trimStart s).

(** [s.toLowerCase()], one code unit at a time.  The table is exact for
    every code unit whose lower-case form lies in Basic Latin or Latin-1
    (A-Z, the Latin-1 capitals, U+0130, U+0178, U+1E9E, the Kelvin and
    Angstrom signs); every other code unit is left as it is.  The lower-case
    forms of the letters left out lie outside Latin-1 and differ from the
    star marker, so no keyword test of the source can tell the difference. *)
Definition lowerUnit (c : N) : list N :=
  if (65 <=? c) && (c <=? 90) then [c + 32]
  else if (192 <=? c) && (c <=? 222) && negb (c =? 215) then [c + 32]
  else if c =? 304 then [105; 775]
  else if c =? 376 then [255]
  else if c =? 7838 then [223]
  else if c =? 8490 then [107]
  else if c =? 8491 then [229]
  else [c].

Definition toLowerCase (s : jsstring) : jsstring := flat_map lowerUnit s.

(** Truthiness of a string value: the empty string is falsy. *)
Definition truthy_str (s : jsstring) : bool :=
  match s with [] => false | _ :: _ => true end.

(** Truthiness of a possibly missing ([null], [undefined]) string. *)
Definition truthy_ostr (s : option jsstring) : bool :=
  match s with Some s => truthy_str s | None => false end.

End JS.
Import JS.

(* ===================================================================== *)
(** * apiService.js: the category classifier *)
(* ===================================================================== *)

Module ApiService.

(** The category names [determineCategory] returns. *)
Inductive Category :=
  Knife | Rifle | Pistol | SMG | Shotgun | MachineGun | Gloves | Other.

(** The string each category stands for in the source. *)
Definition categoryName (c : Category) : jsstring :=
  match c with
  | Knife => js "Knife"
  | Rifle => js "Rifle"
  | Pistol => js "Pistol"
  | SMG => js "SMG"
  | Shotgun => js "Shotgun"
  | MachineGun => js "Machine Gun"
  | Gloves => js "Gloves"
  | Other => js "Other"
  end.

Definition determineCategory (weaponName : jsstring) : Category :=
  let name := toLowerCase weaponName in
  if includes name (js "knife")
     || includes name (js "bayonet")
     || includes name (js "karambit")
  then Knife
  else if includes name (js "ak-47")
     || includes name (js "m4a4")
     || includes name (js "m4a1")
     || includes name (js "aug")
     || includes name (js "sg 553")
     || includes name (js "famas")
     || includes name (js "galil")
     || includes name (js "awp")
     || includes name (js "ssg 08")
     || includes name (js "scar-20")
     || includes name (js "g3sg1")
  then Rifle
  else if includes name (js "glock")
     || includes name (js "usp")
     || includes name (js "p2000")
     || includes name (js "p250")
     || includes name (js "five-seven")
     || includes name (js "tec-9")
     || includes name (js "cz75")
     || includes name (js "desert eagle")
     || includes name (js "dual berettas")
     || includes name (js "r8 revolver")
  then Pistol
  else if includes name (js "mac-10")
     || includes name (js "mp9")
     || includes name (js "mp7")
     || includes name (js "mp5")
     || includes name (js "ump-45")
     || includes name (js "p90")
     || includes name (js "pp-bizon")
  then SMG
  else if includes name (js "nova")
     || includes name (js "xm1014")
     || includes name (js "mag-7")
     || includes name (js "sawed-off")
  then Shotgun
  else if includes name (js "m249") || includes name (js "negev")
  then MachineGun
  else if includes name (js "gloves")
     || includes name (js "glove")
     || includes name (js "wraps")
     || includes name (js "hand wraps")
     || includes name (js "handwraps")
  then Gloves
  else Other.

End ApiService.

(* ===================================================================== *)
(** * The trending service: ranking and category filter *)
(* ===================================================================== *)

(** Numbers of this service are idealised as real numbers: the ranking
    score goes through [Math.log], which ECMAScript only specifies up to an
    implementation-chosen approximation, so there is no exact double-precision
    reading of it.  [Math.log] is the natural logarithm [ln], [Math.abs] is
    [Rabs], [Math.min] is [Rmin].  [Math.random] is a stream of draws handed
    to the function together with the number of draws made so far. *)
Module CsfloatService.

Local Open Scope R_scope.

(** The catalogue record attached to a listing ([item.skinData]); only the
    fields [processTrendingListings] reads. *)
Record SkinData := {
  sd_image : option jsstring;
  sd_rarity_name : option jsstring;
  sd_rarity_color : option jsstring;
  sd_description : option jsstring;
  sd_category_name : option jsstring;
  sd_weapon_name : option jsstring
}.

(** One entry of the merged price list. *)
Record Listing := {
  market_hash_name : option jsstring;
  min_price : R;
  max_price : option R;
  qty : R;
  skinData : option SkinData
}.

(** A processed trending item.  The fields [id], [itemName], [wearName],
    [watchers] and [priceSpread] of the source (number formatting, regular
    expressions, [Math.floor], a division by the price) are read by no later
    step and are left out. *)
Record TrendingItem := {
  name : jsstring;
  currentPrice : R;
  referencePrice : R;
  priceChange : R;
  priceChangeAbs : R;
  image : option jsstring;
  volume : R;
  rarity : jsstring;
  rarityColor : jsstring;
  description : jsstring;
  isStatTrak : bool;
  isSouvenir : bool;
  minPrice : R;
  maxPrice : R;
  category : jsstring;
  weapon : jsstring;
  priceHistory : list R
}.

(** The random source: the stream of values [Math.random()] returns, and
    computations that draw from it. *)
Definition Rand (A : Type) : Type := (nat -> R) -> nat -> A * nat.

Definition ret {A} (a : A) : Rand A := fun _ n => (a, n).

Definition bind {A B} (m : Rand A) (k : A -> Rand B) : Rand B :=
  fun rnd n => let (a, n') := m rnd n in k a rnd n'.

Definition Math_random : Rand R := fun rnd n => (rnd n, S n).

#[local] Notation "'draw' x <- m ; k" := (bind m (fun x => k))
  (at level 10, x name, m at level 100, k at level 200, only parsing).

(** [a || b] on optional strings: the first truthy one. *)
Definition or_str (a : option jsstring) (b : jsstring) : jsstring :=
  match a with
  | Some (c :: s) => c :: s
  | _ => b
  end.

Definition calculatePriceChangePercent (minPrice maxPrice qty : R) : Rand R :=
  draw r <- Math_random ;
  let baseChange := (r - 0.5) * 20 in
  let volumeBoost := Rmin (qty / 1000) 5 in
  ret (baseChange * (1 + volumeBoost / 5)).

(** The loop of [generatePriceHistory], from index [i] for [k] more
    rounds. *)
Fixpoint generatePriceHistory_loop (currentPrice priceChange trend : R)
    (points i : nat) (k : nat) : Rand (list R) :=
  match k with
  | O => ret []
  | S k' =>
    draw r <- Math_random ;
    let progress := INR i / (INR points - 1) in
    let trendEffect := trend * progress * (Rabs priceChange / 100) in
    let randomNoise := (r - 0.5) * 0.05 in
    let priceMultiplier := 1 - trendEffect + randomNoise in
    draw rest <- generatePriceHistory_loop currentPrice priceChange trend
              points (S i) k' ;
    ret (currentPrice * priceMultiplier :: rest)
  end.

Definition generatePriceHistory (currentPrice priceChange : R)
    (points : nat) : Rand (list R) :=
  let trend := if Rlt_dec 0 priceChange then 1 else -1 in
  generatePriceHistory_loop currentPrice priceChange trend points 0 points.

(** The callback of [priceListData.map]: [None] is the [null] it returns
    for a listing without catalogue data. *)
Definition processListing (item : Listing) : Rand (option TrendingItem) :=
  match skinData item with
  | None => ret None
  | Some sd =>
    let currentPrice := min_price item / 100 in
    let maxPrice :=
      match max_price item with
      | Some m => if Req_EM_T m 0 then currentPrice else m / 100
      | None => currentPrice
      end in
    let avgPrice := (currentPrice + maxPrice) / 2 in
    draw priceChange <- calculatePriceChangePercent currentPrice maxPrice
                     (qty item) ;
    draw priceHistory <- generatePriceHistory avgPrice priceChange 7 ;
    let marketHashName := or_str (market_hash_name item) [] in
    ret (Some {|
      name := marketHashName;
      currentPrice := avgPrice;
      referencePrice := currentPrice;
      priceChange := priceChange;
      priceChangeAbs := Rabs priceChange;
      image := match sd_image sd with
               | Some (c :: s) => Some (c :: s)
               | _ => None
               end;
      volume := qty item;
      rarity := or_str (sd_rarity_name sd)
                  (if includes marketHashName (js "★")
                   then js "Extraordinary" else js "Classified");
      rarityColor := or_str (sd_rarity_color sd) (js "#eb4b4b");
      description := or_str (sd_description sd) [];
      isStatTrak := includes marketHashName (js "StatTrak™");
      isSouvenir := includes marketHashName (js "Souvenir");
      minPrice := currentPrice;
      maxPrice := maxPrice;
      category := or_str (sd_category_name sd) (js "Unknown");
      weapon := or_str (sd_weapon_name sd) [];
      priceHistory := priceHistory
    |})
  end.

(** [array.map(f)] for a callback that draws random numbers: the callback
    runs on the elements from left to right. *)
Fixpoint mapRand {A B} (f : A -> Rand B) (l : list A) : Rand (list B) :=
  match l with
  | [] => ret []
  | a :: l' => draw b <- f a ; draw bs <- mapRand f l' ; ret (b :: bs)
  end.

(** The ranking score of the comparator.  [ln] stands for [Math.log] where
    [Math.log] is a number: on [volume + 1 > 0].  For a volume of -1 or less
    the source computes [-Infinity] or [NaN], which no real number stands
    for, the comparator returns [NaN] and the sort leaves the items where
    they are; the properties that rest on the score are stated for volumes
    above -1.  Real numbers leave rounding aside: two scores so close that
    binary64 rounds them to one number are a tie for the code. *)
Definition score (a : TrendingItem) : R :=
  priceChangeAbs a * ln (volume a + 1).

(** The comparator handed to [sort]. *)
Definition compareTrending (a b : TrendingItem) : R :=
  let scoreA := score a in
  let scoreB := score b in
  scoreB - scoreA.

(** [Array.prototype.sort(cmp)]: the stable sort ECMAScript requires, as an
    insertion sort.  [cmp a b > 0] puts [b] before [a]; otherwise the order
    of [a] and [b] is kept. *)
Fixpoint sort_insert {A} (cmp : A -> A -> R) (x : A) (l : list A) : list A :=
  match l with
  | [] => [x]
  | y :: l' =>
    if Rlt_dec 0 (cmp x y) then y :: sort_insert cmp x l' else x :: l
  end.

Fixpoint Array_sort {A} (cmp : A -> A -> R) (l : list A) : list A :=
  match l with
  | [] => []
  | x :: l' => sort_insert cmp x (Array_sort cmp l')
  end.

(** The test of [.filter((item) => item !== null && item.currentPrice > 0)]. *)
Definition keepProcessed (o : option TrendingItem) : option TrendingItem :=
  match o with
  | Some it => if Rlt_dec 0 (currentPrice it) then Some it else None
  | None => None
  end.

Definition processTrendingListings (priceListData : option (list Listing))
  : Rand (list TrendingItem) :=
  match priceListData with
  | None | Some [] => ret []
  | Some l =>
    draw mapped <- mapRand processListing l ;
    ret (Array_sort compareTrending (omap keepProcessed mapped))
  end.

(** The callback of [listings.filter] in [filterByCategory]. *)
Definition categoryTest (category : jsstring) (item : TrendingItem) : bool :=
  let name := toLowerCase (name item) in
  if str_eqb category (js "Knife") then
    includes name (js "★") || includes name (js "knife")
  else if str_eqb category (js "Gloves") then
    includes name (js "gloves") || includes name (js "wraps")
  else if str_eqb category (js "Rifle") then
    includes name (js "ak-47")
    || includes name (js "m4a4")
    || includes name (js "m4a1")
    || includes name (js "awp")
    || includes name (js "aug")
    || includes name (js "sg 553")
    || includes name (js "famas")
    || includes name (js "galil")
  else if str_eqb category (js "Pistol") then
    includes name (js "glock")
    || includes name (js "usp")
    || includes name (js "p2000")
    || includes name (js "p250")
    || includes name (js "desert eagle")
    || includes name (js "deagle")
  else if str_eqb category (js "SMG") then
    includes name (js "mp9")
    || includes name (js "mac-10")
    || includes name (js "p90")
    || includes name (js "ump")
  else true.

Definition filterByCategory (listings : list TrendingItem)
    (category : option jsstring) : list TrendingItem :=
  match category with
  | None => listings
  | Some c =>
    if str_eqb c (js "All") || negb (truthy_str c) then listings
    else List.filter (categoryTest c) listings
  end.

End CsfloatService.

(* ===================================================================== *)
(** * JavaScript numbers *)
(* ===================================================================== *)

(** The price and history services only add, subtract, multiply, divide and
    compare numbers: they are modelled as IEEE 754 binary64 values, the
    kernel's primitive floats, with the operations JavaScript uses. *)
Module Num.

Local Open Scope float_scope.

(** Truthiness of a number: [0], [-0] and [NaN] are falsy. *)
Definition truthy (x : float) : bool := negb (x =? 0) && (x =? x).

(** [a || b] where both may be [undefined]. *)
Definition or_else (a b : option float) : option float :=
  match a with
  | Some x => if truthy x then a else b
  | None => b
  end.

(** [a || 0] *)
Definition or_zero (a : option float) : float :=
  match a with
  | Some x => if truthy x then x else 0
  | None => 0
  end.

End Num.

(* ===================================================================== *)
(** * The price service: resolving and formatting a price *)
(* ===================================================================== *)

Module PriceService.

(** A quote of the price map, as [fetchPriceData] builds it.  A field that
    is missing reads as [undefined], here [None]. *)
Record PriceInfo := {
  pi_price : option float;
  pi_min : option float;
  pi_avg : option float;
  pi_max : option float;
  pi_qty : option float
}.

(** The price map is a plain object; it is kept as the list of its own
    properties in the order [Object.keys] enumerates them. *)
Definition PriceMap : Type := list (jsstring * PriceInfo).

Definition Object_keys (priceData : PriceMap) : list jsstring :=
  List.map fst priceData.

Fixpoint ownProperty (priceData : PriceMap) (key : jsstring)
  : option PriceInfo :=
  match priceData with
  | [] => None
  | (k, v) :: rest => if str_eqb k key then Some v else ownProperty rest key
  end.

(** The property names every plain object inherits from
    [Object.prototype]; reading one of them yields a function (or the
    prototype), a truthy value none of whose price fields is defined. *)
Definition Object_prototype_names : list jsstring :=
  List.map js
    [ "constructor"; "__proto__"; "hasOwnProperty"; "isPrototypeOf";
      "propertyIsEnumerable"; "toLocaleString"; "toString"; "valueOf";
      "__defineGetter__"; "__defineSetter__"; "__lookupGetter__";
      "__lookupSetter__" ]%string.

Definition inheritedMember : PriceInfo :=
  {| pi_price := None; pi_min := None; pi_avg := None; pi_max := None;
     pi_qty := None |}.

(** [priceData[key]]: [None] is [undefined]. *)
Definition get (priceData : PriceMap) (key : jsstring) : option PriceInfo :=
  match ownProperty priceData key with
  | Some v => Some v
  | None =>
    if existsb (str_eqb key) Object_prototype_names
    then Some inheritedMember else None
  end.

(** The object [getSkinPrice] returns. *)
Record PriceResult := {
  avg : float;
  min : float;
  max : float;
  currency : jsstring;
  marketHashName : jsstring;
  isApproximate : bool
}.

(** The object literal built from a quote, the key it was found under
    and the approximate flag. *)
Definition quoteOf (priceInfo : PriceInfo) (key : jsstring)
    (approximate : bool) : PriceResult :=
  {| avg := Num.or_zero (Num.or_else (pi_avg priceInfo) (pi_price priceInfo));
     min := Num.or_zero (Num.or_else (pi_min priceInfo) (pi_price priceInfo));
     max := Num.or_zero (Num.or_else (pi_max priceInfo) (pi_price priceInfo));
     currency := js "USD";
     marketHashName := key;
     isApproximate := approximate |}.

(** The market hash name built at the top of [getSkinPrice]. *)
Definition buildMarketHashName (skinName : jsstring) (wear : option jsstring)
    (stattrak souvenir : bool) : jsstring :=
  let marketHashName := skinName in
  let marketHashName :=
    if stattrak then js "StatTrak™ " ++ marketHashName
    else if souvenir then js "Souvenir " ++ marketHashName
    else marketHashName in
  match wear with
  | Some (c :: w) => marketHashName ++ js " (" ++ (c :: w) ++ js ")"
  | _ => marketHashName
  end.

Definition commonWears : list jsstring :=
  List.map js
    [ "Field-Tested"; "Minimal Wear"; "Factory New"; "Well-Worn";
      "Battle-Scarred" ]%string.

(** The [for ... of] loop over the wears: the first truthy result. *)
Fixpoint firstResult (f : jsstring -> option PriceResult)
    (wears : list jsstring) : option PriceResult :=
  match wears with
  | [] => None
  | wearCondition :: rest =>
    match f wearCondition with
    | Some result => Some result
    | None => firstResult f rest
    end
  end.

(** [stattrak ? key.includes("StatTrak™") : !key.includes("StatTrak™")] *)
Definition sameStatTrak (stattrak : bool) (key : jsstring) : bool :=
  if stattrak then includes key (js "StatTrak™")
  else negb (includes key (js "StatTrak™")).

(** [key.includes(`(${wear})`)] *)
Definition hasWear (wear key : jsstring) : bool :=
  includes key (js "(" ++ wear ++ js ")").

(** The callbacks of the four [allKeys.find] calls of one strategy, by the
    branch taken: with or without a pattern, with or without a wear. *)
Definition fallbackTest (baseWeapon pattern : jsstring) (hasPattern : bool)
    (wear : option jsstring) (stattrak : bool) (key : jsstring) : bool :=
  if hasPattern && truthy_str pattern then
    let baseWithPattern := baseWeapon ++ js " | " ++ pattern in
    match wear with
    | Some (c :: w) =>
      startsWith key baseWithPattern && hasWear (c :: w) key
      && sameStatTrak stattrak key
    | _ => startsWith key baseWithPattern && sameStatTrak stattrak key
    end
  else
    match wear with
    | Some (c :: w) =>
      startsWith key baseWeapon && negb (includes key (js "|"))
      && hasWear (c :: w) key && sameStatTrak stattrak key
    | _ =>
      startsWith key baseWeapon && negb (includes key (js "|"))
      && sameStatTrak stattrak key
    end.

(** The fallback search of [getSkinPrice] over the keys of the map:
    strategy 1 with the requested StatTrak status, then, when that found
    nothing truthy and StatTrak was requested, strategy 2 without it. *)
Definition fallbackSearch (priceData : PriceMap) (skinName : jsstring)
    (wear : option jsstring) (stattrak : bool) : option jsstring :=
  let allKeys := Object_keys priceData in
  let baseWeapon := trim (nth 0 (split skinName 124) []) in
  let hasPattern := includes skinName (js "|") in
  let pattern :=
    if hasPattern then trim (nth 1 (split skinName 124) []) else [] in
  let fallbackKey :=
    List.find (fallbackTest baseWeapon pattern hasPattern wear stattrak)
      allKeys in
  if negb (truthy_ostr fallbackKey) && stattrak then
    List.find (fallbackTest baseWeapon pattern hasPattern wear false) allKeys
  else fallbackKey.

(** The body of [getSkinPrice]; [self] stands for the recursive calls of
    the wear loop.  The console logging of the source, which has no part in
    the result, is left out. *)
Definition getSkinPrice_body
    (self : option PriceMap -> option jsstring -> option jsstring ->
            bool -> bool -> option PriceResult)
    (priceData : option PriceMap) (skinName : option jsstring)
    (wear : option jsstring) (stattrak souvenir : bool)
  : option PriceResult :=
  match priceData, skinName with
  | Some pd, Some (c :: s) =>
    let name := c :: s in
    let marketHashName := buildMarketHashName name wear stattrak souvenir in
    match get pd marketHashName with
    | Some priceInfo => Some (quoteOf priceInfo marketHashName false)
    | None =>
      let retried :=
        if negb (truthy_ostr wear) then
          firstResult
            (fun wearCondition =>
               self priceData skinName (Some wearCondition) stattrak souvenir)
            commonWears
        else None in
      match retried with
      | Some result => Some result
      | None =>
        if includes name (js "★") then
          match fallbackSearch pd name wear stattrak with
          | Some (k :: ey) =>
            let fallbackKey := k :: ey in
            match get pd fallbackKey with
            | Some fallbackPrice => Some (quoteOf fallbackPrice fallbackKey true)
            | None => None
            end
          | _ => None
          end
        else None
      end
    end
  | _, _ => None
  end.

(** The recursion of [getSkinPrice] is one level deep: a call without a
    wear calls itself with each common wear, and a call with a wear makes
    no further call. *)
Definition getSkinPrice :=
  getSkinPrice_body (getSkinPrice_body (fun _ _ _ _ _ => None)).

Section Formatting.

(** The number formatting of the platform: [x.toFixed(digits)],
    [Math.round(x)] and the conversion of a number to a string in a
    template literal. *)
Variable toFixed : float -> nat -> jsstring.
Variable Math_round : float -> float.
Variable Number_toString : float -> jsstring.

Local Open Scope float_scope.

Definition formatPrice (price : option float) : jsstring :=
  match price with
  | None => js "N/A"
  | Some price =>
    if price =? 0 then js "Free"
    else if price <? 0.01 then js "<$0.01"
    else if price <? 1 then js "$" ++ toFixed price 2
    else if price <? 100 then js "$" ++ toFixed price 2
    else if price <? 1000 then js "$" ++ Number_toString (Math_round price)
    else js "$" ++ toFixed (price / 1000) 1 ++ js "k"
  end.

End Formatting.

End PriceService.

(* ===================================================================== *)
(** * The price-history service: snapshot log and change statistics *)
(* ===================================================================== *)

Module PriceHistoryService.

Import PriceService.

(** One entry of the snapshot log.  Timestamps are the integers
    [Date.now()] returns (milliseconds). *)
Record PriceSnapshot := {
  timestamp : Z;
  date : jsstring;
  prices : option PriceMap
}.

(** A string held by the storage, told apart by what [JSON.parse] makes of
    it: the empty string, a text that does not parse, the serialisation of a
    value that is not an array, and the serialisation of a snapshot log,
    represented by the log that [JSON.parse] reads from it. *)
Inductive StoredText :=
| EmptyText
| Malformed
| NotAnArray
| LogText (log : list PriceSnapshot).

(** The key-value storage of the device: its items, and whether it answers
    at all (an unavailable storage rejects every call). *)
Record AsyncStorage := {
  items : gmap jsstring StoredText;
  available : bool
}.

(** Computations over the storage that may throw. *)
Inductive Outcome (A : Type) :=
| Returned (a : A)
| Thrown.
Arguments Returned {A} a.
Arguments Thrown {A}.

Definition Async (A : Type) : Type := AsyncStorage -> Outcome A * AsyncStorage.

Definition pure {A} (a : A) : Async A := fun st => (Returned a, st).

Definition throw {A} : Async A := fun st => (Thrown, st).

Definition await {A B} (m : Async A) (k : A -> Async B) : Async B :=
  fun st =>
    match m st with
    | (Returned a, st') => k a st'
    | (Thrown, st') => (Thrown, st')
    end.

(** [try { m } catch (error) { handler }] *)
Definition try_catch {A} (m handler : Async A) : Async A :=
  fun st =>
    match m st with
    | (Returned a, st') => (Returned a, st')
    | (Thrown, st') => handler st'
    end.

#[local] Notation "'let!' x := m 'in' k" := (await m (fun x => k))
  (at level 10, x name, m at level 100, k at level 200, only parsing).

Definition AsyncStorage_getItem (key : jsstring) : Async (option StoredText) :=
  fun st =>
    if available st then (Returned (items st !! key), st) else (Thrown, st).

Definition AsyncStorage_setItem (key : jsstring) (value : StoredText)
  : Async unit :=
  fun st =>
    if available st
    then (Returned tt, {| items := <[key := value]> (items st);
                          available := available st |})
    else (Thrown, st).

(** What [JSON.parse] returns on a stored text: an array of snapshots or
    some other value. *)
Inductive Parsed :=
| ParsedLog (log : list PriceSnapshot)
| ParsedOther.

Definition JSON_parse (data : StoredText) : Async Parsed :=
  match data with
  | EmptyText | Malformed => throw
  | NotAnArray => pure ParsedOther
  | LogText log => pure (ParsedLog log)
  end.

(** What a number field is read back as after [JSON.stringify] and
    [JSON.parse]: a number that is not finite ([NaN], an infinity) is
    written as [null], the negative zero as [0], every other number as
    itself; a field that is [undefined] is left out.  [null], like
    [undefined], is [None]. *)
Definition JSON_number (x : option float) : option float :=
  match x with
  | Some x =>
    if is_finite x then Some (if (x =? 0)%float then 0%float else x)
    else None
  | None => None
  end.

Definition JSON_quote (priceInfo : PriceInfo) : PriceInfo :=
  {| pi_price := JSON_number (pi_price priceInfo);
     pi_min := JSON_number (pi_min priceInfo);
     pi_avg := JSON_number (pi_avg priceInfo);
     pi_max := JSON_number (pi_max priceInfo);
     pi_qty := JSON_number (pi_qty priceInfo) |}.

Definition JSON_prices (priceData : option PriceMap) : option PriceMap :=
  match priceData with
  | Some priceMap =>
    Some (List.map (fun entry => (fst entry, JSON_quote (snd entry)))
            priceMap)
  | None => None
  end.

(** A snapshot as it is read back: the timestamp (an integer) and the date
    (a string) as they were, the prices with their numbers as JSON keeps
    them. *)
Definition JSON_snapshot (snapshot : PriceSnapshot) : PriceSnapshot :=
  {| timestamp := timestamp snapshot;
     date := date snapshot;
     prices := JSON_prices (prices snapshot) |}.

(** [JSON.stringify(log)]: the text from which [JSON.parse] reads the log
    with every number as JSON keeps it. *)
Definition JSON_stringify (log : list PriceSnapshot) : StoredText :=
  LogText (List.map JSON_snapshot log).

Definition truthy_text (data : StoredText) : bool :=
  match data with EmptyText => false | _ => true end.

Definition PRICE_HISTORY_KEY : jsstring := js "@price_history".
Definition MAX_HISTORY_DAYS : Z := 30.

Definition getPriceHistory : Async Parsed :=
  try_catch
    (let! data := AsyncStorage_getItem PRICE_HISTORY_KEY in
     match data with
     | Some text => if truthy_text text then JSON_parse text
                    else pure (ParsedLog [])
     | None => pure (ParsedLog [])
     end)
    (pure (ParsedLog [])).

Section Snapshot.

(** [new Date(timestamp).toISOString()] *)
Variable toISOString : Z -> jsstring.

(** [savePriceSnapshot(priceData)] at the time [now] that [Date.now()]
    returns.  [history.push] on a value that is not an array throws. *)
Definition savePriceSnapshot (now : Z) (priceData : option PriceMap)
  : Async unit :=
  try_catch
    (let! history := getPriceHistory in
     match history with
     | ParsedOther => throw
     | ParsedLog history =>
       let history :=
         history ++ [ {| timestamp := now;
                         date := toISOString now;
                         prices := priceData |} ] in
       let cutoffDate := (now - MAX_HISTORY_DAYS * 24 * 60 * 60 * 1000)%Z in
       let filteredHistory :=
         List.filter (fun snapshot => (cutoffDate <? timestamp snapshot)%Z)
           history in
       AsyncStorage_setItem PRICE_HISTORY_KEY (JSON_stringify filteredHistory)
     end)
    (pure tt).

End Snapshot.

(** A point of a price history. *)
Record PricePoint := {
  pp_timestamp : Z;
  price : float
}.

Inductive Trend := Up | Down | Stable.

(** The string of the source each trend stands for. *)
Definition trendName (t : Trend) : jsstring :=
  match t with
  | Up => js "up"
  | Down => js "down"
  | Stable => js "stable"
  end.

Record PriceChange := {
  change : float;
  percentage : float;
  trend : Trend
}.

Local Open Scope float_scope.

(** [calculatePriceChange(priceHistory)]; [None] is a missing history.  A
    history of two or more points is matched as its first point followed by
    the rest, whose last point is [priceHistory[priceHistory.length - 1]]. *)
Definition calculatePriceChange (priceHistory : option (list PricePoint))
  : PriceChange :=
  match priceHistory with
  | Some (first :: second :: rest) =>
    let oldest := price first in
    let newest := price (List.last (second :: rest) first) in
    let change := newest - oldest in
    let percentage := if 0 <? oldest then (change / oldest) * 100 else 0 in
    let trend :=
      if 5 <? percentage then Up
      else if percentage <? -5 then Down
      else Stable in
    {| change := change; percentage := percentage; trend := trend |}
  | _ => {| change := 0; percentage := 0; trend := Stable |}
  end.

End PriceHistoryService.

(* ===================================================================== *)
(** * The price service: the price feed, wear prices and price ranges *)
(* ===================================================================== *)

Module PriceFeed.

Import PriceService.
Local Open Scope float_scope.

(** One record of the price list the price API answers with.  A missing
    [min_price] reads as [undefined], which the division turns into [NaN]:
    it is the number [NaN] here. *)
Record PriceListItem := {
  market_hash_name : jsstring;
  min_price : float;
  qty : option float
}.

(** The value of a decimal digit. *)
Definition digitValue (c : N) : option N :=
  if ((48 <=? c) && (c <=? 57))%N then Some (c - 48)%N else None.

Fixpoint decimalValue (acc : N) (s : jsstring) : option N :=
  match s with
  | [] => Some acc
  | c :: s' =>
    match digitValue c with
    | Some d => decimalValue (10 * acc + d)%N s'
    | None => None
    end
  end.

(** Whether a property key is an array index: the canonical decimal
    numeral of an integer below 2^32 - 1.  An object lists such keys first,
    in ascending numeric order, before its other keys. *)
Definition arrayIndex (key : jsstring) : option N :=
  match key with
  | [] => None
  | [c] => digitValue c
  | c :: _ =>
    if (c =? 48)%N then None
    else match decimalValue 0 key with
         | Some n => if (n <? 4294967295)%N then Some n else None
         | None => None
         end
  end.

(** The value of an own property is replaced where the property stands. *)
Fixpoint replaceOwn (priceMap : PriceMap) (key : jsstring) (value : PriceInfo)
  : PriceMap :=
  match priceMap with
  | [] => []
  | (k, v) :: rest =>
    if str_eqb k key then (k, value) :: rest
    else (k, v) :: replaceOwn rest key value
  end.

(** A new array-index key goes after the smaller array-index keys. *)
Fixpoint insertIndex (n : N) (key : jsstring) (value : PriceInfo)
    (priceMap : PriceMap) : PriceMap :=
  match priceMap with
  | [] => [(key, value)]
  | (k, v) :: rest =>
    match arrayIndex k with
    | Some m =>
      if (m <? n)%N then (k, v) :: insertIndex n key value rest
      else (key, value) :: (k, v) :: rest
    | None => (key, value) :: (k, v) :: rest
    end
  end.

(** [priceMap[key] = value] on a plain object, as far as its own
    properties go: an existing property keeps its place, a new array index
    is put in numeric order before the other keys, any other new key goes to
    the end.  The key ["__proto__"] adds no own property (the assignment
    replaces the prototype of the object instead, which this model does not
    follow: the properties below are stated for feeds without that name). *)
Definition Object_set (priceMap : PriceMap) (key : jsstring)
    (value : PriceInfo) : PriceMap :=
  if str_eqb key (js "__proto__") then priceMap
  else match ownProperty priceMap key with
       | Some _ => replaceOwn priceMap key value
       | None =>
         match arrayIndex key with
         | Some n => insertIndex n key value priceMap
         | None => priceMap ++ [(key, value)]
         end
       end.

(** The object literal [fetchPriceData] stores for an item. *)
Definition quoteFor (item : PriceListItem) : PriceInfo :=
  {| pi_price := Some (min_price item / 100);
     pi_min := Some (min_price item / 100);
     pi_avg := Some (min_price item / 100);
     pi_max := Some (min_price item / 100);
     pi_qty := qty item |}.

(** The [forEach] loop of [fetchPriceData] over the parsed body. *)
Definition priceMapOf (dataArray : list PriceListItem) : PriceMap :=
  fold_left
    (fun priceMap item =>
       Object_set priceMap (market_hash_name item) (quoteFor item))
    dataArray [].

(** What the request of [fetchPriceData] comes to: it is rejected, or it
    is answered with a status ([ok] or not) and a body, which parses to an
    array of items or does not. *)
Inductive FetchOutcome :=
| Rejected
| Answered (ok : bool) (body : option (list PriceListItem)).

(** [fetchPriceData()] on the outcome of its request: every failure ends
    in the [catch] block and gives [null]. *)
Definition fetchPriceData (outcome : FetchOutcome) : option PriceMap :=
  match outcome with
  | Answered true (Some dataArray) => Some (priceMapOf dataArray)
  | _ => None
  end.

End PriceFeed.

Module PriceDisplay.

Import PriceService.
Local Open Scope float_scope.

(** An entry of the list [getAllWearPrices] returns. *)
Record WearPrice := {
  wear : jsstring;
  priceInfo : option PriceResult;
  price : float
}.

Definition wears : list jsstring :=
  List.map js
    [ "Factory New"; "Minimal Wear"; "Field-Tested"; "Well-Worn";
      "Battle-Scarred" ]%string.

(** [priceInfo?.avg || 0] *)
Definition avgOrZero (priceInfo : option PriceResult) : float :=
  Num.or_zero (match priceInfo with
               | Some result => Some (avg result)
               | None => None
               end).

Definition getAllWearPrices (priceData : option PriceMap)
    (skinName : option jsstring) (stattrak souvenir : bool)
  : list WearPrice :=
  List.filter (fun item => 0 <? price item)
    (List.map
       (fun wear =>
          let priceInfo :=
            getSkinPrice priceData skinName (Some wear) stattrak souvenir in
          {| wear := wear;
             priceInfo := priceInfo;
             price := avgOrZero priceInfo |})
       wears).

Section Range.

Variable toFixed : float -> nat -> jsstring.
Variable Math_round : float -> float.
Variable Number_toString : float -> jsstring.

Definition getPriceRange (priceInfo : option PriceResult) : jsstring :=
  match priceInfo with
  | None => js "N/A"
  | Some result =>
    if (min result =? max result) || negb (Num.truthy (max result)) then
      formatPrice toFixed Math_round Number_toString
        (Num.or_else (Some (avg result)) (Some (min result)))
    else
      formatPrice toFixed Math_round Number_toString (Some (min result))
      ++ js " - "
      ++ formatPrice toFixed Math_round Number_toString (Some (max result))
  end.

End Range.

End PriceDisplay.

(* ===================================================================== *)
(** * The price-history service: reading, clearing and statistics *)
(* ===================================================================== *)

Module PriceHistoryReads.

Import PriceService PriceHistoryService.

#[local] Notation "'let!' x := m 'in' k" := (await m (fun x => k))
  (at level 10, x name, m at level 100, k at level 200, only parsing).

Definition AsyncStorage_removeItem (key : jsstring) : Async unit :=
  fun st =>
    if available st
    then (Returned tt, {| items := delete key (items st);
                          available := available st |})
    else (Thrown, st).

Definition clearPriceHistory : Async unit :=
  try_catch (AsyncStorage_removeItem PRICE_HISTORY_KEY) (pure tt).

(** [snapshot.prices?.[marketHashName]] *)
Definition quoteIn (snapshot : PriceSnapshot) (marketHashName : jsstring)
  : option PriceInfo :=
  match prices snapshot with
  | Some priceMap => get priceMap marketHashName
  | None => None
  end.

(** The point the [map] callback of [getSkinPriceHistory] builds from a
    snapshot; its [date] is the [Date] of the same timestamp. *)
Definition pointOf (marketHashName : jsstring) (snapshot : PriceSnapshot)
  : PricePoint :=
  let priceInfo := quoteIn snapshot marketHashName in
  {| pp_timestamp := timestamp snapshot;
     price :=
       Num.or_zero
         (Num.or_else
            (match priceInfo with Some i => pi_price i | None => None end)
            (match priceInfo with Some i => pi_avg i | None => None end)) |}.

(** [getSkinPriceHistory(marketHashName)]; [history.map] on a value that
    is not an array throws, and the [catch] block answers with []. *)
Definition getSkinPriceHistory (marketHashName : jsstring)
  : Async (list PricePoint) :=
  try_catch
    (let! history := getPriceHistory in
     match history with
     | ParsedOther => throw
     | ParsedLog history =>
       pure (List.filter (fun item => (0 <? price item)%float)
               (List.map (pointOf marketHashName) history))
     end)
    (pure []).

End PriceHistoryReads.

Module PriceStatsService.

Import PriceHistoryService.
Local Open Scope float_scope.

Record PriceStats := {
  min : float;
  max : float;
  avg : float;
  current : float
}.

(** One round of [Math.min]: [NaN] wins over everything, the negative zero
    counts as less than the positive zero. *)
Definition min_step (lowest number : float) : float :=
  if is_nan lowest || is_nan number then nan
  else match classify number, classify lowest with
       | NZero, PZero => number
       | _, _ => if number <? lowest then number else lowest
       end.

(** [Math.min(...values)] *)
Definition Math_min (values : list float) : float :=
  fold_left min_step values infinity.

Definition max_step (highest number : float) : float :=
  if is_nan highest || is_nan number then nan
  else match classify number, classify highest with
       | PZero, NZero => number
       | _, _ => if highest <? number then number else highest
       end.

(** [Math.max(...values)] *)
Definition Math_max (values : list float) : float :=
  fold_left max_step values neg_infinity.

(** The length of an array as a number. *)
Definition lengthOf {A} (l : list A) : float :=
  of_uint63 (Uint63Axioms.of_Z (Z.of_nat (length l))).

Definition getPriceStats (priceHistory : option (list PricePoint))
  : PriceStats :=
  match priceHistory with
  | None | Some [] => {| min := 0; max := 0; avg := 0; current := 0 |}
  | Some (first :: rest) =>
    let prices := List.map price (first :: rest) in
    let min := Math_min prices in
    let max := Math_max prices in
    let avg :=
      fold_left (fun sum price => sum + price) prices 0 / lengthOf prices in
    let current := List.last prices (price first) in
    {| min := min; max := max; avg := avg; current := current |}
  end.

End PriceStatsService.

(* ===================================================================== *)
(** * The price chart: the period of the history it shows *)
(* ===================================================================== *)

Module PriceChart.

Import PriceHistoryService.
Local Open Scope Z_scope.

(** The periods the chart offers. *)
Inductive Period := Days7 | Days14 | Days30.

(** The table [periodMs]. *)
Definition periodMs (period : Period) : Z :=
  match period with
  | Days7 => 7 * 24 * 60 * 60 * 1000
  | Days14 => 14 * 24 * 60 * 60 * 1000
  | Days30 => 30 * 24 * 60 * 60 * 1000
  end.

(** The filter of [loadPriceHistory]:
    [history.filter((item) => now - item.timestamp <= periodMs[period])]. *)
Definition filterByPeriod (now : Z) (period : Period)
    (history : list PricePoint) : list PricePoint :=
  List.filter (fun item => now - pp_timestamp item <=? periodMs period)
    history.

End PriceChart.

(* ===================================================================== *)
(** * The trending service: the price list it starts from, the top movers *)
(* ===================================================================== *)

Module TrendingFeed.

Import CsfloatService.
Local Open Scope R_scope.

(** [array.slice(0, end)] for an integer [end]: a negative [end] counts
    from the end of the array. *)
Definition slice_to {A} (l : list A) (finish : Z) : list A :=
  if (finish <? 0)%Z
  then firstn (Z.to_nat (Z.of_nat (length l) + finish)) l
  else firstn (Z.to_nat finish) l.

(** [getTopMovers(processedListings, count)]; [count] defaults to 3. *)
Definition getTopMovers (processedListings : list TrendingItem)
    (count : option Z) : list TrendingItem :=
  slice_to processedListings (match count with Some c => c | None => 3%Z end).

(** What [fetch] of the price list comes to: the request fails, or it is
    answered with a status that is [ok] or not and a body that parses to an
    array of price items or does not. *)
Inductive PriceResponse :=
| Failed
| Responded (ok : bool) (json : option (list Listing)).

(** The comparator of the sort by volume. *)
Definition compareVolume (a b : Listing) : R := qty b - qty a.

(** [{...priceItem, skinData: skinsMap[priceItem.market_hash_name] || null}],
    with the lookup in the map of [fetchAllSkinsData] as a function of the
    name. *)
Definition mergeSkin (skinsMap : option jsstring -> option SkinData)
    (priceItem : Listing) : Listing :=
  {| market_hash_name := market_hash_name priceItem;
     min_price := min_price priceItem;
     max_price := max_price priceItem;
     qty := qty priceItem;
     skinData := skinsMap (market_hash_name priceItem) |}.

(** [fetchTrendingListings(limit)] after its two requests have settled;
    [fetchAllSkinsData] never rejects.  Every failure ends in the [catch],
    which returns the empty array. *)
Definition fetchTrendingListings (limit : Z) (priceResponse : PriceResponse)
    (skinsMap : option jsstring -> option SkinData) : list Listing :=
  match priceResponse with
  | Responded true (Some dataArray) =>
    let merged := List.map (mergeSkin skinsMap) dataArray in
    let sorted :=
      Array_sort compareVolume
        (List.filter
           (fun item =>
              (if Rlt_dec 0 (qty item) then true else false)
              && (if Rlt_dec 0 (min_price item) then true else false))
           merged) in
    if (0 <? limit)%Z then slice_to sorted limit else sorted
  | _ => []
  end.

End TrendingFeed.

(* ===================================================================== *)
(** * The skin catalogue the trending service matches prices against *)
(* ===================================================================== *)

Module SkinCatalogue.

Import CsfloatService PriceService.

(** A skin of the catalogue: its name, the names of its wears
    ([skin.wears], each [wear.name]), the truthiness of [skin.stattrak], and
    the fields the trending service reads later, among them
    [category?.name] and [weapon?.name].  The entries of the catalogue are
    objects, and so are the wears. *)
Record Skin := {
  sk_name : jsstring;
  sk_wears : option (list jsstring);
  sk_stattrak : bool;
  sk_data : SkinData
}.

Definition API_BASE_URL : jsstring :=
  js "https://bymykel.github.io/CSGO-API/api/en".

Definition RAW_GITHUB_URL : jsstring :=
  js "https://raw.githubusercontent.com/ByMykel/CSGO-API/main/public/api/en".

Definition endpoints : list jsstring :=
  [ RAW_GITHUB_URL ++ js "/skins.json";
    API_BASE_URL ++ js "/skins.json";
    RAW_GITHUB_URL ++ js "/skins_not_grouped.json";
    API_BASE_URL ++ js "/skins_not_grouped.json" ].

(** What [fetchWithTimeout] of an endpoint comes to: it rejects (network
    error, timeout), or it is answered with a status that is [ok] or not
    and a body that parses to an array of skins or does not. *)
Inductive Reply :=
| Unreachable
| Replied (ok : bool) (json : option (list Skin)).

Definition excludedCategories : list jsstring :=
  List.map js
    [ "Sticker"; "Graffiti"; "Patch"; "Agent"; "Music Kit"; "Container";
      "Tool"; "Key"; "Pass"; "Gift"; "Tag" ]%string.

(** [category === text] for a category that may be [undefined]. *)
Definition category_is (category : option jsstring) (text : jsstring) : bool :=
  match category with
  | Some c => str_eqb c text
  | None => false
  end.

(** The callback of [data.filter]. *)
Definition keepSkin (skin : Skin) : bool :=
  let category := sd_category_name (sk_data skin) in
  if existsb (category_is category) excludedCategories then false
  else truthy_ostr (sd_weapon_name (sk_data skin))
       || category_is category (js "Knives")
       || category_is category (js "Gloves").

(** The loop over the endpoints: the first endpoint that answers [ok] with
    an array decides; [None] is the rejection with the last error. *)
Fixpoint tryEndpoints (fetch : jsstring -> Reply) (remaining : list jsstring)
  : option (list Skin) :=
  match remaining with
  | [] => None
  | endpoint :: rest =>
    match fetch endpoint with
    | Replied true (Some data) => Some (List.filter keepSkin data)
    | _ => tryEndpoints fetch rest
    end
  end.

(** [fetchSkinsFromAPI()], given what each request comes to. *)
Definition fetchSkinsFromAPI (fetch : jsstring -> Reply)
  : option (list Skin) :=
  tryEndpoints fetch endpoints.

(** The lookup object [skinsMap]: its own properties.  Its keys are never
    listed, so their order is left open. *)
Definition SkinsMap : Type := list (jsstring * SkinData).

Fixpoint assign (skinsMap : SkinsMap) (key : jsstring) (value : SkinData)
  : SkinsMap :=
  match skinsMap with
  | [] => [(key, value)]
  | (k, v) :: rest =>
    if str_eqb k key then (k, value) :: rest
    else (k, v) :: assign rest key value
  end.

(** [skinsMap[key] = value].  An assignment to ["__proto__"] creates no
    property (it replaces the prototype, which is not followed here). *)
Definition Object_assign (skinsMap : SkinsMap) (key : jsstring)
    (value : SkinData) : SkinsMap :=
  if str_eqb key (js "__proto__") then skinsMap else assign skinsMap key value.

(** The body of [skin.wears.forEach]. *)
Definition addWear (skin : Skin) (skinsMap : SkinsMap) (wearName : jsstring)
  : SkinsMap :=
  let marketHashName := sk_name skin ++ js " (" ++ wearName ++ js ")" in
  let skinsMap := Object_assign skinsMap marketHashName (sk_data skin) in
  if sk_stattrak skin
  then Object_assign skinsMap (js "StatTrak™ " ++ marketHashName)
         (sk_data skin)
  else skinsMap.

(** The body of [skins.forEach]. *)
Definition addSkin (skinsMap : SkinsMap) (skin : Skin) : SkinsMap :=
  match sk_wears skin with
  | Some (wear :: wears) => fold_left (addWear skin) (wear :: wears) skinsMap
  | _ =>
    let skinsMap := Object_assign skinsMap (sk_name skin) (sk_data skin) in
    if sk_stattrak skin
    then Object_assign skinsMap (js "StatTrak™ " ++ sk_name skin)
           (sk_data skin)
    else skinsMap
  end.

(** [fetchAllSkinsData()]: the [catch] turns a failed fetch into the empty
    object. *)
Definition fetchAllSkinsData (fetch : jsstring -> Reply) : SkinsMap :=
  match fetchSkinsFromAPI fetch with
  | Some skins => fold_left addSkin skins []
  | None => []
  end.

Fixpoint ownSkin (skinsMap : SkinsMap) (key : jsstring) : option SkinData :=
  match skinsMap with
  | [] => None
  | (k, v) :: rest => if str_eqb k key then Some v else ownSkin rest key
  end.

(** What reading the fields of an inherited member of [Object.prototype]
    gives: every field is [undefined]. *)
Definition inheritedSkin : SkinData :=
  {| sd_image := None; sd_rarity_name := None; sd_rarity_color := None;
     sd_description := None; sd_category_name := None;
     sd_weapon_name := None |}.

(** [skinsMap[priceItem.market_hash_name] || null]: a missing name is the
    key ["undefined"]; every object is truthy, an inherited member too. *)
Definition skinDataFor (skinsMap : SkinsMap) (name : option jsstring)
  : option SkinData :=
  let key := match name with Some s => s | None => js "undefined" end in
  match ownSkin skinsMap key with
  | Some skinData => Some skinData
  | None =>
    if existsb (str_eqb key) Object_prototype_names
    then Some inheritedSkin else None
  end.

End SkinCatalogue.

(* ===================================================================== *)
(** * seedImageService.js: special patterns *)
(* ===================================================================== *)

Module SeedImageService.

Definition specialPatterns : list jsstring :=
  List.map js ["Doppler"; "Case Hardened"; "Fade"; "Marble Fade"]%string.

(** [isSpecialPattern(patternName)]; [None] is a pattern name that is
    [null] or [undefined], for which [patternName?.includes(sp)] is
    [undefined]. *)
Definition isSpecialPattern (patternName : option jsstring) : bool :=
  existsb
    (fun sp =>
       match patternName with
       | Some name => includes name sp
       | None => false
       end)
    specialPatterns.

End SeedImageService.

(* ===================================================================== *)
(** * MiniSparkline.js: the points of the trend line *)
(* ===================================================================== *)

Module MiniSparkline.

Local Open Scope R_scope.

(** [array.map((value, index) => ...)] from the index [index] on. *)
Fixpoint mapIndexed {A B} (f : A -> nat -> B) (l : list A) (index : nat)
  : list B :=
  match l with
  | [] => []
  | value :: rest => f value index :: mapIndexed f rest (S index)
  end.

(** The points of the polyline, as pairs of numbers, before they are
    written out as text; [None] is the flat line drawn for fewer than two
    values.  Numbers are real numbers here, as in the trending service whose
    price histories the sparkline draws.  The code computes in binary64:
    the real numbers stand for it where [max - min] stays finite, which
    holds for values of magnitude at most [2 ^ 1022]; beyond that the
    difference overflows to [Infinity] and the code's [y] is [NaN] where
    the value meets [min] (for -1e308, 0, 1e308 for instance).  The
    properties of the points are stated for values within that magnitude.
    The other steps only round: a quotient of [0 <= a <= b] rounds into
    [0..1], its product with the height into [0..height]. *)
Definition sparklinePoints (data : list R) (width height : R)
  : option (list (R * R)) :=
  match data with
  | first :: second :: rest =>
    let max := fold_left Rmax (second :: rest) first in
    let min := fold_left Rmin (second :: rest) first in
    let range := if Req_EM_T (max - min) 0 then 1 else max - min in
    Some (mapIndexed
            (fun value index =>
               let x := INR index / (INR (length data) - 1) * width in
               let y := height - (value - min) / range * height in
               (x, y))
            data 0)
  | _ => None
  end.

End MiniSparkline.

(* ===================================================================== *)
(** * Properties *)
(* ===================================================================== *)

(** ** Facts about the string operations *)
Module JSFacts.

Lemma unit_eqb_eq a b : unit_eqb a b = true <-> a = b.
Proof. apply N.eqb_eq. Qed.

Lemma str_eqb_eq a b : str_eqb a b = true <-> a = b.
Proof.
  revert b. induction a as [|x a IH]; intros [|y b]; simpl;
    try (split; [discriminate|congruence]); [tauto|].
  rewrite andb_true_iff, unit_eqb_eq, IH. split.
  - intros [-> ->]. reflexivity.
  - intros [= -> ->]. auto.
Qed.

Lemma str_eqb_refl a : str_eqb a a = true.
Proof. apply str_eqb_eq. reflexivity. Qed.

Lemma startsWith_app s p : startsWith (p ++ s) p = true.
Proof.
  induction p as [|a p IH]; simpl; [reflexivity|].
  unfold unit_eqb. rewrite N.eqb_refl. exact IH.
Qed.

Lemma startsWith_prefix s p :
  startsWith s p = true <-> exists t, s = p ++ t.
Proof.
  split.
  - revert s. induction p as [|a p IH]; intros s H.
    + exists s. reflexivity.
    + destruct s as [|b s]; simpl in H; [discriminate|].
      apply andb_prop in H as [Hab H].
      apply unit_eqb_eq in Hab. subst b.
      destruct (IH _ H) as [t ->]. exists t. reflexivity.
  - intros [t ->]. apply startsWith_app.
Qed.

Lemma startsWith_includes s sub :
  startsWith s sub = true -> includes s sub = true.
Proof. intros H. destruct s; simpl; rewrite H; reflexivity. Qed.

Lemma includes_infix s sub :
  includes s sub = true <-> exists pre post, s = pre ++ sub ++ post.
Proof.
  split.
  - induction s as [|c s IH]; simpl; intros H.
    + apply orb_prop in H as [H|H]; [|discriminate].
      apply startsWith_prefix in H as [t Ht]. exists [], t. exact Ht.
    + apply orb_prop in H as [H|H].
      * apply startsWith_prefix in H as [t Ht]. exists [], t. exact Ht.
      * destruct (IH H) as (pre & post & ->).
        exists (c :: pre), post. reflexivity.
  - intros (pre & post & ->).
    induction pre as [|c pre IH].
    + apply startsWith_includes, (startsWith_app post sub).
    + simpl. simpl in IH. rewrite IH. apply orb_true_r.
Qed.

Lemma toLowerCase_app a b :
  toLowerCase (a ++ b) = toLowerCase a ++ toLowerCase b.
Proof. unfold toLowerCase. apply flat_map_app. Qed.

(** Lower-casing commutes with the search for a substring. *)
Lemma includes_toLowerCase s sub :
  includes s sub = true ->
  includes (toLowerCase s) (toLowerCase sub) = true.
Proof.
  intros H. apply includes_infix in H as (pre & post & ->).
  apply includes_infix. rewrite !toLowerCase_app. eauto.
Qed.

Lemma includes_app_l s t sub :
  includes s sub = true -> includes (s ++ t) sub = true.
Proof.
  intros H. apply includes_infix in H as (pre & post & ->).
  apply includes_infix. exists pre, (post ++ t).
  rewrite <- !app_assoc. reflexivity.
Qed.

Lemma includes_app_r s t sub :
  includes t sub = true -> includes (s ++ t) sub = true.
Proof.
  intros H. apply includes_infix in H as (pre & post & ->).
  apply includes_infix. exists (s ++ pre), post.
  rewrite <- !app_assoc. reflexivity.
Qed.

End JSFacts.

(** ** The category classifier *)
Module ClassifierProps.

Import ApiService JSFacts.

(** The keyword lists of the classifier as the specification describes
    them: one list per category, in the priority order Knife, Rifle,
    Pistol, SMG, Shotgun, MachineGun, Gloves. *)
Definition priorityTable : list (Category * list jsstring) :=
  [ (Knife, [js "knife"; js "bayonet"; js "karambit"]);
    (Rifle, [js "ak-47"; js "m4a4"; js "m4a1"; js "aug"; js "sg 553";
             js "famas"; js "galil"; js "awp"; js "ssg 08"; js "scar-20";
             js "g3sg1"]);
    (Pistol, [js "glock"; js "usp"; js "p2000"; js "p250"; js "five-seven";
              js "tec-9"; js "cz75"; js "desert eagle"; js "dual berettas";
              js "r8 revolver"]);
    (SMG, [js "mac-10"; js "mp9"; js "mp7"; js "mp5"; js "ump-45";
           js "p90"; js "pp-bizon"]);
    (Shotgun, [js "nova"; js "xm1014"; js "mag-7"; js "sawed-off"]);
    (MachineGun, [js "m249"; js "negev"]);
    (Gloves, [js "gloves"; js "glove"; js "wraps"; js "hand wraps";
              js "handwraps"]) ].

(** First match wins; no match is Other. *)
Fixpoint firstMatch (name : jsstring) (table : list (Category * list jsstring))
  : Category :=
  match table with
  | [] => Other
  | (c, keywords) :: rest =>
    if existsb (includes name) keywords then c else firstMatch name rest
  end.

Definition knifeKeywords : list jsstring :=
  [js "karambit"; js "bayonet"; js "knife"].

(** The nested conditionals of [determineCategory] are the first-match
    search through the priority table. *)
Lemma determineCategory_firstMatch weaponName :
  determineCategory weaponName
  = firstMatch (toLowerCase weaponName) priorityTable.
Proof.
  unfold determineCategory, priorityTable.
  cbv beta iota zeta delta [firstMatch existsb].
  rewrite !orb_false_r, !orb_assoc. reflexivity.
Qed.

Lemma knife_keyword_wins weaponName variant keyword :
  In keyword knifeKeywords ->
  toLowerCase variant = keyword ->
  includes weaponName variant = true ->
  determineCategory weaponName = Knife.
Proof.
  intros Hin Hlow Hinc.
  apply includes_toLowerCase in Hinc. rewrite Hlow in Hinc.
  unfold determineCategory. cbv zeta.
  destruct Hin as [<-|[<-|[<-|[]]]]; rewrite Hinc;
    rewrite ?orb_true_r, ?orb_true_l; reflexivity.
Qed.

(** C4. A weapon name that contains "karambit", "bayonet" or "knife" in
    any letter case (a substring whose lower-case form is the keyword) is
    classified Knife, whatever else it contains: "AK-47 Knife" carries the
    rifle keyword "ak-47" and is still Knife.  The classifier is the
    first-match search through the keyword lists in the priority order
    Knife, Rifle, Pistol, SMG, Shotgun, MachineGun, Gloves, else Other. *)
Theorem determineCategory_knife_priority :
  (forall weaponName variant keyword,
      In keyword knifeKeywords ->
      toLowerCase variant = keyword ->
      includes weaponName variant = true ->
      determineCategory weaponName = Knife)
  /\ (includes (toLowerCase (js "AK-47 Knife")) (js "ak-47") = true
      /\ determineCategory (js "AK-47 Knife") = Knife)
  /\ (forall weaponName,
         determineCategory weaponName
         = firstMatch (toLowerCase weaponName) priorityTable).
Proof.
  split; [|split].
  - exact knife_keyword_wins.
  - split; vm_compute; reflexivity.
  - exact determineCategory_firstMatch.
Qed.

Lemma determineCategory_knife_priority_witness :
  In (js "karambit") knifeKeywords
  /\ toLowerCase (js "KaRaMbIt") = js "karambit"
  /\ includes (js "StatTrak AUG KaRaMbIt | Fade") (js "KaRaMbIt") = true
  /\ determineCategory (js "StatTrak AUG KaRaMbIt | Fade") = Knife.
Proof.
  assert (Hin : In (js "karambit") knifeKeywords) by (left; reflexivity).
  assert (Hlow : toLowerCase (js "KaRaMbIt") = js "karambit")
    by (vm_compute; reflexivity).
  assert (Hinc : includes (js "StatTrak AUG KaRaMbIt | Fade")
                   (js "KaRaMbIt") = true) by (vm_compute; reflexivity).
  split; [exact Hin|split; [exact Hlow|split; [exact Hinc|]]].
  exact (proj1 determineCategory_knife_priority _ _ _ Hin Hlow Hinc).
Defined.

End ClassifierProps.

(** ** The category filter of the trending list *)
Module CategoryFilterProps.

Import ApiService CsfloatService JSFacts.

(** The keyword lists [filterByCategory] tests a lower-cased display name
    against, by category name. *)
Definition filterTable : list (jsstring * list jsstring) :=
  [ (js "Knife", [js "★"; js "knife"]);
    (js "Gloves", [js "gloves"; js "wraps"]);
    (js "Rifle", [js "ak-47"; js "m4a4"; js "m4a1"; js "awp"; js "aug";
                  js "sg 553"; js "famas"; js "galil"]);
    (js "Pistol", [js "glock"; js "usp"; js "p2000"; js "p250";
                   js "desert eagle"; js "deagle"]);
    (js "SMG", [js "mp9"; js "mac-10"; js "p90"; js "ump"]) ].

Fixpoint keywordsFor (category : jsstring)
    (table : list (jsstring * list jsstring)) : option (list jsstring) :=
  match table with
  | [] => None
  | (c, keywords) :: rest =>
    if str_eqb category c then Some keywords else keywordsFor category rest
  end.

(** Whether the filter keeps a lower-cased display name: always for a
    missing or empty category and for "All"; by the keyword list of a
    category of the table; always for any other category name. *)
Definition keeps (category : option jsstring) (lowerName : jsstring) : bool :=
  match category with
  | None => true
  | Some c =>
    if negb (truthy_str c) || str_eqb c (js "All") then true
    else match keywordsFor c filterTable with
         | Some keywords => existsb (includes lowerName) keywords
         | None => true
         end
  end.

(** A glove listing and a rifle listing. *)
Definition sportGloves : TrendingItem :=
  {| name := js "★ Sport Gloves | Vice (Field-Tested)";
     currentPrice := 1; referencePrice := 1; priceChange := 0;
     priceChangeAbs := 0; image := None; volume := 1;
     rarity := js "Extraordinary"; rarityColor := js "#eb4b4b";
     description := []; isStatTrak := false; isSouvenir := false;
     minPrice := 1; maxPrice := 1; category := js "Gloves";
     weapon := js "Sport Gloves"; priceHistory := [] |}.

Definition redline : TrendingItem :=
  {| name := js "AK-47 | Redline (Field-Tested)";
     currentPrice := 1; referencePrice := 1; priceChange := 0;
     priceChangeAbs := 0; image := None; volume := 1;
     rarity := js "Classified"; rarityColor := js "#eb4b4b";
     description := []; isStatTrak := false; isSouvenir := false;
     minPrice := 1; maxPrice := 1; category := js "Rifles";
     weapon := js "AK-47"; priceHistory := [] |}.

Lemma categoryTest_keeps c item :
  truthy_str c = true -> str_eqb c (js "All") = false ->
  categoryTest c item = keeps (Some c) (toLowerCase (name item)).
Proof.
  intros Hc Hall. unfold keeps. rewrite Hc, Hall.
  cbv beta iota delta [negb orb].
  unfold categoryTest, filterTable.
  cbv beta iota zeta delta [keywordsFor].
  repeat match goal with
         | |- context [if str_eqb ?a ?b then _ else _] =>
           destruct (str_eqb a b);
           [cbv beta iota delta [existsb];
            rewrite ?orb_false_r, ?orb_assoc; reflexivity|]
         end.
  reflexivity.
Qed.

Lemma filterByCategory_keeps listings category :
  filterByCategory listings category
  = List.filter (fun item => keeps category (toLowerCase (name item)))
      listings.
Proof.
  assert (Hid : forall l : list TrendingItem,
             l = List.filter (fun _ => true) l).
  { induction l as [|x l IH]; simpl; congruence. }
  unfold filterByCategory.
  destruct category as [c|]; [|apply Hid].
  destruct (str_eqb c (js "All")) eqn:Hall.
  - unfold keeps. rewrite Hall, orb_true_r. apply Hid.
  - destruct (truthy_str c) eqn:Hc.
    + apply filter_ext. intros item.
      apply categoryTest_keeps; assumption.
    + unfold keeps. rewrite Hc. apply Hid.
Qed.

Lemma rifle_filter_classified listings item :
  In item (filterByCategory listings (Some (js "Rifle"))) ->
  determineCategory (name item) = Rifle
  \/ determineCategory (name item) = Knife.
Proof.
  intros H.
  assert (Ht : categoryTest (js "Rifle") item = true).
  { change (filterByCategory listings (Some (js "Rifle")))
      with (List.filter (categoryTest (js "Rifle")) listings) in H.
    apply filter_In in H. tauto. }
  change (categoryTest (js "Rifle") item) with
    (let name := toLowerCase (name item) in
     includes name (js "ak-47") || includes name (js "m4a4")
     || includes name (js "m4a1") || includes name (js "awp")
     || includes name (js "aug") || includes name (js "sg 553")
     || includes name (js "famas") || includes name (js "galil")) in Ht.
  cbv zeta in Ht. unfold determineCategory. cbv zeta.
  match goal with
  | |- context [if ?k then Knife else _] => destruct k; [right; reflexivity|]
  end.
  left. repeat rewrite orb_true_iff in Ht.
  repeat match type of Ht with _ \/ _ => destruct Ht as [Ht|Ht] end;
    rewrite Ht; rewrite ?orb_true_r; reflexivity.
Qed.

(** C3, as the specification states it, fails: with the category "Knife"
    the filter keeps a glove listing (it carries the star marker), which the
    classifier assigns to Gloves; and with the category "Shotgun", for which
    the filter has no rule, it keeps a rifle listing. *)
Lemma filterByCategory_differs_from_classifier :
  filterByCategory [sportGloves] (Some (js "Knife")) = [sportGloves]
  /\ determineCategory (name sportGloves) = Gloves
  /\ filterByCategory [redline] (Some (js "Shotgun")) = [redline]
  /\ determineCategory (name redline) = Rifle.
Proof. repeat split; reflexivity. Qed.

(** What the test of a category says of a kept item. *)
Lemma filterByCategory_test listings c item :
  truthy_str c = true -> str_eqb c (js "All") = false ->
  In item (filterByCategory listings (Some c)) ->
  categoryTest c item = true.
Proof.
  intros Hc Hall H. unfold filterByCategory in H.
  rewrite Hc, Hall in H. cbn [negb orb] in H.
  apply filter_In in H. tauto.
Qed.

(** Reads the category off [determineCategory], one keyword list after the
    other, with what the filter found in the name at hand in [Ht]. *)
Ltac classify_with Ht :=
  unfold determineCategory; cbv zeta;
  repeat match goal with
         | |- context [if ?c then _ else _] =>
           let E := fresh "E" in
           destruct c eqn:E; [simpl; tauto|]
         end;
  exfalso;
  repeat match goal with
         | E : _ || _ = false |- _ => apply orb_false_iff in E as [? ?]
         end;
  repeat rewrite orb_true_iff in Ht;
  intuition congruence.

Lemma gloves_filter_classified listings item :
  In item (filterByCategory listings (Some (js "Gloves"))) ->
  In (determineCategory (name item))
    [Knife; Rifle; Pistol; SMG; Shotgun; MachineGun; Gloves].
Proof.
  intros H.
  pose proof (filterByCategory_test listings (js "Gloves") item
                eq_refl eq_refl H) as Ht.
  change (categoryTest (js "Gloves") item) with
    (let name := toLowerCase (name item) in
     includes name (js "gloves") || includes name (js "wraps")) in Ht.
  cbv zeta in Ht. classify_with Ht.
Qed.

Lemma knife_filter_classified listings item :
  In item (filterByCategory listings (Some (js "Knife"))) ->
  includes (toLowerCase (name item)) (js "★") = true
  \/ determineCategory (name item) = Knife.
Proof.
  intros H.
  pose proof (filterByCategory_test listings (js "Knife") item
                eq_refl eq_refl H) as Ht.
  change (categoryTest (js "Knife") item) with
    (let name := toLowerCase (name item) in
     includes name (js "★") || includes name (js "knife")) in Ht.
  cbv zeta in Ht.
  destruct (includes (toLowerCase (name item)) (js "★"));
    [left; reflexivity|right].
  cbn [orb] in Ht. unfold determineCategory. cbv zeta.
  rewrite Ht. reflexivity.
Qed.

Lemma pistol_filter_classified listings item :
  In item (filterByCategory listings (Some (js "Pistol"))) ->
  includes (toLowerCase (name item)) (js "deagle") = true
  \/ In (determineCategory (name item)) [Knife; Rifle; Pistol].
Proof.
  intros H.
  pose proof (filterByCategory_test listings (js "Pistol") item
                eq_refl eq_refl H) as Ht.
  change (categoryTest (js "Pistol") item) with
    (let name := toLowerCase (name item) in
     includes name (js "glock") || includes name (js "usp")
     || includes name (js "p2000") || includes name (js "p250")
     || includes name (js "desert eagle") || includes name (js "deagle"))
    in Ht.
  cbv zeta in Ht.
  destruct (includes (toLowerCase (name item)) (js "deagle"));
    [left; reflexivity|right].
  rewrite orb_false_r in Ht. classify_with Ht.
Qed.

Lemma smg_filter_classified listings item :
  In item (filterByCategory listings (Some (js "SMG"))) ->
  includes (toLowerCase (name item)) (js "ump") = true
  \/ In (determineCategory (name item)) [Knife; Rifle; Pistol; SMG].
Proof.
  intros H.
  pose proof (filterByCategory_test listings (js "SMG") item
                eq_refl eq_refl H) as Ht.
  change (categoryTest (js "SMG") item) with
    (let name := toLowerCase (name item) in
     includes name (js "mp9") || includes name (js "mac-10")
     || includes name (js "p90") || includes name (js "ump")) in Ht.
  cbv zeta in Ht.
  destruct (includes (toLowerCase (name item)) (js "ump"));
    [left; reflexivity|right].
  rewrite orb_false_r in Ht. classify_with Ht.
Qed.

(** C3, amended.  [filterByCategory] keeps exactly the items whose
    lower-cased display name passes its own rule for the category, in their
    order: a missing or empty category and "All" keep everything; "Knife",
    "Gloves", "Rifle", "Pistol" and "SMG" keep the names that contain one of
    the keywords of [filterTable]; any other category keeps everything.
    These rules are not the classifier's, but they overlap with them.
    Every keyword of the filter for "Rifle" and for "Gloves" is a keyword of
    the classifier for that category, so an item kept for one of them is
    classified in that category or in one that comes before it in the
    classifier's order (Rifle or Knife for "Rifle"; any category but Other
    for "Gloves").  The same holds of an item kept for "Knife", "Pistol" or
    "SMG" unless its name contains the keyword of the filter that the
    classifier does not have: the star marker, "deagle", "ump". *)
Theorem filterByCategory_own_rules :
  forall listings category,
    filterByCategory listings category
    = List.filter (fun item => keeps category (toLowerCase (name item)))
        listings
    /\ (forall item,
           In item (filterByCategory listings category) <->
           In item listings
           /\ keeps category (toLowerCase (name item)) = true)
    /\ (forall item,
           In item (filterByCategory listings (Some (js "Rifle"))) ->
           determineCategory (name item) = Rifle
           \/ determineCategory (name item) = Knife)
    /\ (forall item,
           In item (filterByCategory listings (Some (js "Gloves"))) ->
           In (determineCategory (name item))
             [Knife; Rifle; Pistol; SMG; Shotgun; MachineGun; Gloves])
    /\ (forall item,
           In item (filterByCategory listings (Some (js "Knife"))) ->
           includes (toLowerCase (name item)) (js "★") = true
           \/ determineCategory (name item) = Knife)
    /\ (forall item,
           In item (filterByCategory listings (Some (js "Pistol"))) ->
           includes (toLowerCase (name item)) (js "deagle") = true
           \/ In (determineCategory (name item)) [Knife; Rifle; Pistol])
    /\ (forall item,
           In item (filterByCategory listings (Some (js "SMG"))) ->
           includes (toLowerCase (name item)) (js "ump") = true
           \/ In (determineCategory (name item))
                [Knife; Rifle; Pistol; SMG])
    /\ (forall keywords classifierKeywords,
           keywordsFor (js "Rifle") filterTable = Some keywords ->
           In (Rifle, classifierKeywords) ClassifierProps.priorityTable ->
           incl keywords classifierKeywords)
    /\ (forall keywords classifierKeywords,
           keywordsFor (js "Gloves") filterTable = Some keywords ->
           In (Gloves, classifierKeywords) ClassifierProps.priorityTable ->
           incl keywords classifierKeywords).
Proof.
  intros listings category. split; [apply filterByCategory_keeps|split].
  - intros item. rewrite filterByCategory_keeps. apply filter_In.
  - split; [intros item; apply rifle_filter_classified|].
    split; [intros item; apply gloves_filter_classified|].
    split; [intros item; apply knife_filter_classified|].
    split; [intros item; apply pistol_filter_classified|].
    split; [intros item; apply smg_filter_classified|].
    split; intros keywords classifierKeywords Hk Hin;
      injection Hk as <-;
      unfold ClassifierProps.priorityTable in Hin; cbn [In] in Hin;
      repeat match type of Hin with
             | _ \/ _ => destruct Hin as [Hin|Hin]
             end;
      try discriminate Hin; try contradiction;
      injection Hin as <-; intros k Hk; cbn [In] in Hk |- *; tauto.
Qed.

Lemma filterByCategory_own_rules_witness :
  In redline (filterByCategory [sportGloves; redline] (Some (js "Rifle")))
  /\ (determineCategory (name redline) = Rifle
      \/ determineCategory (name redline) = Knife)
  /\ In sportGloves
       (filterByCategory [sportGloves; redline] (Some (js "Gloves")))
  /\ In (determineCategory (name sportGloves))
       [Knife; Rifle; Pistol; SMG; Shotgun; MachineGun; Gloves].
Proof.
  assert (Hin : In redline
                  (filterByCategory [sportGloves; redline]
                     (Some (js "Rifle"))))
    by (left; reflexivity).
  assert (Hgl : In sportGloves
                  (filterByCategory [sportGloves; redline]
                     (Some (js "Gloves"))))
    by (left; reflexivity).
  split; [exact Hin|]. split.
  - exact (proj1 (proj2 (proj2 (filterByCategory_own_rules
                                  [sportGloves; redline]
                                  (Some (js "Rifle"))))) redline Hin).
  - split; [exact Hgl|].
    exact (proj1 (proj2 (proj2 (proj2 (filterByCategory_own_rules
                                         [sportGloves; redline]
                                         (Some (js "Gloves"))))))
             sportGloves Hgl).
Defined.

End CategoryFilterProps.

(** ** The ranking of the trending list *)
Module TrendingProps.

Import CsfloatService.
Local Open Scope R_scope.


Section SortByKey.

(** A comparator that subtracts keys, as [scoreB - scoreA] does. *)
Context {A : Type} (key : A -> R) (cmp : A -> A -> R).
Hypothesis cmp_key : forall a b, cmp a b = key b - key a.

Definition descending (a b : A) : Prop := key b <= key a.

Lemma sort_insert_perm x l : Permutation (x :: l) (sort_insert cmp x l).
Proof using Type.
  induction l as [|y l IH]; simpl; [reflexivity|].
  destruct (Rlt_dec 0 (cmp x y)); [|reflexivity].
  rewrite perm_swap. constructor. exact IH.
Qed.

Lemma Array_sort_perm l : Permutation l (Array_sort cmp l).
Proof using Type.
  induction l as [|x l IH]; simpl; [reflexivity|].
  rewrite <- sort_insert_perm. constructor. exact IH.
Qed.

Lemma sort_insert_sorted x l :
  StronglySorted descending l ->
  StronglySorted descending (sort_insert cmp x l).
Proof using cmp_key.
  induction 1 as [|y l Hl IH Hy]; simpl.
  - constructor; constructor.
  - destruct (Rlt_dec 0 (cmp x y)) as [Hlt|Hge]; rewrite cmp_key in *.
    + constructor; [exact IH|].
      rewrite <- sort_insert_perm. constructor; [|exact Hy].
      unfold descending. lra.
    + constructor; [constructor; assumption|].
      constructor; [unfold descending; lra|].
      eapply Forall_impl; [exact Hy|].
      unfold descending. intros z Hz. lra.
Qed.

Lemma Array_sort_sorted l : StronglySorted descending (Array_sort cmp l).
Proof using cmp_key.
  induction l as [|x l IH]; simpl; [constructor|].
  apply sort_insert_sorted, IH.
Qed.





End SortByKey.

Definition abs_ok (it : TrendingItem) : Prop :=
  priceChangeAbs it = Rabs (priceChange it).

Lemma processListing_abs item rnd n :
  forall it, fst (processListing item rnd n) = Some it -> abs_ok it.
Proof.
  intros it. unfold processListing.
  destruct (skinData item) as [sd|]; [|discriminate].
  cbv beta iota zeta delta [bind ret calculatePriceChangePercent Math_random].
  match goal with |- context [generatePriceHistory ?a ?b ?c ?d ?e] => destruct (generatePriceHistory a b c d e) as [h k] end.
  simpl. intros [= <-]. reflexivity.
Qed.

Lemma mapRand_abs l : forall rnd n,
  Forall (fun o => forall it, o = Some it -> abs_ok it)
    (fst (mapRand processListing l rnd n)).
Proof.
  induction l as [|x l IH]; intros rnd n; simpl; [constructor|].
  unfold bind, ret.
  destruct (processListing x rnd n) as [o k] eqn:E.
  specialize (IH rnd k).
  destruct (mapRand processListing l rnd k) as [bs k'].
  simpl in *. constructor; [|exact IH].
  intros it ->. apply (processListing_abs x rnd n). rewrite E. reflexivity.
Qed.

Lemma keepProcessed_Some o it :
  keepProcessed o = Some it -> o = Some it /\ 0 < currentPrice it.
Proof.
  destruct o as [x|]; simpl; [|discriminate].
  destruct (Rlt_dec 0 (currentPrice x)); [|discriminate].
  intros [= ->]. auto.
Qed.

(** Listings used as concrete inputs. *)
Definition plainSkin : SkinData :=
  {| sd_image := None; sd_rarity_name := None; sd_rarity_color := None;
     sd_description := None; sd_category_name := None;
     sd_weapon_name := None |}.

Definition lowVolume : Listing :=
  {| market_hash_name := Some (js "AK-47 | Redline (Field-Tested)");
     min_price := 1000; max_price := None; qty := 10;
     skinData := Some plainSkin |}.
Definition highVolume : Listing :=
  {| market_hash_name := Some (js "AWP | Asiimov (Field-Tested)");
     min_price := 1000; max_price := None; qty := 20;
     skinData := Some plainSkin |}.


Lemma keepProcessed_pos it :
  0 < currentPrice it -> keepProcessed (Some it) = Some it.
Proof.
  intros H. simpl. destruct (Rlt_dec 0 (currentPrice it)); [reflexivity|].
  contradiction.
Qed.

Lemma processed_inv priceListData rnd n it :
  In it (fst (processTrendingListings priceListData rnd n)) ->
  abs_ok it /\ 0 < currentPrice it.
Proof.
  unfold processTrendingListings.
  destruct priceListData as [[|x l]|]; try (intros []).
  set (data := x :: l). clearbody data.
  unfold bind, ret. pose proof (mapRand_abs data rnd n) as Habs.
  destruct (mapRand processListing data rnd n) as [mapped k].
  simpl in *. intros Hin.
  apply (Permutation_in _ (Permutation_sym
           (Array_sort_perm compareTrending _))) in Hin.
  apply list_elem_of_In, list_elem_of_omap in Hin as (o & Ho & Hk).
  apply keepProcessed_Some in Hk as [-> Hpos].
  split; [|exact Hpos].
  rewrite List.Forall_forall in Habs.
  apply (Habs (Some it)); [apply list_elem_of_In, Ho|reflexivity].
Qed.






Lemma Rmin_small x : x <= 5 -> Rmin x 5 = x.
Proof. intros H. unfold Rmin. destruct (Rle_dec x 5); lra. Qed.


Definition busy : Listing :=
  {| market_hash_name := Some (js "AK-47 | Redline (Field-Tested)");
     min_price := 1000; max_price := None; qty := 5000;
     skinData := Some plainSkin |}.

Definition busier : Listing :=
  {| market_hash_name := Some (js "AWP | Asiimov (Field-Tested)");
     min_price := 1000; max_price := None; qty := 6000;
     skinData := Some plainSkin |}.

(** With every draw equal to 0.75 both listings get the change 10. *)
Lemma busy_listings_processed :
  exists a b,
    Permutation [a; b]
      (fst (processTrendingListings (Some [busy; busier])
              (fun _ => 0.75) 0%nat))
    /\ volume a = 5000 /\ volume b = 6000
    /\ priceChangeAbs a = 10 /\ priceChangeAbs b = 10.
Proof.
  eexists. eexists.
  unfold processTrendingListings.
  cbv beta iota zeta delta
    [mapRand bind ret processListing busy busier skinData
     calculatePriceChangePercent Math_random generatePriceHistory
     generatePriceHistory_loop qty min_price max_price market_hash_name
     fst snd omap list_omap].
  repeat match goal with
  | |- context [keepProcessed (Some ?it)] =>
    rewrite (keepProcessed_pos it) by (simpl; lra)
  end.
  split; [apply Array_sort_perm|]. simpl.
  assert (H5 : Rmin (5000 / 1000) 5 = 5)
    by (unfold Rmin; destruct (Rle_dec (5000 / 1000) 5); lra).
  assert (H6 : Rmin (6000 / 1000) 5 = 5)
    by (unfold Rmin; destruct (Rle_dec (6000 / 1000) 5); lra).
  rewrite H5, H6.
  replace ((0.75 - 0.5) * 20 * (1 + 5 / 5)) with 10 by lra.
  rewrite Rabs_pos_eq by lra. repeat split; reflexivity.
Qed.


End TrendingProps.

(** ** Facts about numbers *)
Module NumFacts.

Local Open Scope float_scope.

Lemma SFcompare_antisym x y :
  SFcompare y x
  = match SFcompare x y with Some c => Some (CompOpp c) | None => None end.
Proof.
  destruct x as [sx|sx| |sx mx ex], y as [sy|sy| |sy my ey]; simpl;
    try (destruct sx); try (destruct sy); try reflexivity.
  all: rewrite (Z.compare_antisym ex ey);
    destruct (ex ?= ey)%Z; simpl; try reflexivity;
    rewrite ?CompOpp_involutive, ?Pos.compare_cont_antisym; reflexivity.
Qed.

(** [x <= y] excludes [y < x]. *)
Lemma leb_not_ltb x y : (x <=? y) = true -> (y <? x) = false.
Proof.
  rewrite FloatAxioms.leb_spec, FloatAxioms.ltb_spec. unfold SFleb, SFltb.
  rewrite (SFcompare_antisym (Prim2SF x) (Prim2SF y)).
  destruct (SFcompare (Prim2SF x) (Prim2SF y)) as [[]|]; simpl; congruence.
Qed.

(** A number equal to zero (either zero) is not positive. *)
Lemma eqb_zero_not_pos x : (x =? 0) = true -> (0 <? x) = false.
Proof.
  rewrite FloatAxioms.eqb_spec, FloatAxioms.ltb_spec. unfold SFeqb, SFltb.
  rewrite (SFcompare_antisym (Prim2SF x) (Prim2SF 0)).
  destruct (SFcompare (Prim2SF x) (Prim2SF 0)) as [[]|]; simpl; congruence.
Qed.

(** A negative number is not zero and lies below one cent. *)
Lemma negative_below_cent x :
  (x <? 0) = true -> (x =? 0) = false /\ (x <? 0.01) = true.
Proof.
  rewrite FloatAxioms.eqb_spec, !FloatAxioms.ltb_spec. unfold SFeqb, SFltb.
  remember (Prim2SF 0) as z eqn:Hz. vm_compute in Hz.
  remember (Prim2SF 0.01) as c eqn:Hc. vm_compute in Hc. subst z c.
  destruct (Prim2SF x) as [s|s| |s m e]; cbv beta iota delta [SFcompare];
    try discriminate; destruct s; try discriminate; auto.
Qed.

End NumFacts.

(** ** The price resolver *)
Module ResolverProps.

Import PriceService JSFacts.

Lemma firstResult_ext f g wears :
  (forall w, In w wears -> f w = g w) ->
  firstResult f wears = firstResult g wears.
Proof.
  induction wears as [|w wears IH]; intros H; simpl; [reflexivity|].
  rewrite (H w) by (left; reflexivity).
  destruct (g w); [reflexivity|].
  apply IH. intros w' Hw'. apply H. right. exact Hw'.
Qed.

(** The loop returns the result of the first wear that has one. *)
Lemma firstResult_first f pre w post r :
  (forall w', In w' pre -> f w' = None) ->
  f w = Some r ->
  firstResult f (pre ++ w :: post) = Some r.
Proof.
  intros Hpre Hw. induction pre as [|p pre IH]; simpl.
  - rewrite Hw. reflexivity.
  - rewrite (Hpre p) by (left; reflexivity).
    apply IH. intros w' Hw'. apply Hpre. right. exact Hw'.
Qed.


Lemma commonWears_truthy w : In w commonWears -> truthy_str w = true.
Proof.
  intros H. repeat (destruct H as [<-|H]; [reflexivity|]). destruct H.
Qed.

(** A call with a wear makes no recursive call. *)
Lemma getSkinPrice_body_wear self1 self2 priceData skinName wear st sv :
  truthy_ostr wear = true ->
  getSkinPrice_body self1 priceData skinName wear st sv
  = getSkinPrice_body self2 priceData skinName wear st sv.
Proof.
  intros Hw. unfold getSkinPrice_body. rewrite Hw. reflexivity.
Qed.

(** The body depends on [self] only through calls with a common wear. *)
Lemma getSkinPrice_body_ext self1 self2 priceData skinName wear st sv :
  (forall w, In w commonWears ->
     self1 priceData skinName (Some w) st sv
     = self2 priceData skinName (Some w) st sv) ->
  getSkinPrice_body self1 priceData skinName wear st sv
  = getSkinPrice_body self2 priceData skinName wear st sv.
Proof.
  intros H. unfold getSkinPrice_body.
  rewrite (firstResult_ext _ _ _ H). reflexivity.
Qed.

(** [getSkinPrice] satisfies the recursive equation of the source. *)
Lemma getSkinPrice_unfold priceData skinName wear st sv :
  getSkinPrice priceData skinName wear st sv
  = getSkinPrice_body getSkinPrice priceData skinName wear st sv.
Proof.
  unfold getSkinPrice. apply getSkinPrice_body_ext.
  intros w Hw. apply getSkinPrice_body_wear.
  apply commonWears_truthy, Hw.
Qed.


Lemma ownProperty_key priceData key :
  In key (Object_keys priceData) ->
  exists info, ownProperty priceData key = Some info.
Proof.
  induction priceData as [|[k v] pd IH]; simpl; [intros []|].
  intros [->|H].
  - rewrite str_eqb_refl. eauto.
  - destruct (str_eqb k key); eauto.
Qed.

Lemma get_ownProperty priceData key info :
  ownProperty priceData key = Some info -> get priceData key = Some info.
Proof. intros H. unfold get. rewrite H. reflexivity. Qed.


(** What the fallback search returns is a key of the map that passes the
    test of strategy 1, or of strategy 2 when StatTrak was requested. *)
Lemma fallbackSearch_key priceData skinName wear stattrak key :
  fallbackSearch priceData skinName wear stattrak = Some key ->
  let baseWeapon := trim (nth 0 (split skinName 124) []) in
  let hasPattern := includes skinName (js "|") in
  let pattern :=
    if hasPattern then trim (nth 1 (split skinName 124) []) else [] in
  In key (Object_keys priceData)
  /\ (fallbackTest baseWeapon pattern hasPattern wear stattrak key = true
      \/ stattrak = true
         /\ fallbackTest baseWeapon pattern hasPattern wear false key = true).
Proof.
  unfold fallbackSearch. cbv zeta.
  match goal with
  | |- context [if ?c then _ else _] => destruct c eqn:Hc
  end; intros H; apply find_some in H as [Hin Ht].
  - apply andb_prop in Hc as [_ ->]. auto.
  - auto.
Qed.

(** The quote of an exact hit for a wear. *)
Definition exactQuote (priceData : PriceMap) (skinName wear : jsstring)
    (stattrak souvenir : bool) : option PriceResult :=
  let key := buildMarketHashName skinName (Some wear) stattrak souvenir in
  match get priceData key with
  | Some info => Some (quoteOf info key false)
  | None => None
  end.

(** For a name without the star marker a call with a wear is the exact
    lookup and nothing else. *)
Lemma getSkinPrice_wear_exact priceData skinName w stattrak souvenir :
  truthy_str skinName = true -> truthy_str w = true ->
  includes skinName (js "★") = false ->
  getSkinPrice (Some priceData) (Some skinName) (Some w) stattrak souvenir
  = exactQuote priceData skinName w stattrak souvenir.
Proof.
  intros Hn Hw Hstar. rewrite getSkinPrice_unfold.
  unfold getSkinPrice_body, exactQuote.
  destruct skinName as [|c s]; [discriminate|].
  destruct (get priceData _); [reflexivity|].
  cbn [truthy_ostr]. rewrite Hw, Hstar. reflexivity.
Qed.

(** Without a wear and after a miss of the exact lookup, the answer is
    that of the first common wear whose recursive call has one, whatever
    kind of match that call made. *)
Lemma getSkinPrice_retry_first_answer
    priceData skinName wear stattrak souvenir pre w post r :
  truthy_str skinName = true ->
  truthy_ostr wear = false ->
  get priceData (buildMarketHashName skinName wear stattrak souvenir)
    = None ->
  commonWears = pre ++ w :: post ->
  (forall w', In w' pre ->
     getSkinPrice (Some priceData) (Some skinName) (Some w')
       stattrak souvenir = None) ->
  getSkinPrice (Some priceData) (Some skinName) (Some w) stattrak souvenir
    = Some r ->
  getSkinPrice (Some priceData) (Some skinName) wear stattrak souvenir
    = Some r.
Proof.
  intros Hn Hwear Hmiss Hsplit Hpre Hhit.
  rewrite getSkinPrice_unfold. unfold getSkinPrice_body.
  destruct skinName as [|c s]; [discriminate|].
  cbv zeta. rewrite Hmiss, Hwear. cbv beta iota delta [negb].
  rewrite Hsplit.
  match goal with
  | |- context [firstResult ?f _] =>
    rewrite (firstResult_first f pre w post r Hpre Hhit)
  end.
  reflexivity.
Qed.

(** C8. Without a price map, or with a missing or empty skin name,
    [getSkinPrice] returns [null] whatever the other arguments are; the
    function is total, it has no path that throws. *)
Theorem getSkinPrice_malformed_input :
  forall priceData skinName wear stattrak souvenir,
    priceData = None \/ truthy_ostr skinName = false ->
    getSkinPrice priceData skinName wear stattrak souvenir = None.
Proof.
  intros priceData skinName wear stattrak souvenir H.
  rewrite getSkinPrice_unfold. unfold getSkinPrice_body.
  destruct H as [->|H]; [reflexivity|].
  destruct priceData; [|reflexivity].
  destruct skinName as [[|c s]|]; try reflexivity. discriminate.
Qed.

Lemma getSkinPrice_malformed_input_witness :
  getSkinPrice None (Some (js "AK-47 | Redline")) (Some (js "Field-Tested"))
    true false = None
  /\ getSkinPrice (Some []) (Some []) None false true = None.
Proof.
  split.
  - apply getSkinPrice_malformed_input. left. reflexivity.
  - apply getSkinPrice_malformed_input. right. reflexivity.
Defined.

(** The approximate answer of [getSkinPrice]: the quote under the key the
    fallback search finds, when that key is truthy. *)
Definition approximateQuote (priceData : PriceMap) (skinName : jsstring)
    (wear : option jsstring) (stattrak : bool) : option PriceResult :=
  match fallbackSearch priceData skinName wear stattrak with
  | Some (k :: ey) =>
    match get priceData (k :: ey) with
    | Some fallbackPrice => Some (quoteOf fallbackPrice (k :: ey) true)
    | None => None
    end
  | _ => None
  end.

(** What one retry of the wear loop returns: the exact quote when the
    identifier with that wear is in the map; otherwise, for a name with the
    star marker, the approximate answer restricted to that wear; otherwise
    nothing. *)
Definition retryAnswer (priceData : PriceMap) (skinName w : jsstring)
    (stattrak souvenir : bool) : option PriceResult :=
  match exactQuote priceData skinName w stattrak souvenir with
  | Some result => Some result
  | None =>
    if includes skinName (js "★")
    then approximateQuote priceData skinName (Some w) stattrak
    else None
  end.

Lemma getSkinPrice_retryAnswer priceData skinName w stattrak souvenir :
  truthy_str skinName = true -> truthy_str w = true ->
  getSkinPrice (Some priceData) (Some skinName) (Some w) stattrak souvenir
  = retryAnswer priceData skinName w stattrak souvenir.
Proof.
  intros Hn Hw. rewrite getSkinPrice_unfold.
  unfold getSkinPrice_body, retryAnswer, exactQuote, approximateQuote.
  destruct skinName as [|c s]; [discriminate|]. cbv zeta.
  destruct (get priceData _); [reflexivity|].
  cbn [truthy_ostr]. rewrite Hw. reflexivity.
Qed.


(** C2, amended.  Without a wear and after a miss of the exact lookup,
    [getSkinPrice] calls itself with the common wears in the order
    Field-Tested, Minimal Wear, Factory New, Well-Worn, Battle-Scarred and
    returns the result of the first call that has one.  A call with a wear
    returns the exact quote when the identifier with that wear is in the
    map; when it is not, a name with the star marker gets the approximate
    answer restricted to that wear, and any other name gets nothing.  So
    when the identifiers of the earlier wears are missing (and, for a name
    with the star marker, their restricted fallback finds nothing) and the
    identifier of a wear is in the map, the result is the quote under that
    identifier, tagged exact; for a name without the star marker the
    condition on the fallback is void. *)
Theorem getSkinPrice_wear_retry :
  commonWears
  = [js "Field-Tested"; js "Minimal Wear"; js "Factory New";
     js "Well-Worn"; js "Battle-Scarred"]
  /\ (forall priceData skinName wear stattrak souvenir pre w post r,
        truthy_str skinName = true ->
        truthy_ostr wear = false ->
        get priceData (buildMarketHashName skinName wear stattrak souvenir)
          = None ->
        commonWears = pre ++ w :: post ->
        (forall w', In w' pre ->
           getSkinPrice (Some priceData) (Some skinName) (Some w')
             stattrak souvenir = None) ->
        getSkinPrice (Some priceData) (Some skinName) (Some w)
          stattrak souvenir = Some r ->
        getSkinPrice (Some priceData) (Some skinName) wear stattrak souvenir
          = Some r)
  /\ (forall priceData skinName w stattrak souvenir,
        truthy_str skinName = true ->
        In w commonWears ->
        getSkinPrice (Some priceData) (Some skinName) (Some w)
          stattrak souvenir
        = match get priceData
                  (buildMarketHashName skinName (Some w) stattrak souvenir)
          with
          | Some info =>
            Some (quoteOf info
                    (buildMarketHashName skinName (Some w) stattrak souvenir)
                    false)
          | None =>
            if includes skinName (js "★")
            then approximateQuote priceData skinName (Some w) stattrak
            else None
          end)
  /\ (forall priceData skinName wear stattrak souvenir pre w post info,
        truthy_str skinName = true ->
        truthy_ostr wear = false ->
        get priceData (buildMarketHashName skinName wear stattrak souvenir)
          = None ->
        commonWears = pre ++ w :: post ->
        (forall w', In w' pre ->
           get priceData
             (buildMarketHashName skinName (Some w') stattrak souvenir)
           = None
           /\ (includes skinName (js "★") = true ->
               approximateQuote priceData skinName (Some w') stattrak
               = None)) ->
        get priceData
          (buildMarketHashName skinName (Some w) stattrak souvenir)
          = Some info ->
        getSkinPrice (Some priceData) (Some skinName) wear stattrak souvenir
        = Some (quoteOf info
                  (buildMarketHashName skinName (Some w) stattrak souvenir)
                  false)
        /\ isApproximate
             (quoteOf info
                (buildMarketHashName skinName (Some w) stattrak souvenir)
                false)
           = false).
Proof.
  assert (Hcall : forall priceData skinName w stattrak souvenir,
    truthy_str skinName = true ->
    In w commonWears ->
    getSkinPrice (Some priceData) (Some skinName) (Some w) stattrak souvenir
    = match get priceData
              (buildMarketHashName skinName (Some w) stattrak souvenir)
      with
      | Some info =>
        Some (quoteOf info
                (buildMarketHashName skinName (Some w) stattrak souvenir)
                false)
      | None =>
        if includes skinName (js "★")
        then approximateQuote priceData skinName (Some w) stattrak
        else None
      end).
  { intros priceData skinName w stattrak souvenir Hn Hw.
    rewrite (getSkinPrice_retryAnswer _ _ _ _ _ Hn (commonWears_truthy w Hw)).
    unfold retryAnswer, exactQuote. cbv zeta.
    destruct (get priceData _); reflexivity. }
  split; [reflexivity|]. split; [exact getSkinPrice_retry_first_answer|].
  split; [exact Hcall|].
  intros priceData skinName wear stattrak souvenir pre w post info
    Hn Hwear Hmiss Hsplit Hpre Hhit.
  split; [|reflexivity].
  assert (Hin : forall w', In w' (pre ++ w :: post) -> In w' commonWears)
    by (rewrite <- Hsplit; auto).
  apply (getSkinPrice_retry_first_answer _ _ _ _ _ pre w post);
    try assumption.
  - intros w' Hw'. rewrite Hcall;
      [|exact Hn|apply Hin, in_or_app; left; exact Hw'].
    destruct (Hpre w' Hw') as [Hnone Hfallback]. rewrite Hnone.
    destruct (includes skinName (js "★")); [|reflexivity].
    apply Hfallback. reflexivity.
  - rewrite Hcall; [|exact Hn|apply Hin, in_or_app; right; left; reflexivity].
    rewrite Hhit. reflexivity.
Qed.

(** Concrete quotes and price maps. *)
Definition quote (p : float) : PriceInfo :=
  {| pi_price := Some p; pi_min := Some p; pi_avg := Some p;
     pi_max := Some p; pi_qty := Some 3%float |}.

Definition redlineMap : PriceMap :=
  [ (js "AK-47 | Redline (Minimal Wear)", quote 12.5) ].

Definition factoryNewMap : PriceMap :=
  [ (js "★ Karambit | Doppler (Factory New)", quote 1200) ].

Lemma getSkinPrice_wear_retry_witness :
  getSkinPrice (Some redlineMap) (Some (js "AK-47 | Redline")) None
    false false
  = Some (quoteOf (quote 12.5) (js "AK-47 | Redline (Minimal Wear)") false)
  /\ getSkinPrice (Some factoryNewMap) (Some (js "★ Karambit | Doppler"))
       None false false
     = Some (quoteOf (quote 1200) (js "★ Karambit | Doppler (Factory New)")
               false).
Proof.
  split.
  - refine (proj1 (proj2 (proj2 (proj2 getSkinPrice_wear_retry))
      redlineMap (js "AK-47 | Redline") None
      false false [js "Field-Tested"] (js "Minimal Wear")
      [js "Factory New"; js "Well-Worn"; js "Battle-Scarred"]
      (quote 12.5) _ _ _ _ _ _)); try reflexivity.
    intros w' [<-|[]]. split; [reflexivity|discriminate].
  - refine (proj1 (proj2 (proj2 (proj2 getSkinPrice_wear_retry))
      factoryNewMap (js "★ Karambit | Doppler") None
      false false [js "Field-Tested"; js "Minimal Wear"] (js "Factory New")
      [js "Well-Worn"; js "Battle-Scarred"]
      (quote 1200) _ _ _ _ _ _)); try reflexivity.
    intros w' [<-|[<-|[]]]; (split; [reflexivity|intros _; reflexivity]).
Defined.

Definition karambitMap : PriceMap :=
  [ (js "★ Karambit | Doppler (Phase 1) (Minimal Wear)", quote 900);
    (js "★ Karambit | Doppler (Factory New)", quote 1200) ].

(** C2, as the specification states it, fails for a name with the star
    marker.  In [karambitMap] the exact lookup of "★ Karambit | Doppler"
    misses, the identifiers with Field-Tested and Minimal Wear are absent and
    the one with Factory New is present, so the first wear that hits is
    Factory New; but the retry for Minimal Wear is a full recursive call,
    whose fallback search finds the Phase 1 key, and the result is that
    quote, tagged approximate. *)
Lemma getSkinPrice_wear_retry_approximate :
  let name := js "★ Karambit | Doppler" in
  get karambitMap (buildMarketHashName name None false false) = None
  /\ get karambitMap
       (buildMarketHashName name (Some (js "Field-Tested")) false false)
     = None
  /\ get karambitMap
       (buildMarketHashName name (Some (js "Minimal Wear")) false false)
     = None
  /\ get karambitMap
       (buildMarketHashName name (Some (js "Factory New")) false false)
     = Some (quote 1200)
  /\ getSkinPrice (Some karambitMap) (Some name) None false false
     = Some (quoteOf (quote 900)
               (js "★ Karambit | Doppler (Phase 1) (Minimal Wear)") true).
Proof. cbv zeta. repeat split; vm_compute; reflexivity. Qed.

(** The base weapon and the pattern of a skin name: the text before the
    first "|" and the text after it, trimmed; a name without "|" has no
    pattern. *)
Definition baseWeaponOf (skinName : jsstring) : jsstring :=
  trim (nth 0 (split skinName 124) []).













Definition emptyKeyMap : PriceMap := [ ([], quote 5) ].

(** Why the base weapon is asked for.  The name "||★" contains the star
    marker but has neither base weapon nor pattern, so the search for a
    vanilla item accepts every key without "|" and "StatTrak™", the empty
    key included; the source tests the key found with [if (fallbackKey)],
    takes the empty key for nothing found, and returns [null]. *)
Lemma getSkinPrice_blank_base_weapon :
  let name := js "||★" in
  includes name (js "★") = true
  /\ baseWeaponOf name = []
  /\ fallbackSearch emptyKeyMap name None false = Some []
  /\ getSkinPrice (Some emptyKeyMap) (Some name) None false false = None.
Proof. cbv zeta. repeat split; vm_compute; reflexivity. Qed.

End ResolverProps.

(** ** The price formatter *)
Module FormatProps.

Import PriceService NumFacts.
Local Open Scope float_scope.

(** C10. A strictly negative price is formatted as "<$0.01", whatever the
    number formatting of the platform does: it is not [null], it is not
    equal to zero, and it lies below 0.01. *)
Theorem formatPrice_negative :
  forall toFixed Math_round Number_toString price,
    (price <? 0) = true ->
    formatPrice toFixed Math_round Number_toString (Some price)
    = js "<$0.01".
Proof.
  intros toFixed Math_round Number_toString price H.
  destruct (negative_below_cent price H) as [Hz Hc].
  unfold formatPrice. rewrite Hz, Hc. reflexivity.
Qed.

Lemma formatPrice_negative_witness :
  (-3.5 <? 0) = true
  /\ formatPrice (fun _ _ => []) (fun x => x) (fun _ => []) (Some (-3.5))
     = js "<$0.01".
Proof.
  split; [reflexivity|].
  apply formatPrice_negative. reflexivity.
Defined.

End FormatProps.

(** ** Change statistics *)
Module HistoryProps.

Import PriceService PriceHistoryService NumFacts.
Local Open Scope float_scope.

(** A history point with the given price. *)
Definition point (p : float) : PricePoint :=
  {| pp_timestamp := 0; price := p |}.

(** The comparison of an oldest and a newest price the specification
    describes: the difference, the difference relative to the oldest price
    in percent (0 when the oldest price is not positive), and the trend with
    the threshold of 5 percent either way. *)
Definition changeBetween (oldest newest : float) : PriceChange :=
  let change := newest - oldest in
  let percentage := if 0 <? oldest then (change / oldest) * 100 else 0 in
  {| change := change;
     percentage := percentage;
     trend := if 5 <? percentage then Up
              else if percentage <? -5 then Down
              else Stable |}.

Lemma last_snoc {A} (l : list A) (x d : A) : List.last (l ++ [x]) d = x.
Proof.
  induction l as [|y l IH]; [reflexivity|].
  simpl. destruct (l ++ [x]) eqn:E; [destruct l; discriminate|exact IH].
Qed.

Lemma calculatePriceChange_ends first middle last :
  calculatePriceChange (Some (first :: middle ++ [last]))
  = changeBetween (price first) (price last).
Proof.
  destruct middle as [|second rest]; [reflexivity|].
  unfold calculatePriceChange.
  change ((second :: rest) ++ [last]) with (second :: (rest ++ [last])).
  cbv beta iota zeta.
  change (second :: rest ++ [last]) with ((second :: rest) ++ [last]).
  rewrite last_snoc. reflexivity.
Qed.

Lemma changeBetween_stable oldest newest :
  (-5 <=? percentage (changeBetween oldest newest)) = true ->
  (percentage (changeBetween oldest newest) <=? 5) = true ->
  trend (changeBetween oldest newest) = Stable.
Proof.
  unfold changeBetween. cbv beta iota zeta delta [percentage trend].
  intros Hlo Hhi.
  rewrite (leb_not_ltb _ _ Hhi), (leb_not_ltb _ _ Hlo). reflexivity.
Qed.

(** C5. [calculatePriceChange] on a missing history or on fewer than two
    points returns change 0, percentage 0 and the trend "stable"; on two or
    more points it compares the price of the first point with the price of
    the last one.  The prices 10 then 12 give the percentage 20 and the
    trend "up"; the prices 10 then 10.2 give the trend "stable"; and every
    percentage between -5 and 5 gives the trend "stable". *)
Theorem calculatePriceChange_first_last :
  (forall priceHistory,
      priceHistory = None
      \/ (exists l, priceHistory = Some l /\ (length l < 2)%nat) ->
      calculatePriceChange priceHistory
      = {| change := 0; percentage := 0; trend := Stable |})
  /\ (forall first middle last,
         calculatePriceChange (Some (first :: middle ++ [last]))
         = changeBetween (price first) (price last))
  /\ (forall oldest newest,
         change (changeBetween oldest newest) = newest - oldest)
  /\ (percentage (calculatePriceChange (Some [point 10; point 12])) = 20
      /\ trend (calculatePriceChange (Some [point 10; point 12])) = Up)
  /\ trend (calculatePriceChange (Some [point 10; point 10.2])) = Stable
  /\ (forall oldest newest,
         (-5 <=? percentage (changeBetween oldest newest)) = true ->
         (percentage (changeBetween oldest newest) <=? 5) = true ->
         trend (changeBetween oldest newest) = Stable).
Proof.
  split; [|split; [|split; [|split; [|split]]]].
  - intros priceHistory [->|(l & -> & Hlen)]; [reflexivity|].
    destruct l as [|a [|b l]]; try reflexivity. simpl in Hlen. lia.
  - exact calculatePriceChange_ends.
  - reflexivity.
  - split; vm_compute; reflexivity.
  - vm_compute. reflexivity.
  - exact changeBetween_stable.
Qed.

Lemma calculatePriceChange_first_last_witness :
  calculatePriceChange (Some [point 10])
  = {| change := 0; percentage := 0; trend := Stable |}
  /\ trend (changeBetween 100 103) = Stable.
Proof.
  split.
  - apply (proj1 calculatePriceChange_first_last).
    right. exists [point 10]. split; [reflexivity|simpl; lia].
  - apply (proj2 (proj2 (proj2 (proj2 (proj2
             calculatePriceChange_first_last))))); reflexivity.
Defined.

(** C9. When the first point of a history of two or more points has the
    price 0, the percentage is 0 and the trend is "stable" whatever the
    other prices are: the division by the oldest price sits behind the test
    [oldest > 0]. *)
Theorem calculatePriceChange_zero_start :
  forall first second rest,
    (price first =? 0) = true ->
    percentage (calculatePriceChange (Some (first :: second :: rest))) = 0
    /\ trend (calculatePriceChange (Some (first :: second :: rest)))
       = Stable.
Proof.
  intros first second rest H.
  unfold calculatePriceChange.
  cbv beta iota zeta delta [percentage trend].
  rewrite (eqb_zero_not_pos _ H). split; reflexivity.
Qed.

Lemma calculatePriceChange_zero_start_witness :
  (price (point 0) =? 0) = true
  /\ percentage (calculatePriceChange (Some [point 0; point 3; point 50]))
     = 0
  /\ trend (calculatePriceChange (Some [point 0; point 3; point 50]))
     = Stable.
Proof.
  split; [reflexivity|].
  apply calculatePriceChange_zero_start. reflexivity.
Defined.

End HistoryProps.

(** ** The snapshot log *)
Module SnapshotProps.

Import PriceService PriceHistoryService.
Local Open Scope Z_scope.

Section Retention.

Variable toISOString : Z -> jsstring.

(** The retention window in milliseconds. *)
Definition retention : Z := MAX_HISTORY_DAYS * 24 * 60 * 60 * 1000.

(** The entry [savePriceSnapshot] appends at time [now]. *)
Definition newEntry (now : Z) (priceData : option PriceMap) : PriceSnapshot :=
  {| timestamp := now; date := toISOString now; prices := priceData |}.

(** The log a read of the storage returns: the log the stored text
    encodes, and the empty log when nothing (or nothing readable) is stored
    under the key. *)
Definition readsLog (st : AsyncStorage) (log : list PriceSnapshot) : Prop :=
  fst (getPriceHistory st) = Returned (ParsedLog log).

(** Reading the history leaves the storage as it is. *)
Lemma getPriceHistory_state st : snd (getPriceHistory st) = st.
Proof using Type.
  unfold getPriceHistory, try_catch, await, AsyncStorage_getItem.
  destruct (available st); [|reflexivity].
  destruct (items st !! PRICE_HISTORY_KEY) as [[| | |log]|]; reflexivity.
Qed.

Lemma getPriceHistory_log st log :
  readsLog st log -> getPriceHistory st = (Returned (ParsedLog log), st).
Proof using Type.
  intros Hlog. rewrite (surjective_pairing (getPriceHistory st)).
  rewrite getPriceHistory_state. f_equal. exact Hlog.
Qed.

Lemma readsLog_stored st log :
  available st = true ->
  items st !! PRICE_HISTORY_KEY = Some (LogText log) ->
  readsLog st log.
Proof using Type.
  intros Hav Hst.
  unfold readsLog, getPriceHistory, try_catch, await, AsyncStorage_getItem.
  rewrite Hav, Hst. reflexivity.
Qed.

Lemma savePriceSnapshot_log st log now priceData :
  available st = true -> readsLog st log ->
  savePriceSnapshot toISOString now priceData st
  = (Returned tt,
     {| items :=
          <[PRICE_HISTORY_KEY :=
              LogText
                (List.map JSON_snapshot
                   (List.filter
                      (fun snapshot => now - retention <? timestamp snapshot)
                      (log ++ [newEntry now priceData])))]> (items st);
        available := available st |}).
Proof using Type.
  intros Hav Hlog. unfold savePriceSnapshot, try_catch, await.
  rewrite (getPriceHistory_log st log Hlog).
  unfold AsyncStorage_setItem. rewrite Hav. reflexivity.
Qed.

End Retention.

(** The entries of the log that is read after a save. *)
Lemma In_saved_log snapshot now log entry :
  In snapshot
    (List.map JSON_snapshot
       (List.filter (fun snapshot => now - retention <? timestamp snapshot)
          (log ++ [entry])))
  <-> exists written,
        snapshot = JSON_snapshot written
        /\ (In written log \/ written = entry)
        /\ now - 30 * 24 * 60 * 60 * 1000 < timestamp written.
Proof.
  rewrite in_map_iff. split.
  - intros (written & <- & Hin). apply filter_In in Hin as [Hin Hrecent].
    apply Z.ltb_lt in Hrecent. exists written. split; [reflexivity|].
    split; [|exact Hrecent].
    apply in_app_or in Hin as [Hin|[<-|[]]]; auto.
  - intros (written & -> & Hin & Hrecent). exists written.
    split; [reflexivity|]. apply filter_In. split.
    + apply in_or_app. destruct Hin as [Hin| ->]; [left; exact Hin|].
      right. left. reflexivity.
    + apply Z.ltb_lt. exact Hrecent.
Qed.

(** C6. On an available storage, whatever snapshot log a read returns,
    [savePriceSnapshot] at time [now] writes back a log that contains the new
    entry, stamped [now], and no entry whose timestamp is 30 days or more
    before [now]; the next read returns exactly that log.  The new entry is
    read back as JSON keeps it: with its timestamp and date, and with its
    prices, in which a number that is not finite has become [null] (it is
    the entry itself when JSON keeps its prices as they are).  The entries
    of the old log that were older than the window are absent from the log
    read, and the younger ones are all still there. *)
Theorem savePriceSnapshot_retention :
  forall toISOString st log now priceData,
    available st = true ->
    readsLog st log ->
    let st' := snd (savePriceSnapshot toISOString now priceData st) in
    exists log',
      items st' !! PRICE_HISTORY_KEY = Some (LogText log')
      /\ getPriceHistory st' = (Returned (ParsedLog log'), st')
      /\ In {| timestamp := now;
               date := toISOString now;
               prices := JSON_prices priceData |} log'
      /\ (JSON_prices priceData = priceData ->
          In (newEntry toISOString now priceData) log')
      /\ (forall snapshot, In snapshot log' ->
            now - 30 * 24 * 60 * 60 * 1000 < timestamp snapshot)
      /\ (forall snapshot, In snapshot log ->
            timestamp snapshot <= now - 30 * 24 * 60 * 60 * 1000 ->
            ~ In snapshot log' /\ ~ In (JSON_snapshot snapshot) log')
      /\ (forall snapshot, In snapshot log ->
            now - 30 * 24 * 60 * 60 * 1000 < timestamp snapshot ->
            In (JSON_snapshot snapshot) log').
Proof.
  intros toISOString st log now priceData Hav Hlog st'.
  subst st'. rewrite (savePriceSnapshot_log toISOString st log now priceData
                        Hav Hlog).
  cbn [snd].
  set (log' := List.map JSON_snapshot _).
  assert (Hstored :
    items {| items := <[PRICE_HISTORY_KEY := LogText log']> (items st);
             available := available st |} !! PRICE_HISTORY_KEY
    = Some (LogText log')).
  { cbn [items]. apply lookup_insert_eq. }
  exists log'. split; [exact Hstored|]. split.
  { apply getPriceHistory_log, readsLog_stored; [exact Hav|exact Hstored]. }
  assert (Hmem : forall s, In s log' <->
            exists written,
              s = JSON_snapshot written
              /\ (In written log
                  \/ written = newEntry toISOString now priceData)
              /\ now - 30 * 24 * 60 * 60 * 1000 < timestamp written)
    by (intros s; apply In_saved_log).
  assert (Hnew : In (JSON_snapshot (newEntry toISOString now priceData)) log').
  { apply Hmem. exists (newEntry toISOString now priceData).
    split; [reflexivity|]. split; [right; reflexivity|].
    cbn [timestamp newEntry]. lia. }
  split; [exact Hnew|]. split; [|split; [|split]].
  - intros Hsame. unfold JSON_snapshot, newEntry in Hnew.
    cbn [timestamp date prices] in Hnew. rewrite Hsame in Hnew. exact Hnew.
  - intros s Hs. apply Hmem in Hs as (written & -> & _ & Hrecent).
    exact Hrecent.
  - intros s _ Hold. split; intros Hs;
      apply Hmem in Hs as (written & Heq & _ & Hrecent);
      [rewrite Heq in Hold|
       apply (f_equal timestamp) in Heq; cbn [JSON_snapshot timestamp] in Heq];
      cbn [JSON_snapshot timestamp] in *; lia.
  - intros s Hs Hyoung. apply Hmem. exists s. auto.
Qed.

(** A storage that holds one entry of 31 days ago and one of yesterday. *)
Definition sampleNow : Z := 1700000000000.

Definition staleEntry : PriceSnapshot :=
  {| timestamp := sampleNow - 31 * 24 * 60 * 60 * 1000;
     date := js "2023-10-14T22:13:20.000Z"; prices := Some [] |}.

Definition freshEntry : PriceSnapshot :=
  {| timestamp := sampleNow - 24 * 60 * 60 * 1000;
     date := js "2023-11-13T22:13:20.000Z"; prices := Some [] |}.

Definition sampleStorage : AsyncStorage :=
  {| items := <[PRICE_HISTORY_KEY := LogText [staleEntry; freshEntry]]> ∅;
     available := true |}.

Lemma savePriceSnapshot_retention_witness :
  readsLog sampleStorage [staleEntry; freshEntry]
  /\ exists log',
       getPriceHistory
         (snd (savePriceSnapshot (fun _ => js "2023-11-14T22:13:20.000Z")
                 sampleNow (Some []) sampleStorage))
       = (Returned (ParsedLog log'),
          snd (savePriceSnapshot (fun _ => js "2023-11-14T22:13:20.000Z")
                 sampleNow (Some []) sampleStorage))
       /\ ~ In staleEntry log' /\ In freshEntry log'.
Proof.
  assert (Hlog : readsLog sampleStorage [staleEntry; freshEntry])
    by (apply readsLog_stored; [reflexivity|apply lookup_insert_eq]).
  split; [exact Hlog|].
  destruct (savePriceSnapshot_retention
              (fun _ => js "2023-11-14T22:13:20.000Z")
              sampleStorage [staleEntry; freshEntry] sampleNow (Some [])
              eq_refl Hlog)
    as (log' & _ & Hread & _ & _ & _ & Hold & Hyoung).
  exists log'. split; [exact Hread|]. split.
  - apply Hold; [left; reflexivity|]. vm_compute. discriminate.
  - apply (Hyoung freshEntry); [right; left; reflexivity|]. reflexivity.
Defined.

End SnapshotProps.

(** ** The price resolver: where an answer comes from *)
Module ResolverMoreProps.

Import JS PriceService JSFacts ResolverProps.
Local Open Scope float_scope.

(** An answer a single call gives without the wear loop: the exact hit, or
    the approximate match of the fallback search. *)
Definition directAnswer (priceData : PriceMap) (skinName : jsstring)
    (wear : option jsstring) (stattrak souvenir : bool) (r : PriceResult)
  : Prop :=
  (exists info,
      get priceData (buildMarketHashName skinName wear stattrak souvenir)
        = Some info
      /\ r = quoteOf info
               (buildMarketHashName skinName wear stattrak souvenir) false)
  \/ (includes skinName (js "★") = true
      /\ exists key info,
           fallbackSearch priceData skinName wear stattrak = Some key
           /\ truthy_str key = true
           /\ ownProperty priceData key = Some info
           /\ r = quoteOf info key true).

Lemma firstResult_Some f ws r :
  firstResult f ws = Some r -> exists w, In w ws /\ f w = Some r.
Proof.
  induction ws as [|w ws IH]; simpl; [discriminate|].
  destruct (f w) as [r'|] eqn:E.
  - intros [= <-]. exists w. auto.
  - intros H. destruct (IH H) as (w' & Hin & Hw'). exists w'. auto.
Qed.

Lemma get_of_key priceData key :
  In key (Object_keys priceData) ->
  exists info, ownProperty priceData key = Some info
               /\ get priceData key = Some info.
Proof.
  intros H. destruct (ownProperty_key _ _ H) as [info Hi].
  exists info. split; [exact Hi|apply get_ownProperty, Hi].
Qed.

(** What the body answers when the wear loop gives nothing. *)
Lemma body_direct self priceData c s wear stattrak souvenir r :
  getSkinPrice_body self (Some priceData) (Some (c :: s)) wear
    stattrak souvenir = Some r ->
  directAnswer priceData (c :: s) wear stattrak souvenir r
  \/ (truthy_ostr wear = false
      /\ exists w, In w commonWears
           /\ self (Some priceData) (Some (c :: s)) (Some w)
                stattrak souvenir = Some r).
Proof.
  unfold getSkinPrice_body. cbv zeta.
  destruct (get priceData _) as [info|] eqn:Hget.
  - intros [= <-]. left. left. exists info. auto.
  - destruct (truthy_ostr wear) eqn:Hw; cbv beta iota delta [negb].
    + destruct (includes (c :: s) (js "★")) eqn:Hstar; [|discriminate].
      destruct (fallbackSearch priceData (c :: s) wear stattrak)
        as [[|k ey]|] eqn:Hf; try discriminate.
      destruct (fallbackSearch_key _ _ _ _ _ Hf) as [Hin _].
      destruct (get_of_key _ _ Hin) as (info & Hown & Hg).
      rewrite Hg. intros [= <-]. left. right.
      split; [exact Hstar|]. exists (k :: ey), info. auto.
    + match goal with
      | |- context [firstResult ?f ?l] =>
        destruct (firstResult f l) as [r'|] eqn:Hloop
      end.
      * intros [= <-]. right. split; [reflexivity|].
        apply firstResult_Some in Hloop. exact Hloop.
      * destruct (includes (c :: s) (js "★")) eqn:Hstar; [|discriminate].
        destruct (fallbackSearch priceData (c :: s) wear stattrak)
          as [[|k ey]|] eqn:Hf; try discriminate.
        destruct (fallbackSearch_key _ _ _ _ _ Hf) as [Hin _].
        destruct (get_of_key _ _ Hin) as (info & Hown & Hg).
        rewrite Hg. intros [= <-]. left. right.
        split; [exact Hstar|]. exists (k :: ey), info. auto.
Qed.

(** Every answer of [getSkinPrice] is the direct answer of the call itself
    or, when no wear was given, of the call for one of the common wears. *)
Lemma getSkinPrice_origin priceData skinName wear stattrak souvenir r :
  getSkinPrice priceData skinName wear stattrak souvenir = Some r ->
  exists pd name,
    priceData = Some pd /\ skinName = Some name /\ truthy_str name = true
    /\ (directAnswer pd name wear stattrak souvenir r
        \/ (truthy_ostr wear = false
            /\ exists w, In w commonWears
                 /\ directAnswer pd name (Some w) stattrak souvenir r)).
Proof.
  intros H. rewrite getSkinPrice_unfold in H.
  destruct priceData as [pd|]; [|discriminate].
  destruct skinName as [[|c s]|]; try discriminate.
  exists pd, (c :: s). repeat (split; [reflexivity|]).
  apply body_direct in H as [H|(Hw & w & Hin & H)]; [left; exact H|].
  right. split; [exact Hw|]. exists w. split; [exact Hin|].
  rewrite getSkinPrice_unfold in H.
  apply body_direct in H as [H|(Hw' & _)]; [exact H|].
  apply commonWears_truthy in Hin. simpl in Hw'. congruence.
Qed.


(** The numbers of a result: [x || 0] is never [NaN]. *)
Lemma or_zero_settled o :
  is_nan (Num.or_zero o) = false
  /\ (Num.truthy (Num.or_zero o) = true \/ Num.or_zero o = 0).
Proof.
  unfold Num.or_zero. destruct o as [x|]; [|split; [reflexivity|auto]].
  destruct (Num.truthy x) eqn:Hx; [|split; [reflexivity|auto]].
  split; [|auto]. unfold Num.truthy in Hx.
  apply andb_prop in Hx as [_ Hx]. unfold is_nan. rewrite Hx. reflexivity.
Qed.

Lemma directAnswer_quote priceData skinName wear stattrak souvenir r :
  directAnswer priceData skinName wear stattrak souvenir r ->
  exists info key approximate, r = quoteOf info key approximate.
Proof.
  intros [(info & _ & ->)|(_ & key & info & _ & _ & _ & ->)]; eauto.
Qed.

(** X1. The three prices of every result of [getSkinPrice] are settled
    numbers: none is [NaN], each is a truthy number or the positive zero that
    [|| 0] puts in its place, and the currency is "USD". *)
Theorem getSkinPrice_settled_numbers :
  forall priceData skinName wear stattrak souvenir r,
    getSkinPrice priceData skinName wear stattrak souvenir = Some r ->
    (is_nan (avg r) = false /\ is_nan (min r) = false
     /\ is_nan (max r) = false)
    /\ (Num.truthy (avg r) = true \/ avg r = 0)
    /\ (Num.truthy (min r) = true \/ min r = 0)
    /\ (Num.truthy (max r) = true \/ max r = 0)
    /\ currency r = js "USD".
Proof.
  intros priceData skinName wear stattrak souvenir r H.
  assert (Hq : exists info key approximate, r = quoteOf info key approximate).
  { apply getSkinPrice_origin in H
      as (pd & name & _ & _ & _ & [H|(_ & w & _ & H)]);
      exact (directAnswer_quote _ _ _ _ _ _ H). }
  destruct Hq as (info & key & approximate & ->).
  cbn [quoteOf avg min max currency].
  repeat split; try apply or_zero_settled.
Qed.

Lemma getSkinPrice_settled_numbers_witness :
  getSkinPrice
    (Some [(js "AK-47 | Redline (Field-Tested)",
            {| pi_price := Some 12.5; pi_min := Some nan; pi_avg := None;
               pi_max := Some 0; pi_qty := None |})])
    (Some (js "AK-47 | Redline")) None false false
  = Some {| avg := 12.5; min := 12.5; max := 12.5; currency := js "USD";
            marketHashName := js "AK-47 | Redline (Field-Tested)";
            isApproximate := false |}
  /\ is_nan 12.5 = false.
Proof.
  assert (H : getSkinPrice
    (Some [(js "AK-47 | Redline (Field-Tested)",
            {| pi_price := Some 12.5; pi_min := Some nan; pi_avg := None;
               pi_max := Some 0; pi_qty := None |})])
    (Some (js "AK-47 | Redline")) None false false
  = Some {| avg := 12.5; min := 12.5; max := 12.5; currency := js "USD";
            marketHashName := js "AK-47 | Redline (Field-Tested)";
            isApproximate := false |}) by (vm_compute; reflexivity).
  split; [exact H|].
  exact (proj1 (proj1 (getSkinPrice_settled_numbers _ _ _ _ _ _ H))).
Defined.




Lemma startsWith_app_l s p q :
  startsWith s (p ++ q) = true -> startsWith s p = true.
Proof.
  intros H. apply startsWith_prefix in H as [t ->].
  rewrite <- app_assoc. apply startsWith_app.
Qed.

(** What a key that passes the fallback test looks like. *)
Lemma fallbackTest_true baseWeapon pattern hasPattern wear stattrak key :
  fallbackTest baseWeapon pattern hasPattern wear stattrak key = true ->
  startsWith key baseWeapon = true
  /\ sameStatTrak stattrak key = true
  /\ (forall w, wear = Some w -> truthy_str w = true ->
        hasWear w key = true).
Proof.
  unfold fallbackTest.
  destruct (hasPattern && truthy_str pattern);
    destruct wear as [[|c w]|]; cbv zeta;
    rewrite ?andb_true_iff; intros H; decompose [and] H; clear H.
  all: split; [first [assumption|eapply startsWith_app_l; eassumption]|].
  all: split; [assumption|].
  all: intros w' Hw' Ht; inversion Hw'; subst; try discriminate; assumption.
Qed.

Lemma approximate_direct priceData skinName wear stattrak souvenir r :
  directAnswer priceData skinName wear stattrak souvenir r ->
  isApproximate r = true ->
  includes skinName (js "★") = true
  /\ In (marketHashName r) (Object_keys priceData)
  /\ startsWith (marketHashName r) (trim (nth 0 (split skinName 124) []))
     = true
  /\ (stattrak = false ->
      includes (marketHashName r) (js "StatTrak™") = false)
  /\ (forall w, wear = Some w -> truthy_str w = true ->
        hasWear w (marketHashName r) = true).
Proof.
  intros [(info & _ & ->)|(Hstar & key & info & Hf & _ & _ & ->)];
    cbn [isApproximate marketHashName]; [discriminate|intros _].
  split; [exact Hstar|].
  destruct (fallbackSearch_key _ _ _ _ _ Hf) as [Hin Ht]. cbv zeta in Ht.
  split; [exact Hin|].
  destruct Ht as [Ht|[Hst Ht]];
    apply fallbackTest_true in Ht as (Hbase & Hsame & Hwear);
    (split; [exact Hbase|]); (split; [|exact Hwear]).
  - intros ->. unfold sameStatTrak in Hsame.
    apply negb_true_iff in Hsame. exact Hsame.
  - intros ->. discriminate.
Qed.

(** X3. An approximate answer stays close to the request: it is given for
    names with the star marker only; its key is a key of the price map that
    starts with the base weapon of the name (the text before the first "|",
    trimmed); when StatTrak was not requested the key carries no "StatTrak™";
    and when a wear was requested the key contains that wear in
    parentheses. *)
Theorem getSkinPrice_approximate_discipline :
  forall priceData skinName wear stattrak souvenir r,
    getSkinPrice (Some priceData) (Some skinName) wear stattrak souvenir
      = Some r ->
    isApproximate r = true ->
    includes skinName (js "★") = true
    /\ In (marketHashName r) (Object_keys priceData)
    /\ startsWith (marketHashName r) (trim (nth 0 (split skinName 124) []))
       = true
    /\ (stattrak = false ->
        includes (marketHashName r) (js "StatTrak™") = false)
    /\ (forall w, wear = Some w -> truthy_str w = true ->
          includes (marketHashName r) (js "(" ++ w ++ js ")") = true).
Proof.
  intros priceData skinName wear stattrak souvenir r H Happrox.
  apply getSkinPrice_origin in H
    as (pd & name & [= <-] & [= <-] & _ & [H|(Hw & w & _ & H)]);
    destruct (approximate_direct _ _ _ _ _ _ H Happrox)
      as (Hstar & Hin & Hbase & Hst & Hwear).
  - repeat split; assumption.
  - repeat split; try assumption.
    intros w' -> Hw'. simpl in Hw. congruence.
Qed.

Definition karambitFadeMap : PriceMap :=
  [ (js "StatTrak™ ★ Karambit | Fade (Factory New)", quote 2000);
    (js "★ Karambit | Fade (Minimal Wear)", quote 1500);
    (js "★ Karambit | Fade (Factory New) Phase 9", quote 1800) ].

Lemma getSkinPrice_approximate_discipline_witness :
  exists r,
    getSkinPrice (Some karambitFadeMap) (Some (js "★ Karambit | Fade"))
      (Some (js "Factory New")) false false = Some r
    /\ isApproximate r = true
    /\ marketHashName r = js "★ Karambit | Fade (Factory New) Phase 9"
    /\ includes (marketHashName r) (js "StatTrak™") = false.
Proof.
  eexists. split; [vm_compute; reflexivity|].
  split; [reflexivity|]. split; [reflexivity|].
  refine (proj1 (proj2 (proj2 (proj2
    (getSkinPrice_approximate_discipline karambitFadeMap (js "★ Karambit | Fade")
       (Some (js "Factory New")) false false _ _ _)))) eq_refl);
    vm_compute; reflexivity.
Defined.

End ResolverMoreProps.

(** ** The wear price list *)
Module WearPricesProps.

Import JS PriceService PriceDisplay JSFacts ResolverProps.
Local Open Scope float_scope.

Lemma sublist_map_filter {A B} (f : A -> B) (p : A -> bool) (l : list A) :
  sublist (List.map f (List.filter p l)) (List.map f l).
Proof.
  induction l as [|x l IH]; simpl; [constructor|].
  destruct (p x); simpl; constructor; exact IH.
Qed.

(** A positive [priceInfo?.avg || 0] comes from a result and is its
    average. *)
Lemma avgOrZero_positive priceInfo :
  (0 <? avgOrZero priceInfo) = true ->
  exists r, priceInfo = Some r /\ avgOrZero priceInfo = avg r.
Proof.
  unfold avgOrZero, Num.or_zero.
  destruct priceInfo as [r|]; [|discriminate].
  destruct (Num.truthy (avg r)); [eauto|discriminate].
Qed.

Lemma or_zero_idem o : Num.or_zero (Some (Num.or_zero o)) = Num.or_zero o.
Proof.
  destruct o as [x|]; [|reflexivity].
  unfold Num.or_zero. destruct (Num.truthy x) eqn:Hx.
  - rewrite Hx. reflexivity.
  - reflexivity.
Qed.

Lemma avgOrZero_quoteOf info key approximate :
  avgOrZero (Some (quoteOf info key approximate))
  = Num.or_zero (Num.or_else (pi_avg info) (pi_price info)).
Proof. unfold avgOrZero. cbn [quoteOf avg]. apply or_zero_idem. Qed.

Lemma getAllWearPrices_In priceData skinName stattrak souvenir e :
  In e (getAllWearPrices priceData skinName stattrak souvenir) <->
  In (wear e) wears
  /\ priceInfo e
     = getSkinPrice priceData skinName (Some (wear e)) stattrak souvenir
  /\ price e = avgOrZero (priceInfo e)
  /\ (0 <? price e) = true.
Proof.
  unfold getAllWearPrices. rewrite filter_In, in_map_iff. split.
  - intros [(w & <- & Hw) Hpos]. cbn [wear priceInfo price] in *. auto.
  - intros (Hw & Hi & Hp & Hpos). split; [|exact Hpos].
    exists (wear e). split; [|exact Hw].
    destruct e as [w i p]. cbn [wear priceInfo price] in *. subst.
    reflexivity.
Qed.

(** X4. [getAllWearPrices] lists wears in the order Factory New, Minimal
    Wear, Field-Tested, Well-Worn, Battle-Scarred, each at most once; every
    entry carries the result [getSkinPrice] gives for that wear, which is not
    [null], and a positive price that is the average of that result; and
    without a price map or a skin name the list is empty. *)
Theorem getAllWearPrices_entries :
  forall priceData skinName stattrak souvenir,
    sublist
      (List.map wear (getAllWearPrices priceData skinName stattrak souvenir))
      wears
    /\ (forall e,
           In e (getAllWearPrices priceData skinName stattrak souvenir) ->
           (0 <? price e) = true
           /\ exists r,
                priceInfo e = Some r
                /\ getSkinPrice priceData skinName (Some (wear e))
                     stattrak souvenir = Some r
                /\ price e = avg r)
    /\ (priceData = None \/ truthy_ostr skinName = false ->
        getAllWearPrices priceData skinName stattrak souvenir = []).
Proof.
  intros priceData skinName stattrak souvenir. split; [|split].
  - unfold getAllWearPrices.
    match goal with
    | |- sublist (List.map _ (List.filter ?p (List.map ?g _))) _ =>
      pose proof (sublist_map_filter wear p (List.map g wears)) as H
    end.
    rewrite map_map in H. cbn [wear] in H. rewrite map_id in H. exact H.
  - intros e He. apply getAllWearPrices_In in He as (_ & Hi & Hp & Hpos).
    split; [exact Hpos|]. rewrite Hp in Hpos.
    destruct (avgOrZero_positive _ Hpos) as (r & Hr & Havg).
    exists r. rewrite <- Hi, Hp. auto.
  - intros Hbad.
    assert (Hnull : forall w,
      getSkinPrice priceData skinName (Some w) stattrak souvenir = None).
    { intros w. rewrite getSkinPrice_unfold. unfold getSkinPrice_body.
      destruct Hbad as [->|Hbad]; [reflexivity|].
      destruct priceData; [|reflexivity].
      destruct skinName as [[|c s]|]; try reflexivity. discriminate. }
    unfold getAllWearPrices. unfold wears. cbn [List.map].
    rewrite !Hnull. reflexivity.
Qed.

Definition awpMap : PriceMap :=
  [ (js "AWP | Asiimov (Field-Tested)", quote 80);
    (js "AWP | Asiimov (Battle-Scarred)", quote 45);
    (js "AWP | Asiimov (Well-Worn)", quote 0) ].

Lemma getAllWearPrices_entries_witness :
  List.map wear
    (getAllWearPrices (Some awpMap) (Some (js "AWP | Asiimov")) false false)
  = [js "Field-Tested"; js "Battle-Scarred"]
  /\ getAllWearPrices None (Some (js "AWP | Asiimov")) false false = [].
Proof.
  split; [vm_compute; reflexivity|].
  apply (proj2 (proj2 (getAllWearPrices_entries None
                         (Some (js "AWP | Asiimov")) false false))).
  left. reflexivity.
Defined.

(** X5. For an ordinary skin (no star marker) [getAllWearPrices] lists
    exactly the wears whose identifier is a key of the price map with a
    positive average price: a wear is listed if and only if the exact lookup
    under that wear hits a quote whose average (or, failing that, price) is
    positive. *)
Theorem getAllWearPrices_ordinary :
  forall priceData skinName stattrak souvenir w,
    truthy_str skinName = true ->
    includes skinName (js "★") = false ->
    In w wears ->
    (In w (List.map wear
             (getAllWearPrices (Some priceData) (Some skinName)
                stattrak souvenir))
     <->
     exists info,
       get priceData
         (buildMarketHashName skinName (Some w) stattrak souvenir)
       = Some info
       /\ (0 <? Num.or_zero (Num.or_else (pi_avg info) (pi_price info)))
          = true).
Proof.
  intros priceData skinName stattrak souvenir w Hn Hstar Hw.
  assert (Htruthy : truthy_str w = true)
    by (repeat (destruct Hw as [<-|Hw]; [reflexivity|]); destruct Hw).
  rewrite in_map_iff. split.
  - intros (e & <- & He). apply getAllWearPrices_In in He
      as (_ & Hi & Hp & Hpos).
    rewrite Hp, Hi in Hpos.
    rewrite (getSkinPrice_wear_exact _ _ _ _ _ Hn Htruthy Hstar) in Hpos.
    unfold exactQuote in Hpos. cbv zeta in Hpos.
    destruct (get priceData _) as [info|]; [|discriminate].
    rewrite avgOrZero_quoteOf in Hpos.
    exists info. split; [reflexivity|exact Hpos].
  - intros (info & Hget & Hpos).
    exists {| wear := w;
              priceInfo := getSkinPrice (Some priceData) (Some skinName)
                             (Some w) stattrak souvenir;
              price := avgOrZero
                         (getSkinPrice (Some priceData) (Some skinName)
                            (Some w) stattrak souvenir) |}.
    split; [reflexivity|]. apply getAllWearPrices_In.
    cbn [wear priceInfo price]. repeat split; try assumption.
    rewrite (getSkinPrice_wear_exact _ _ _ _ _ Hn Htruthy Hstar).
    unfold exactQuote. cbv zeta. rewrite Hget, avgOrZero_quoteOf.
    exact Hpos.
Qed.

Lemma getAllWearPrices_ordinary_witness :
  In (js "Field-Tested")
    (List.map wear
       (getAllWearPrices (Some awpMap) (Some (js "AWP | Asiimov"))
          false false))
  /\ ~ In (js "Well-Worn")
       (List.map wear
          (getAllWearPrices (Some awpMap) (Some (js "AWP | Asiimov"))
             false false)).
Proof.
  split.
  - apply (getAllWearPrices_ordinary awpMap (js "AWP | Asiimov") false false
             (js "Field-Tested")); try reflexivity.
    + right; right; left; reflexivity.
    + exists (quote 80). split; reflexivity.
  - intros H.
    apply (getAllWearPrices_ordinary awpMap (js "AWP | Asiimov") false false
             (js "Well-Worn")) in H; try reflexivity.
    + destruct H as (info & Hget & Hpos).
      vm_compute in Hget. injection Hget as <-. vm_compute in Hpos.
      discriminate.
    + right; right; right; left; reflexivity.
Defined.

End WearPricesProps.

(** ** The price feed and the map built from it *)
Module PriceFeedProps.

Import JS PriceService PriceFeed PriceDisplay JSFacts ResolverProps.
Import ResolverMoreProps.
Local Open Scope float_scope.

(** The last item of the feed with the given name. *)
Definition lastNamed (key : jsstring) (dataArray : list PriceListItem)
  : option PriceListItem :=
  List.find (fun item => str_eqb (market_hash_name item) key)
    (rev dataArray).

(** No item of the feed is named ["__proto__"]. *)
Definition plainNames (dataArray : list PriceListItem) : Prop :=
  Forall (fun item => market_hash_name item <> js "__proto__") dataArray.

(** No item of the feed has an array index for its name. *)
Definition textNames (dataArray : list PriceListItem) : Prop :=
  Forall (fun item => arrayIndex (market_hash_name item) = None) dataArray.

Lemma str_eqb_neq a b : a <> b -> str_eqb a b = false.
Proof.
  intros H. destruct (str_eqb a b) eqn:E; [|reflexivity].
  apply str_eqb_eq in E. contradiction.
Qed.

Lemma ownProperty_replaceOwn pm key v k :
  ownProperty (replaceOwn pm key v) k
  = match ownProperty pm key with
    | Some _ => if str_eqb key k then Some v else ownProperty pm k
    | None => ownProperty pm k
    end.
Proof.
  induction pm as [|[k0 v0] pm IH]; simpl; [reflexivity|].
  destruct (str_eqb k0 key) eqn:E0.
  - apply str_eqb_eq in E0. subst k0. simpl.
    destruct (str_eqb key k); reflexivity.
  - simpl. rewrite IH. destruct (str_eqb k0 k) eqn:E1.
    + apply str_eqb_eq in E1. subst k0.
      assert (E : str_eqb key k = false).
      { apply str_eqb_neq. intros ->. rewrite str_eqb_refl in E0.
        discriminate. }
      rewrite E. destruct (ownProperty pm key); reflexivity.
    + reflexivity.
Qed.

Lemma ownProperty_insertIndex n pm key v k :
  ownProperty pm key = None ->
  ownProperty (insertIndex n key v pm) k
  = if str_eqb key k then Some v else ownProperty pm k.
Proof.
  induction pm as [|[k0 v0] pm IH]; simpl; intros Hnone; [reflexivity|].
  destruct (str_eqb k0 key) eqn:E0; [discriminate|].
  destruct (arrayIndex k0) as [m|]; [destruct (m <? n)%N|];
    simpl; try reflexivity.
  rewrite (IH Hnone). destruct (str_eqb k0 k) eqn:E1; [|reflexivity].
  apply str_eqb_eq in E1. subst k0.
  rewrite str_eqb_neq; [reflexivity|].
  intros ->. rewrite str_eqb_refl in E0. discriminate.
Qed.

Lemma ownProperty_snoc pm key v k :
  ownProperty pm key = None ->
  ownProperty (pm ++ [(key, v)]) k
  = if str_eqb key k then Some v else ownProperty pm k.
Proof.
  induction pm as [|[k0 v0] pm IH]; simpl; intros Hnone; [reflexivity|].
  destruct (str_eqb k0 key) eqn:E0; [discriminate|].
  rewrite (IH Hnone). destruct (str_eqb k0 k) eqn:E1; [|reflexivity].
  apply str_eqb_eq in E1. subst k0.
  rewrite str_eqb_neq; [reflexivity|].
  intros ->. rewrite str_eqb_refl in E0. discriminate.
Qed.

(** Reading after writing: the written key reads as the value written, any
    other key as before. *)
Lemma ownProperty_Object_set pm key v k :
  key <> js "__proto__" ->
  ownProperty (Object_set pm key v) k
  = if str_eqb key k then Some v else ownProperty pm k.
Proof.
  intros Hkey. unfold Object_set. rewrite (str_eqb_neq _ _ Hkey).
  destruct (ownProperty pm key) as [v0|] eqn:Hown.
  - rewrite ownProperty_replaceOwn, Hown. reflexivity.
  - destruct (arrayIndex key).
    + apply ownProperty_insertIndex, Hown.
    + apply ownProperty_snoc, Hown.
Qed.

Lemma priceMapOf_snoc dataArray item :
  priceMapOf (dataArray ++ [item])
  = Object_set (priceMapOf dataArray) (market_hash_name item) (quoteFor item).
Proof. unfold priceMapOf. rewrite fold_left_app. reflexivity. Qed.

Lemma ownProperty_priceMapOf dataArray key :
  plainNames dataArray ->
  ownProperty (priceMapOf dataArray) key
  = match lastNamed key dataArray with
    | Some item => Some (quoteFor item)
    | None => None
    end.
Proof.
  induction dataArray as [|item dataArray IH] using rev_ind;
    intros Hplain; [reflexivity|].
  apply Forall_app in Hplain as [Hplain Hitem].
  apply Forall_inv in Hitem.
  rewrite priceMapOf_snoc, (ownProperty_Object_set _ _ _ _ Hitem).
  unfold lastNamed. rewrite rev_app_distr. simpl.
  destruct (str_eqb (market_hash_name item) key); [reflexivity|].
  apply IH, Hplain.
Qed.

(** X6. A price map built by [fetchPriceData] from a feed in which no item
    is named "__proto__" answers a lookup with the quote of the last item of
    the feed that has the name looked up, all four prices of the quote being
    that item's [min_price / 100]; a name that is not in the feed is not in
    the map (the lookup then gives what a plain object inherits, or
    [undefined]). *)
Theorem fetchPriceData_lookup :
  forall dataArray key,
    plainNames dataArray ->
    exists priceMap,
      fetchPriceData (Answered true (Some dataArray)) = Some priceMap
      /\ get priceMap key
         = match lastNamed key dataArray with
           | Some item =>
             Some {| pi_price := Some (min_price item / 100);
                     pi_min := Some (min_price item / 100);
                     pi_avg := Some (min_price item / 100);
                     pi_max := Some (min_price item / 100);
                     pi_qty := qty item |}
           | None =>
             if existsb (str_eqb key) Object_prototype_names
             then Some inheritedMember else None
           end.
Proof.
  intros dataArray key Hplain. eexists. split; [reflexivity|].
  unfold get. rewrite (ownProperty_priceMapOf _ _ Hplain).
  destruct (lastNamed key dataArray); reflexivity.
Qed.

Definition sampleFeed : list PriceListItem :=
  [ {| market_hash_name := js "AK-47 | Redline (Field-Tested)";
       min_price := 1250; qty := Some 40 |};
    {| market_hash_name := js "★ Bayonet | Doppler (Phase 1)";
       min_price := 64000; qty := Some 2 |};
    {| market_hash_name := js "★ Bayonet | Doppler (Phase 2)";
       min_price := 65000; qty := Some 3 |};
    {| market_hash_name := js "AK-47 | Redline (Field-Tested)";
       min_price := 1300; qty := Some 41 |} ].

Lemma sampleFeed_plain : plainNames sampleFeed.
Proof. repeat constructor; intros H; vm_compute in H; discriminate. Qed.

Lemma fetchPriceData_lookup_witness :
  exists priceMap,
    fetchPriceData (Answered true (Some sampleFeed)) = Some priceMap
    /\ get priceMap (js "AK-47 | Redline (Field-Tested)")
       = Some {| pi_price := Some 13; pi_min := Some 13; pi_avg := Some 13;
                 pi_max := Some 13; pi_qty := Some 41 |}.
Proof.
  destruct (fetchPriceData_lookup sampleFeed
              (js "AK-47 | Redline (Field-Tested)") sampleFeed_plain)
    as (priceMap & Hfetch & Hget).
  exists priceMap. split; [exact Hfetch|]. rewrite Hget.
  vm_compute. reflexivity.
Defined.


(** A quote whose four prices are one and the same value. *)
Definition uniformQuote (info : PriceInfo) : Prop :=
  pi_min info = pi_price info /\ pi_avg info = pi_price info
  /\ pi_max info = pi_price info.

Lemma get_priceMapOf_uniform dataArray key info :
  plainNames dataArray ->
  get (priceMapOf dataArray) key = Some info -> uniformQuote info.
Proof.
  intros Hplain. unfold get.
  rewrite (ownProperty_priceMapOf _ _ Hplain).
  destruct (lastNamed key dataArray) as [item|].
  - intros [= <-]. repeat split.
  - destruct (existsb _ _); [|discriminate].
    intros [= <-]. repeat split.
Qed.

Lemma quoteOf_uniform info key approximate :
  uniformQuote info ->
  avg (quoteOf info key approximate) = min (quoteOf info key approximate)
  /\ min (quoteOf info key approximate) = max (quoteOf info key approximate).
Proof.
  intros (Hmin & Havg & Hmax). cbn [quoteOf avg min max].
  rewrite Hmin, Havg, Hmax. split; reflexivity.
Qed.

(** Every answer on a fetched map is built from a uniform quote. *)
Lemma fetched_answer_uniform dataArray skinName wear stattrak souvenir r :
  plainNames dataArray ->
  getSkinPrice (Some (priceMapOf dataArray)) skinName wear stattrak souvenir
    = Some r ->
  exists info key approximate,
    uniformQuote info /\ r = quoteOf info key approximate.
Proof.
  intros Hplain H.
  assert (Hd : forall name wear',
    directAnswer (priceMapOf dataArray) name wear' stattrak souvenir r ->
    exists info key approximate,
      uniformQuote info /\ r = quoteOf info key approximate).
  { intros name wear'
      [(info & Hget & ->)|(_ & key & info & _ & _ & Hown & ->)].
    - exists info. do 2 eexists. split; [|reflexivity].
      exact (get_priceMapOf_uniform _ _ _ Hplain Hget).
    - exists info. do 2 eexists. split; [|reflexivity].
      apply (get_priceMapOf_uniform dataArray key _ Hplain).
      apply get_ownProperty, Hown. }
  apply getSkinPrice_origin in H
    as (pd & name & [= <-] & _ & _ & [H|(_ & w & _ & H)]);
    exact (Hd _ _ H).
Qed.

(** X7. On a price map built by [fetchPriceData] (from a feed without the
    name "__proto__") the three prices of every answer of [getSkinPrice] are
    one and the same number, so [getPriceRange] never shows a range for it:
    it shows that single price, formatted. *)
Theorem getPriceRange_fetched_single :
  forall toFixed Math_round Number_toString
         dataArray skinName wear stattrak souvenir r,
    plainNames dataArray ->
    getSkinPrice (fetchPriceData (Answered true (Some dataArray)))
      skinName wear stattrak souvenir = Some r ->
    avg r = min r /\ min r = max r
    /\ getPriceRange toFixed Math_round Number_toString (Some r)
       = formatPrice toFixed Math_round Number_toString (Some (avg r)).
Proof.
  intros toFixed Math_round Number_toString
    dataArray skinName wear stattrak souvenir r Hplain H.
  cbn [fetchPriceData] in H.
  destruct (fetched_answer_uniform _ _ _ _ _ _ Hplain H)
    as (info & key & approximate & Hu & ->).
  destruct (quoteOf_uniform info key approximate Hu) as [Ham Hmm].
  split; [exact Ham|]. split; [exact Hmm|].
  unfold getPriceRange. rewrite <- Hmm, <- Ham.
  assert (Hnan : is_nan (avg (quoteOf info key approximate)) = false)
    by (cbn [quoteOf avg]; apply or_zero_settled).
  unfold is_nan in Hnan. apply negb_false_iff in Hnan. rewrite Hnan.
  cbn [orb]. unfold Num.or_else.
  destruct (Num.truthy (avg (quoteOf info key approximate))); reflexivity.
Qed.

Definition bayonetAnswer : PriceResult :=
  {| avg := 640; min := 640; max := 640; currency := js "USD";
     marketHashName := js "★ Bayonet | Doppler (Phase 1)";
     isApproximate := true |}.

Lemma getPriceRange_fetched_single_witness :
  getSkinPrice (fetchPriceData (Answered true (Some sampleFeed)))
    (Some (js "★ Bayonet | Doppler")) None false false = Some bayonetAnswer
  /\ getPriceRange (fun _ _ => js "640.00") (fun x => x) (fun _ => [])
       (Some bayonetAnswer)
     = formatPrice (fun _ _ => js "640.00") (fun x => x) (fun _ => [])
         (Some 640).
Proof.
  assert (H : getSkinPrice (fetchPriceData (Answered true (Some sampleFeed)))
                (Some (js "★ Bayonet | Doppler")) None false false
              = Some bayonetAnswer) by (vm_compute; reflexivity).
  split; [exact H|].
  exact (proj2 (proj2
    (getPriceRange_fetched_single (fun _ _ => js "640.00") (fun x => x)
       (fun _ => []) sampleFeed (Some (js "★ Bayonet | Doppler")) None
       false false bayonetAnswer sampleFeed_plain H))).
Defined.

Lemma or_zero_same x :
  Num.or_zero (Num.or_else (Some x) (Some x)) = Num.or_zero (Some x).
Proof. unfold Num.or_else. destruct (Num.truthy x); reflexivity. Qed.

(** X8. An item the feed lists is priced exactly: when the identifier
    built from the skin name, the flags and the wear is the name of an item
    of the feed (none being named "__proto__"), [getSkinPrice] on the fetched
    map returns the [min_price / 100] of the last such item as average,
    minimum and maximum ([0] when that number is zero or [NaN]), under that
    identifier, tagged exact. *)
Theorem getSkinPrice_fetched_exact :
  forall dataArray skinName wear stattrak souvenir item,
    plainNames dataArray ->
    truthy_str skinName = true ->
    lastNamed (buildMarketHashName skinName wear stattrak souvenir) dataArray
      = Some item ->
    getSkinPrice (fetchPriceData (Answered true (Some dataArray)))
      (Some skinName) wear stattrak souvenir
    = Some {| avg := Num.or_zero (Some (min_price item / 100));
              min := Num.or_zero (Some (min_price item / 100));
              max := Num.or_zero (Some (min_price item / 100));
              currency := js "USD";
              marketHashName :=
                buildMarketHashName skinName wear stattrak souvenir;
              isApproximate := false |}.
Proof.
  intros dataArray skinName wear stattrak souvenir item Hplain Hn Hlast.
  cbn [fetchPriceData]. rewrite getSkinPrice_unfold.
  unfold getSkinPrice_body. destruct skinName as [|c s]; [discriminate|].
  cbv zeta. unfold get.
  rewrite (ownProperty_priceMapOf _ _ Hplain), Hlast.
  unfold quoteOf, quoteFor.
  cbn [pi_price pi_min pi_avg pi_max]. rewrite or_zero_same. reflexivity.
Qed.

Definition lastRedline : PriceListItem :=
  {| market_hash_name := js "AK-47 | Redline (Field-Tested)";
     min_price := 1300; qty := Some 41 |}.

Lemma getSkinPrice_fetched_exact_witness :
  lastNamed
    (buildMarketHashName (js "AK-47 | Redline") (Some (js "Field-Tested"))
       false false) sampleFeed = Some lastRedline
  /\ getSkinPrice (fetchPriceData (Answered true (Some sampleFeed)))
       (Some (js "AK-47 | Redline")) (Some (js "Field-Tested")) false false
     = Some {| avg := Num.or_zero (Some (1300 / 100));
               min := Num.or_zero (Some (1300 / 100));
               max := Num.or_zero (Some (1300 / 100));
               currency := js "USD";
               marketHashName :=
                 buildMarketHashName (js "AK-47 | Redline")
                   (Some (js "Field-Tested")) false false;
               isApproximate := false |}.
Proof.
  assert (Hlast : lastNamed
    (buildMarketHashName (js "AK-47 | Redline") (Some (js "Field-Tested"))
       false false) sampleFeed = Some lastRedline)
    by (vm_compute; reflexivity).
  assert (Hn : truthy_str (js "AK-47 | Redline") = true)
    by (vm_compute; reflexivity).
  split; [exact Hlast|].
  exact (getSkinPrice_fetched_exact sampleFeed (js "AK-47 | Redline")
           (Some (js "Field-Tested")) false false lastRedline
           sampleFeed_plain Hn Hlast).
Defined.


Lemma Object_keys_replaceOwn pm key v :
  Object_keys (replaceOwn pm key v) = Object_keys pm.
Proof.
  induction pm as [|[k0 v0] pm IH]; simpl; [reflexivity|].
  destruct (str_eqb k0 key) eqn:E; simpl; [|rewrite IH; reflexivity].
  reflexivity.
Qed.

Lemma ownProperty_In pm key :
  (exists v, ownProperty pm key = Some v) <-> In key (Object_keys pm).
Proof.
  split; [|apply ownProperty_key].
  induction pm as [|[k0 v0] pm IH]; simpl; intros [v H]; [discriminate|].
  destruct (str_eqb k0 key) eqn:E.
  - apply str_eqb_eq in E. auto.
  - right. apply IH. eauto.
Qed.

Lemma find_app {A} (p : A -> bool) (l l' : list A) :
  List.find p (l ++ l')
  = match List.find p l with Some x => Some x | None => List.find p l' end.
Proof.
  induction l as [|x l IH]; simpl; [reflexivity|].
  destruct (p x); [reflexivity|exact IH].
Qed.

(** For names that are neither array indices nor "__proto__" the keys of
    the built map are the names of the feed in the order of their first
    appearance: a search for the first key that passes a test finds the
    first name of the feed that passes it. *)
Lemma priceMapOf_keys dataArray :
  plainNames dataArray -> textNames dataArray ->
  (forall k, In k (Object_keys (priceMapOf dataArray))
             <-> In k (List.map market_hash_name dataArray))
  /\ (forall p, List.find p (Object_keys (priceMapOf dataArray))
                = List.find p (List.map market_hash_name dataArray)).
Proof.
  induction dataArray as [|item dataArray IH] using rev_ind;
    intros Hplain Htext; [split; [reflexivity|reflexivity]|].
  apply Forall_app in Hplain as [Hplain Hitem]. apply Forall_inv in Hitem.
  apply Forall_app in Htext as [Htext Hidx]. apply Forall_inv in Hidx.
  destruct (IH Hplain Htext) as [IHin IHfind].
  rewrite priceMapOf_snoc, map_app. cbn [List.map].
  unfold Object_set. rewrite (str_eqb_neq _ _ Hitem), Hidx.
  destruct (ownProperty (priceMapOf dataArray) (market_hash_name item))
    as [v|] eqn:Hown.
  - rewrite Object_keys_replaceOwn.
    assert (Hk : In (market_hash_name item)
                   (List.map market_hash_name dataArray)).
    { apply IHin, ownProperty_In. eauto. }
    split.
    + intros k. rewrite IHin, in_app_iff. cbn [In]. split; [auto|].
      intros [H|[<-|[]]]; assumption.
    + intros p. rewrite find_app, IHfind. cbn [List.find].
      destruct (List.find p (List.map market_hash_name dataArray)) eqn:Hf;
        [reflexivity|].
      rewrite (find_none _ _ Hf _ Hk). reflexivity.
  - unfold Object_keys in *. rewrite map_app. cbn [List.map fst]. split.
    + intros k. rewrite !in_app_iff, IHin. reflexivity.
    + intros p. rewrite !find_app, IHfind. reflexivity.
Qed.

(** X9. When several keys could serve as an approximate match, the order
    of the feed decides: on a map fetched from a feed whose names are neither
    array indices nor "__proto__", the fallback search returns the first name
    of the feed, in feed order, that passes its test (the same key it finds
    when it runs over the names of the feed as they come). *)
Theorem fallbackSearch_feed_order :
  forall dataArray skinName wear stattrak,
    plainNames dataArray ->
    textNames dataArray ->
    fallbackSearch (priceMapOf dataArray) skinName wear stattrak
    = fallbackSearch
        (List.map (fun item => (market_hash_name item, quoteFor item))
           dataArray)
        skinName wear stattrak.
Proof.
  intros dataArray skinName wear stattrak Hplain Htext.
  destruct (priceMapOf_keys _ Hplain Htext) as [_ Hfind].
  unfold fallbackSearch. cbv zeta. rewrite !Hfind.
  unfold Object_keys. rewrite !map_map. cbn [fst]. reflexivity.
Qed.

Lemma sampleFeed_text : textNames sampleFeed.
Proof. repeat constructor. Qed.

Lemma fallbackSearch_feed_order_witness :
  fallbackSearch (priceMapOf sampleFeed) (js "★ Bayonet | Doppler") None false
  = Some (js "★ Bayonet | Doppler (Phase 1)").
Proof.
  rewrite (fallbackSearch_feed_order sampleFeed (js "★ Bayonet | Doppler")
             None false sampleFeed_plain sampleFeed_text).
  vm_compute. reflexivity.
Defined.

End PriceFeedProps.

(** ** Reading, saving and clearing the snapshot log *)
Module HistoryReadProps.

Import JS PriceService PriceHistoryService PriceHistoryReads SnapshotProps.
Local Open Scope Z_scope.

(** The points [getSkinPriceHistory] makes of a log. *)
Definition pointsOf (marketHashName : jsstring) (log : list PriceSnapshot)
  : list PricePoint :=
  List.filter (fun item => (0 <? price item)%float)
    (List.map (pointOf marketHashName) log).

Lemma sublist_map_filter_map {A B C} (f : A -> B) (g : B -> C) (h : A -> C)
    (p : B -> bool) (l : list A) :
  (forall a, g (f a) = h a) ->
  sublist (List.map g (List.filter p (List.map f l))) (List.map h l).
Proof.
  intros Hgf. induction l as [|x l IH]; simpl; [constructor|].
  destruct (p (f x)); simpl; rewrite <- ?Hgf; constructor; exact IH.
Qed.

Lemma getSkinPriceHistory_run marketHashName st :
  getSkinPriceHistory marketHashName st
  = (Returned
       match fst (getPriceHistory st) with
       | Returned (ParsedLog log) => pointsOf marketHashName log
       | _ => []
       end, st).
Proof.
  unfold getSkinPriceHistory, try_catch, await.
  rewrite (surjective_pairing (getPriceHistory st)), getPriceHistory_state.
  cbn [fst]. destruct (fst (getPriceHistory st)) as [[log|]|]; reflexivity.
Qed.

(** X10. [getSkinPriceHistory] never throws and never writes: it returns a
    list and leaves the storage as it is.  Every point of the list has a
    positive price.  When a read of the storage gives a log, the list holds,
    in the order of the log, the snapshots in which the name has a positive
    price (so its timestamps are a sub-sequence of the timestamps of the
    log); when the storage is unavailable or holds something that is not an
    array, the list is empty. *)
Theorem getSkinPriceHistory_points :
  forall marketHashName st,
    exists history,
      getSkinPriceHistory marketHashName st = (Returned history, st)
      /\ (forall point, In point history -> (0 <? price point)%float = true)
      /\ (forall log, readsLog st log ->
            history = pointsOf marketHashName log
            /\ sublist (List.map pp_timestamp history)
                 (List.map timestamp log))
      /\ (available st = false
          \/ fst (getPriceHistory st) = Returned ParsedOther ->
          history = []).
Proof.
  intros marketHashName st. eexists.
  split; [apply getSkinPriceHistory_run|]. split; [|split].
  - intros point. destruct (fst (getPriceHistory st)) as [[log|]|];
      try (intros []).
    unfold pointsOf. rewrite filter_In. tauto.
  - intros log Hlog. unfold readsLog in Hlog. rewrite Hlog.
    split; [reflexivity|]. unfold pointsOf.
    apply sublist_map_filter_map. reflexivity.
  - intros [Hav|Hother]; [|rewrite Hother; reflexivity].
    unfold getPriceHistory, try_catch, await, AsyncStorage_getItem.
    rewrite Hav. reflexivity.
Qed.

Definition twoSnapshots : list PriceSnapshot :=
  [ {| timestamp := 1000; date := js "1970-01-01T00:00:01.000Z";
       prices := Some [(js "AK-47 | Redline (Field-Tested)",
                        ResolverProps.quote 12.5)] |};
    {| timestamp := 2000; date := js "1970-01-01T00:00:02.000Z";
       prices := Some [] |};
    {| timestamp := 3000; date := js "1970-01-01T00:00:03.000Z";
       prices := Some [(js "AK-47 | Redline (Field-Tested)",
                        ResolverProps.quote 13)] |} ].

Definition twoSnapshotStorage : AsyncStorage :=
  {| items := <[PRICE_HISTORY_KEY := LogText twoSnapshots]> ∅;
     available := true |}.

Lemma twoSnapshotStorage_reads : readsLog twoSnapshotStorage twoSnapshots.
Proof. apply readsLog_stored; [reflexivity|apply lookup_insert_eq]. Qed.

Lemma getSkinPriceHistory_points_witness :
  exists history,
    getSkinPriceHistory (js "AK-47 | Redline (Field-Tested)")
      twoSnapshotStorage = (Returned history, twoSnapshotStorage)
    /\ history = [ {| pp_timestamp := 1000; price := 12.5 |};
                   {| pp_timestamp := 3000; price := 13 |} ].
Proof.
  destruct (getSkinPriceHistory_points
              (js "AK-47 | Redline (Field-Tested)") twoSnapshotStorage)
    as (history & Hrun & _ & Hlog & _).
  exists history. split; [exact Hrun|].
  destruct (Hlog _ twoSnapshotStorage_reads) as [-> _].
  vm_compute. reflexivity.
Defined.


(** The log a save writes: the recent entries of the old log, then the new
    entry. *)
Lemma saved_log toISOString now priceData log :
  List.filter (fun snapshot => now - retention <? timestamp snapshot)
    (log ++ [newEntry toISOString now priceData])
  = List.filter (fun snapshot => now - retention <? timestamp snapshot) log
    ++ [newEntry toISOString now priceData].
Proof.
  rewrite List.filter_app. f_equal. cbn [List.filter newEntry timestamp].
  assert (H : (now - retention <? now) = true)
    by (apply Z.ltb_lt; unfold retention, MAX_HISTORY_DAYS; lia).
  rewrite H. reflexivity.
Qed.

Lemma saved_reads toISOString st log now priceData :
  available st = true -> readsLog st log ->
  readsLog (snd (savePriceSnapshot toISOString now priceData st))
    (List.map JSON_snapshot
       (List.filter (fun snapshot => now - retention <? timestamp snapshot)
          log)
     ++ [JSON_snapshot (newEntry toISOString now priceData)]).
Proof.
  intros Hav Hlog.
  rewrite (savePriceSnapshot_log toISOString st log now priceData Hav Hlog).
  cbn [snd]. rewrite saved_log, List.map_app.
  apply readsLog_stored; [exact Hav|]. cbn [items]. apply lookup_insert_eq.
Qed.

(** A truthy finite number is read back as it was written; what is read
    back for a falsy number is falsy. *)
Lemma JSON_number_truthy x :
  Num.truthy x = true -> is_finite x = true -> JSON_number (Some x) = Some x.
Proof.
  unfold Num.truthy, JSON_number. intros Ht Hf. rewrite Hf.
  apply andb_prop in Ht as [Hz _]. apply negb_true_iff in Hz.
  rewrite Hz. reflexivity.
Qed.

Lemma JSON_number_falsy x y :
  Num.truthy x = false -> JSON_number (Some x) = Some y ->
  Num.truthy y = false.
Proof.
  unfold JSON_number. intros Ht. destruct (is_finite x); [|discriminate].
  destruct (x =? 0)%float; intros [= <-]; [reflexivity|exact Ht].
Qed.

Lemma or_else_JSON_falsy x other :
  Num.truthy x = false ->
  Num.or_else (JSON_number (Some x)) other = other.
Proof.
  intros Ht. destruct (JSON_number (Some x)) as [y|] eqn:E; [|reflexivity].
  unfold Num.or_else. rewrite (JSON_number_falsy x y Ht E). reflexivity.
Qed.

Lemma or_zero_JSON y :
  (0 <? Num.or_zero y)%float = true -> is_finite (Num.or_zero y) = true ->
  Num.or_zero (JSON_number y) = Num.or_zero y.
Proof.
  destruct y as [y|]; [|reflexivity].
  assert (E : Num.truthy y = false -> Num.or_zero (Some y) = 0%float)
    by (intros Ht; unfold Num.or_zero; rewrite Ht; reflexivity).
  destruct (Num.truthy y) eqn:Ht.
  - assert (E' : Num.or_zero (Some y) = y)
      by (unfold Num.or_zero; rewrite Ht; reflexivity).
    rewrite E'. intros _ Hf. rewrite (JSON_number_truthy y Ht Hf).
    exact E'.
  - rewrite (E eq_refl). discriminate.
Qed.

(** A positive finite price is read back as it was written. *)
Lemma JSON_price_kept price avg :
  (0 <? Num.or_zero (Num.or_else price avg))%float = true ->
  is_finite (Num.or_zero (Num.or_else price avg)) = true ->
  Num.or_zero (Num.or_else (JSON_number price) (JSON_number avg))
  = Num.or_zero (Num.or_else price avg).
Proof.
  destruct price as [x|]; [|exact (or_zero_JSON avg)].
  destruct (Num.truthy x) eqn:Ht.
  - assert (E : Num.or_else (Some x) avg = Some x)
      by (unfold Num.or_else; rewrite Ht; reflexivity).
    rewrite E. intros _ Hf.
    assert (Hx : is_finite x = true)
      by (unfold Num.or_zero in Hf; rewrite Ht in Hf; exact Hf).
    rewrite (JSON_number_truthy x Ht Hx).
    unfold Num.or_else. rewrite Ht. reflexivity.
  - assert (E : Num.or_else (Some x) avg = avg)
      by (unfold Num.or_else; rewrite Ht; reflexivity).
    rewrite E, (or_else_JSON_falsy x _ Ht). exact (or_zero_JSON avg).
Qed.

Lemma ownProperty_JSON priceMap key :
  ownProperty
    (List.map (fun entry => (fst entry, JSON_quote (snd entry))) priceMap) key
  = match ownProperty priceMap key with
    | Some info => Some (JSON_quote info)
    | None => None
    end.
Proof.
  induction priceMap as [|[k v] rest IH]; [reflexivity|].
  cbn [List.map ownProperty fst snd]. destruct (str_eqb k key);
    [reflexivity|exact IH].
Qed.

(** Looking a name up in the prices read back gives the quote that was
    written, as JSON keeps it. *)
Lemma get_JSON priceMap key :
  get (List.map (fun entry => (fst entry, JSON_quote (snd entry))) priceMap)
    key
  = match get priceMap key with
    | Some info => Some (JSON_quote info)
    | None => None
    end.
Proof.
  unfold get. rewrite ownProperty_JSON.
  destruct (ownProperty priceMap key); [reflexivity|].
  destruct (existsb _ Object_prototype_names); reflexivity.
Qed.

Lemma pointsOf_app marketHashName l1 l2 :
  pointsOf marketHashName (l1 ++ l2)
  = pointsOf marketHashName l1 ++ pointsOf marketHashName l2.
Proof. unfold pointsOf. rewrite List.map_app, List.filter_app. reflexivity. Qed.

(** X11. Saving then reading: after [savePriceSnapshot] has stored, on an
    available storage that reads as a log, a price map that holds the name
    with a positive finite price ([price], or [avg] when [price] is missing,
    zero or [NaN]), the history of that name ends with the point of the save:
    its timestamp is the time of the save and its price that price.  All
    earlier points are younger than 30 days.  (A finite number goes through
    the stored JSON text unchanged.) *)
Theorem savePriceSnapshot_then_history :
  forall toISOString st log now priceData marketHashName info,
    available st = true ->
    readsLog st log ->
    get priceData marketHashName = Some info ->
    (0 <? Num.or_zero (Num.or_else (pi_price info) (pi_avg info)))%float
      = true ->
    is_finite (Num.or_zero (Num.or_else (pi_price info) (pi_avg info)))
      = true ->
    exists earlier,
      fst (getSkinPriceHistory marketHashName
             (snd (savePriceSnapshot toISOString now (Some priceData) st)))
      = Returned
          (earlier
           ++ [ {| pp_timestamp := now;
                   price := Num.or_zero
                              (Num.or_else (pi_price info) (pi_avg info)) |} ])
      /\ (forall point, In point earlier ->
            now - 30 * 24 * 60 * 60 * 1000 < pp_timestamp point).
Proof.
  intros toISOString st log now priceData marketHashName info
    Hav Hlog Hget Hpos Hfinite.
  pose proof (saved_reads toISOString st log now (Some priceData) Hav Hlog)
    as Hread.
  rewrite getSkinPriceHistory_run. cbn [fst].
  unfold readsLog in Hread. rewrite Hread. rewrite pointsOf_app.
  eexists. split.
  - f_equal. f_equal. unfold pointsOf.
    unfold pointOf, quoteIn, newEntry, JSON_snapshot, JSON_prices.
    cbn [List.map List.filter prices timestamp].
    rewrite get_JSON, Hget. cbn [JSON_quote pi_price pi_avg price].
    rewrite (JSON_price_kept _ _ Hpos Hfinite), Hpos. reflexivity.
  - intros point Hin. unfold pointsOf in Hin.
    apply filter_In in Hin as [Hin _]. apply in_map_iff in Hin
      as (snapshot & <- & Hin).
    apply in_map_iff in Hin as (written & <- & Hin).
    apply filter_In in Hin as [_ Hrecent]. apply Z.ltb_lt in Hrecent.
    cbn [pointOf pp_timestamp JSON_snapshot timestamp]. exact Hrecent.
Qed.

Lemma savePriceSnapshot_then_history_witness :
  exists earlier,
    fst (getSkinPriceHistory (js "AK-47 | Redline (Field-Tested)")
           (snd (savePriceSnapshot (fun _ => js "1970-01-01T00:00:05.000Z")
                   5000
                   (Some [(js "AK-47 | Redline (Field-Tested)",
                           ResolverProps.quote 14)])
                   twoSnapshotStorage)))
    = Returned
        (earlier
         ++ [ {| pp_timestamp := 5000;
                 price := Num.or_zero
                            (Num.or_else
                               (pi_price (ResolverProps.quote 14))
                               (pi_avg (ResolverProps.quote 14))) |} ]).
Proof.
  destruct (savePriceSnapshot_then_history
              (fun _ => js "1970-01-01T00:00:05.000Z") twoSnapshotStorage
              twoSnapshots 5000
              [(js "AK-47 | Redline (Field-Tested)", ResolverProps.quote 14)]
              (js "AK-47 | Redline (Field-Tested)") (ResolverProps.quote 14)
              eq_refl twoSnapshotStorage_reads eq_refl eq_refl eq_refl)
    as (earlier & H & _).
  exists earlier. exact H.
Defined.

Lemma clearPriceHistory_run st :
  clearPriceHistory st
  = (Returned tt,
     if available st
     then {| items := delete PRICE_HISTORY_KEY (items st);
             available := available st |}
     else st).
Proof.
  unfold clearPriceHistory, try_catch, AsyncStorage_removeItem.
  destruct (available st); reflexivity.
Qed.

Lemma readsLog_missing st :
  available st = true ->
  items st !! PRICE_HISTORY_KEY = None ->
  readsLog st [].
Proof.
  intros Hav Hst.
  unfold readsLog, getPriceHistory, try_catch, await, AsyncStorage_getItem.
  rewrite Hav, Hst. reflexivity.
Qed.

(** X12. [clearPriceHistory] never throws.  On an available storage it
    removes the log and nothing else: every other key keeps its value, the
    next read of the log gives the empty log, the history of every name is
    empty, and the next [savePriceSnapshot] starts a log that holds the new
    entry alone, as JSON keeps it: with the timestamp and the date of the
    save, and its prices with every number that is not finite read back as
    [null].  An unavailable storage is left as it is. *)
Theorem clearPriceHistory_clears :
  forall st,
    fst (clearPriceHistory st) = Returned tt
    /\ (available st = false -> snd (clearPriceHistory st) = st)
    /\ (available st = true ->
        (forall key, key <> PRICE_HISTORY_KEY ->
           items (snd (clearPriceHistory st)) !! key = items st !! key)
        /\ readsLog (snd (clearPriceHistory st)) []
        /\ (forall marketHashName,
              fst (getSkinPriceHistory marketHashName
                     (snd (clearPriceHistory st))) = Returned [])
        /\ (forall toISOString now priceData,
              readsLog
                (snd (savePriceSnapshot toISOString now priceData
                        (snd (clearPriceHistory st))))
                [ {| timestamp := now;
                     date := toISOString now;
                     prices := JSON_prices priceData |} ])).
Proof.
  intros st. rewrite clearPriceHistory_run. cbn [fst snd].
  split; [reflexivity|]. split; [intros ->; reflexivity|].
  intros Hav. rewrite Hav.
  set (st' := {| items := delete PRICE_HISTORY_KEY (items st);
                 available := true |}).
  assert (Hempty : readsLog st' []).
  { apply readsLog_missing; [reflexivity|]. cbn [items st'].
    apply lookup_delete_eq. }
  split; [|split; [exact Hempty|split]].
  - intros key Hkey. cbn [items st']. apply lookup_delete_ne. congruence.
  - intros marketHashName. rewrite getSkinPriceHistory_run. cbn [fst].
    unfold readsLog in Hempty. rewrite Hempty. reflexivity.
  - intros toISOString now priceData.
    exact (saved_reads toISOString st' [] now priceData eq_refl Hempty).
Qed.

Lemma clearPriceHistory_clears_witness :
  readsLog (snd (clearPriceHistory twoSnapshotStorage)) []
  /\ fst (getSkinPriceHistory (js "AK-47 | Redline (Field-Tested)")
            (snd (clearPriceHistory twoSnapshotStorage))) = Returned [].
Proof.
  destruct (proj2 (proj2 (clearPriceHistory_clears twoSnapshotStorage))
              eq_refl) as (_ & Hread & Hhist & _).
  split; [exact Hread|apply Hhist].
Defined.

(** X13. [savePriceSnapshot] never throws, whatever the storage holds; and
    when the storage is unavailable, or holds under the key something that
    is not an array, it leaves the storage exactly as it was. *)
Theorem savePriceSnapshot_fire_and_forget :
  forall toISOString now priceData st,
    fst (savePriceSnapshot toISOString now priceData st) = Returned tt
    /\ (available st = false
        \/ fst (getPriceHistory st) = Returned ParsedOther ->
        snd (savePriceSnapshot toISOString now priceData st) = st).
Proof.
  intros toISOString now priceData st.
  unfold savePriceSnapshot, try_catch, await.
  rewrite (surjective_pairing (getPriceHistory st)), getPriceHistory_state.
  destruct (fst (getPriceHistory st)) as [[log|]|] eqn:Hread.
  - unfold AsyncStorage_setItem.
    destruct (available st) eqn:Hav; cbn [fst snd].
    + split; [reflexivity|]. intros [H|H]; discriminate.
    + split; [reflexivity|]. reflexivity.
  - cbn [fst snd throw pure]. split; reflexivity.
  - cbn [fst snd pure]. split; reflexivity.
Qed.

Definition brokenStorage : AsyncStorage :=
  {| items := <[PRICE_HISTORY_KEY := NotAnArray]> ∅; available := true |}.

Lemma savePriceSnapshot_fire_and_forget_witness :
  snd (savePriceSnapshot (fun _ => []) 5000 (Some []) brokenStorage)
  = brokenStorage.
Proof.
  apply (proj2 (savePriceSnapshot_fire_and_forget (fun _ => []) 5000
                  (Some []) brokenStorage)).
  right. unfold getPriceHistory, try_catch, await, AsyncStorage_getItem.
  cbn [available brokenStorage items].
  rewrite lookup_insert_eq. reflexivity.
Defined.

(** A log in the order of its timestamps. *)
Definition chronological (log : list PriceSnapshot) : Prop :=
  StronglySorted (fun a b => timestamp a <= timestamp b) log.

Lemma StronglySorted_filter {A} (R : A -> A -> Prop) (f : A -> bool) l :
  StronglySorted R l -> StronglySorted R (List.filter f l).
Proof.
  induction 1 as [|x l Hl IH Hx]; simpl; [constructor|].
  destruct (f x); [|exact IH].
  constructor; [exact IH|].
  apply List.Forall_forall. intros y Hy. apply filter_In in Hy as [Hy _].
  rewrite List.Forall_forall in Hx. apply Hx, Hy.
Qed.

Lemma StronglySorted_snoc {A} (R : A -> A -> Prop) l x :
  StronglySorted R l -> Forall (fun y => R y x) l ->
  StronglySorted R (l ++ [x]).
Proof.
  induction 1 as [|y l Hl IH Hy]; intros Hall; simpl.
  - constructor; constructor.
  - inversion Hall as [|? ? Hyx Hall']; subst.
    constructor; [apply IH, Hall'|].
    apply Forall_app. split; [exact Hy|]. constructor; [exact Hyx|constructor].
Qed.

Lemma StronglySorted_map {A B} (R : B -> B -> Prop) (f : A -> B) l :
  StronglySorted (fun a b => R (f a) (f b)) l ->
  StronglySorted R (List.map f l).
Proof.
  induction 1 as [|x l Hl IH Hx]; simpl; constructor; [exact IH|].
  apply List.Forall_forall. intros y Hy.
  apply in_map_iff in Hy as (a & <- & Ha).
  rewrite List.Forall_forall in Hx. apply Hx, Ha.
Qed.

(** X14. The log stays in the order of time.  When the stored log is in
    the order of its timestamps and none of them lies after the time of the
    save, the log after [savePriceSnapshot] is again in that order with no
    timestamp after the time of the save, every entry is younger than 30
    days, and the history [getSkinPriceHistory] then returns for any name
    is in the order of time: its first point is the oldest and its last the
    newest, as [calculatePriceChange] takes them to be. *)
Theorem savePriceSnapshot_chronological :
  forall toISOString st log now priceData,
    available st = true ->
    readsLog st log ->
    chronological log ->
    Forall (fun snapshot => timestamp snapshot <= now) log ->
    exists log',
      readsLog (snd (savePriceSnapshot toISOString now priceData st)) log'
      /\ chronological log'
      /\ Forall (fun snapshot =>
                   now - 30 * 24 * 60 * 60 * 1000 < timestamp snapshot <= now)
           log'
      /\ forall marketHashName,
           exists history,
             fst (getSkinPriceHistory marketHashName
                    (snd (savePriceSnapshot toISOString now priceData st)))
             = Returned history
             /\ StronglySorted (fun a b => pp_timestamp a <= pp_timestamp b)
                  history.
Proof.
  intros toISOString st log now priceData Hav Hlog Hsorted Hpast.
  pose proof (saved_reads toISOString st log now priceData Hav Hlog) as Hread.
  set (kept := List.filter
                 (fun snapshot => now - retention <? timestamp snapshot) log)
    in *.
  assert (Hkept : Forall (fun snapshot =>
                     now - 30 * 24 * 60 * 60 * 1000 < timestamp snapshot
                     <= now) kept).
  { apply List.Forall_forall. intros snapshot Hin.
    apply filter_In in Hin as [Hin Hrecent]. apply Z.ltb_lt in Hrecent.
    rewrite List.Forall_forall in Hpast. split; [exact Hrecent|].
    apply Hpast, Hin. }
  assert (Hwritten :
            chronological (kept ++ [newEntry toISOString now priceData])).
  { apply StronglySorted_snoc.
    - apply StronglySorted_filter, Hsorted.
    - eapply Forall_impl; [exact Hkept|]. intros snapshot [_ H]. exact H. }
  assert (Hchron :
            chronological
              (List.map JSON_snapshot kept
               ++ [JSON_snapshot (newEntry toISOString now priceData)])).
  { change (List.map JSON_snapshot kept
            ++ [JSON_snapshot (newEntry toISOString now priceData)])
      with (List.map JSON_snapshot kept
            ++ List.map JSON_snapshot [newEntry toISOString now priceData]).
    rewrite <- List.map_app.
    apply (StronglySorted_map (fun a b => timestamp a <= timestamp b)
             JSON_snapshot).
    exact Hwritten. }
  exists (List.map JSON_snapshot kept
          ++ [JSON_snapshot (newEntry toISOString now priceData)]).
  split; [exact Hread|]. split; [exact Hchron|]. split.
  - apply Forall_app. split.
    + apply List.Forall_forall. intros snapshot Hin.
      apply in_map_iff in Hin as (written & <- & Hin).
      rewrite List.Forall_forall in Hkept. exact (Hkept written Hin).
    + constructor; [|constructor].
      cbn [JSON_snapshot newEntry timestamp]. lia.
  - intros marketHashName. eexists.
    rewrite getSkinPriceHistory_run. cbn [fst].
    unfold readsLog in Hread. rewrite Hread. split; [reflexivity|].
    unfold pointsOf. apply StronglySorted_filter.
    apply (StronglySorted_map
             (fun a b => pp_timestamp a <= pp_timestamp b)
             (pointOf marketHashName)).
    exact Hchron.
Qed.

Lemma twoSnapshots_chronological : chronological twoSnapshots.
Proof.
  unfold twoSnapshots. repeat constructor; cbn [timestamp]; lia.
Qed.

Lemma savePriceSnapshot_chronological_witness :
  exists log',
    readsLog (snd (savePriceSnapshot (fun _ => []) 5000 None
                     twoSnapshotStorage)) log'
    /\ chronological log'.
Proof.
  assert (Hpast : Forall (fun snapshot => timestamp snapshot <= 5000)
                    twoSnapshots)
    by (unfold twoSnapshots; repeat constructor; cbn [timestamp]; lia).
  destruct (savePriceSnapshot_chronological (fun _ => []) twoSnapshotStorage
              twoSnapshots 5000 None eq_refl twoSnapshotStorage_reads
              twoSnapshots_chronological Hpast)
    as (log' & Hread & Hchron & _).
  exists log'. split; [exact Hread|exact Hchron].
Defined.

End HistoryReadProps.

(** ** The price chart: period windows and the change it shows *)
Module ChartProps.

Import JS PriceService PriceHistoryService PriceHistoryReads PriceChart.
Import SnapshotProps HistoryReadProps.
Local Open Scope Z_scope.

Lemma filter_sublist_impl {A} (f g : A -> bool) (l : list A) :
  (forall x, f x = true -> g x = true) ->
  sublist (List.filter f l) (List.filter g l).
Proof.
  intros Himpl. induction l as [|x l IH]; simpl; [constructor|].
  destruct (f x) eqn:Hf.
  - rewrite (Himpl x Hf). constructor. exact IH.
  - destruct (g x); [constructor|]; exact IH.
Qed.

Lemma filter_all {A} (f : A -> bool) (l : list A) :
  Forall (fun x => f x = true) l -> List.filter f l = l.
Proof.
  induction 1 as [|x l Hx Hl IH]; simpl; [reflexivity|].
  rewrite Hx, IH. reflexivity.
Qed.

(** X15. The period windows of the chart.  At one time [now] the 7-day
    window is part of the 14-day window and that of the 30-day window, each
    in the order of the history; a window keeps exactly the points that are
    not older than its period (a point exactly as old as the period is
    kept, and so is every point of the future); and the 30-day window taken
    at the time of a save keeps every point of the history that the save
    has left in the storage. *)
Theorem filterByPeriod_windows :
  forall now history,
    sublist (filterByPeriod now Days7 history)
      (filterByPeriod now Days14 history)
    /\ sublist (filterByPeriod now Days14 history)
         (filterByPeriod now Days30 history)
    /\ sublist (filterByPeriod now Days30 history) history
    /\ (forall period point,
          In point (filterByPeriod now period history)
          <-> In point history
              /\ now - periodMs period <= pp_timestamp point)
    /\ (forall toISOString st log priceData marketHashName saved,
          available st = true ->
          readsLog st log ->
          fst (getSkinPriceHistory marketHashName
                 (snd (savePriceSnapshot toISOString now priceData st)))
          = Returned saved ->
          filterByPeriod now Days30 saved = saved).
Proof.
  intros now history. split; [|split; [|split; [|split]]].
  - apply filter_sublist_impl. intros x H.
    apply Z.leb_le in H. apply Z.leb_le. unfold periodMs in *. lia.
  - apply filter_sublist_impl. intros x H.
    apply Z.leb_le in H. apply Z.leb_le. unfold periodMs in *. lia.
  - unfold filterByPeriod.
    induction history as [|x l IH]; simpl; [constructor|].
    destruct (_ <=? _); constructor; exact IH.
  - intros period point. unfold filterByPeriod.
    rewrite filter_In, Z.leb_le. split; intros [H1 H2]; (split; [exact H1|lia]).
  - intros toISOString st log priceData marketHashName saved Hav Hlog Hsaved.
    pose proof (saved_reads toISOString st log now priceData Hav Hlog)
      as Hread.
    rewrite getSkinPriceHistory_run in Hsaved. cbn [fst] in Hsaved.
    unfold readsLog in Hread. rewrite Hread in Hsaved.
    injection Hsaved as <-.
    apply filter_all, List.Forall_forall. intros point Hin.
    unfold pointsOf in Hin. apply filter_In in Hin as [Hin _].
    apply in_map_iff in Hin as (snapshot & <- & Hin).
    cbn [pointOf pp_timestamp]. apply Z.leb_le.
    apply in_app_or in Hin as [Hin|[<-|[]]].
    + apply in_map_iff in Hin as (written & <- & Hin).
      apply filter_In in Hin as [_ Hrecent]. apply Z.ltb_lt in Hrecent.
      unfold retention, MAX_HISTORY_DAYS in Hrecent.
      cbn [JSON_snapshot timestamp]. unfold periodMs. lia.
    + cbn [JSON_snapshot newEntry timestamp]. unfold periodMs. lia.
Qed.

Lemma filterByPeriod_windows_witness :
  exists saved,
    fst (getSkinPriceHistory (js "AK-47 | Redline (Field-Tested)")
           (snd (savePriceSnapshot (fun _ => []) 5000 None
                   twoSnapshotStorage)))
    = Returned saved
    /\ filterByPeriod 5000 Days30 saved = saved.
Proof.
  exists [ {| pp_timestamp := 1000; price := 12.5%float |};
           {| pp_timestamp := 3000; price := 13%float |} ].
  assert (Hsaved :
    fst (getSkinPriceHistory (js "AK-47 | Redline (Field-Tested)")
           (snd (savePriceSnapshot (fun _ => []) 5000 None
                   twoSnapshotStorage)))
    = Returned [ {| pp_timestamp := 1000; price := 12.5%float |};
                 {| pp_timestamp := 3000; price := 13%float |} ])
    by (vm_compute; reflexivity).
  split; [exact Hsaved|].
  exact (proj2 (proj2 (proj2 (proj2 (filterByPeriod_windows 5000 []))))
           (fun _ => []) twoSnapshotStorage twoSnapshots None
           (js "AK-47 | Redline (Field-Tested)") _ eq_refl
           twoSnapshotStorage_reads Hsaved).
Defined.

(** X16. The change the chart shows for a locally stored history.  Every
    point [getSkinPriceHistory] returns has a positive price, also after the
    period filter; so on such a history of two or more points
    [calculatePriceChange] never takes the branch that sets the percentage
    to 0 for an oldest price that is not positive: the percentage is the
    difference of the last and the first price, relative to the first, in
    percent. *)
Theorem chart_change_relative :
  forall marketHashName st now period history first middle last,
    fst (getSkinPriceHistory marketHashName st) = Returned history ->
    filterByPeriod now period history = first :: middle ++ [last] ->
    (0 <? price first)%float = true
    /\ (0 <? price last)%float = true
    /\ change (calculatePriceChange
                 (Some (filterByPeriod now period history)))
       = (price last - price first)%float
    /\ percentage (calculatePriceChange
                     (Some (filterByPeriod now period history)))
       = ((price last - price first) / price first * 100)%float.
Proof.
  intros marketHashName st now period history first middle last Hread Hshown.
  assert (Hpos : forall point,
             In point (filterByPeriod now period history) ->
             (0 <? price point)%float = true).
  { intros point Hin. unfold filterByPeriod in Hin.
    apply filter_In in Hin as [Hin _].
    rewrite getSkinPriceHistory_run in Hread. cbn [fst] in Hread.
    destruct (fst (getPriceHistory st)) as [[log|]|];
      injection Hread as <-; try destruct Hin.
    unfold pointsOf in Hin. apply filter_In in Hin as [_ H]. exact H. }
  rewrite Hshown in *.
  assert (Hfirst : (0 <? price first)%float = true)
    by (apply Hpos; left; reflexivity).
  assert (Hlast : (0 <? price last)%float = true)
    by (apply Hpos; right; apply in_or_app; right; left; reflexivity).
  split; [exact Hfirst|]. split; [exact Hlast|].
  rewrite HistoryProps.calculatePriceChange_ends.
  unfold HistoryProps.changeBetween.
  cbv beta iota zeta delta [change percentage].
  rewrite Hfirst. split; reflexivity.
Qed.

Lemma chart_change_relative_witness :
  percentage (calculatePriceChange
                (Some (filterByPeriod 5000 Days7
                         [ {| pp_timestamp := 1000; price := 12.5 |};
                           {| pp_timestamp := 3000; price := 13 |} ])))
  = ((13 - 12.5) / 12.5 * 100)%float.
Proof.
  assert (Hread :
    fst (getSkinPriceHistory (js "AK-47 | Redline (Field-Tested)")
           twoSnapshotStorage)
    = Returned [ {| pp_timestamp := 1000; price := 12.5 |};
                 {| pp_timestamp := 3000; price := 13 |} ])
    by (vm_compute; reflexivity).
  exact (proj2 (proj2 (proj2
           (chart_change_relative (js "AK-47 | Redline (Field-Tested)")
              twoSnapshotStorage 5000 Days7 _
              {| pp_timestamp := 1000; price := 12.5 |} []
              {| pp_timestamp := 3000; price := 13 |} Hread eq_refl)))).
Defined.

End ChartProps.

(** ** The order of the numbers *)
Module FloatOrder.

Local Open Scope float_scope.

Lemma SFleb_trans x y z :
  SFleb x y = true -> SFleb y z = true -> SFleb x z = true.
Proof.
  unfold SFleb.
  destruct x as [sx|sx| |sx mx ex], y as [sy|sy| |sy my ey],
    z as [sz|sz| |sz mz ez]; simpl;
    try (destruct sx); try (destruct sy); try (destruct sz);
    try reflexivity; try discriminate.
  all: destruct (Z.compare_spec ex ey), (Z.compare_spec ey ez),
         (Z.compare_spec ex ez); try reflexivity; try discriminate;
       try lia.
  all: rewrite ?Pos.compare_cont_spec; simpl;
       destruct (Pos.compare_spec mx my), (Pos.compare_spec my mz),
         (Pos.compare_spec mx mz); simpl;
       try reflexivity; try discriminate; try lia.
Qed.

Lemma SFcompare_nan x y :
  SFcompare x y = None <-> x = S754_nan \/ y = S754_nan.
Proof.
  destruct x as [sx|sx| |sx mx ex], y as [sy|sy| |sy my ey]; simpl;
    try (destruct sx); try (destruct sy);
    (split; [try discriminate; auto|intros [H|H]; try discriminate H;
                                    reflexivity]).
Qed.

Lemma is_nan_spec x : is_nan x = false <-> Prim2SF x <> S754_nan.
Proof.
  unfold is_nan. rewrite FloatAxioms.eqb_spec. unfold SFeqb.
  destruct (SFcompare (Prim2SF x) (Prim2SF x)) as [c|] eqn:E.
  - assert (Hn : Prim2SF x <> S754_nan).
    { intros H. rewrite H in E. discriminate. }
    split; [intros _; exact Hn|intros _].
    destruct (Prim2SF x) as [s|s| |s m e]; simpl in E;
      try (destruct s); inversion E; try reflexivity; try contradiction.
    all: rewrite Z.compare_refl, Pos.compare_cont_refl; reflexivity.
  - apply SFcompare_nan in E. split; [discriminate|].
    intros H. destruct E; contradiction.
Qed.

Lemma leb_trans x y z :
  (x <=? y) = true -> (y <=? z) = true -> (x <=? z) = true.
Proof. rewrite !FloatAxioms.leb_spec. apply SFleb_trans. Qed.

Lemma leb_refl x : is_nan x = false -> (x <=? x) = true.
Proof.
  intros H. unfold is_nan in H. apply negb_false_iff in H.
  revert H. rewrite FloatAxioms.eqb_spec, FloatAxioms.leb_spec.
  unfold SFeqb, SFleb.
  destruct (SFcompare (Prim2SF x) (Prim2SF x)) as [[]|]; congruence.
Qed.

Lemma ltb_leb x y : (x <? y) = true -> (x <=? y) = true.
Proof.
  rewrite FloatAxioms.ltb_spec, FloatAxioms.leb_spec. unfold SFltb, SFleb.
  destruct (SFcompare (Prim2SF x) (Prim2SF y)) as [[]|]; congruence.
Qed.

(** The order is total on the numbers other than [NaN]. *)
Lemma not_ltb_leb x y :
  is_nan x = false -> is_nan y = false ->
  (x <? y) = false -> (y <=? x) = true.
Proof.
  rewrite !is_nan_spec, FloatAxioms.ltb_spec, FloatAxioms.leb_spec.
  unfold SFltb, SFleb. intros Hx Hy.
  rewrite (NumFacts.SFcompare_antisym (Prim2SF x) (Prim2SF y)).
  destruct (SFcompare (Prim2SF x) (Prim2SF y)) as [[]|] eqn:E; simpl;
    try congruence.
  apply SFcompare_nan in E. destruct E; contradiction.
Qed.

Lemma leb_not_nan x y :
  (x <=? y) = true -> is_nan x = false /\ is_nan y = false.
Proof.
  rewrite !is_nan_spec, FloatAxioms.leb_spec. unfold SFleb.
  destruct (SFcompare (Prim2SF x) (Prim2SF y)) as [c|] eqn:E;
    [|discriminate].
  intros _. split; intros H; rewrite H in E;
    [|destruct (Prim2SF x) as [s|s| |s m e]]; discriminate.
Qed.

(** Both zeros compare as equal. *)
Lemma zeros_leb x y :
  is_nan x = false ->
  classify x = NZero \/ classify x = PZero ->
  classify y = NZero \/ classify y = PZero ->
  (x <=? y) = true.
Proof.
  rewrite !FloatAxioms.classify_spec, FloatAxioms.leb_spec.
  intros _. unfold SF64classify, SFclassify, SFleb.
  destruct (Prim2SF x) as [sx|sx| |sx mx ex], (Prim2SF y) as [sy|sy| |sy my ey];
    try (destruct sx); try (destruct sy); simpl;
    repeat match goal with
    | |- context [if ?b then _ else _] => destruct b
    end; intros [H|H] [H'|H']; try discriminate; reflexivity.
Qed.

(** Nothing but the positive infinity lies at or above it. *)
Lemma infinity_leb x : (infinity <=? x) = true -> x = infinity.
Proof.
  rewrite FloatAxioms.leb_spec. intros H.
  apply FloatAxioms.Prim2SF_inj.
  remember (Prim2SF infinity) as i eqn:Hi. vm_compute in Hi. subst i.
  destruct (Prim2SF x) as [s|s| |s m e]; try (destruct s);
    try discriminate H; reflexivity.
Qed.

Lemma leb_neg_infinity x : (x <=? neg_infinity) = true -> x = neg_infinity.
Proof.
  rewrite FloatAxioms.leb_spec. intros H.
  apply FloatAxioms.Prim2SF_inj.
  remember (Prim2SF neg_infinity) as i eqn:Hi. vm_compute in Hi. subst i.
  destruct (Prim2SF x) as [s|s| |s m e]; try (destruct s);
    try discriminate H; reflexivity.
Qed.

Lemma leb_infinity x : is_nan x = false -> (x <=? infinity) = true.
Proof.
  rewrite is_nan_spec, FloatAxioms.leb_spec.
  remember (Prim2SF infinity) as i eqn:Hi. vm_compute in Hi. subst i.
  destruct (Prim2SF x) as [s|s| |s m e]; try (destruct s); intros H;
    try reflexivity; contradiction.
Qed.

Lemma neg_infinity_leb x : is_nan x = false -> (neg_infinity <=? x) = true.
Proof.
  rewrite is_nan_spec, FloatAxioms.leb_spec.
  remember (Prim2SF neg_infinity) as i eqn:Hi. vm_compute in Hi. subst i.
  destruct (Prim2SF x) as [s|s| |s m e]; try (destruct s); intros H;
    try reflexivity; contradiction.
Qed.

End FloatOrder.

(** ** [getPriceStats] *)
Module StatsProps.

Import PriceHistoryService PriceStatsService FloatOrder.
Local Open Scope float_scope.

Lemma min_step_spec lowest number :
  is_nan lowest = false -> is_nan number = false ->
  (min_step lowest number = lowest \/ min_step lowest number = number)
  /\ (min_step lowest number <=? lowest) = true
  /\ (min_step lowest number <=? number) = true.
Proof.
  intros Hl Hn. unfold min_step. rewrite Hl, Hn. cbn [orb].
  assert (Hplain :
    ((if number <? lowest then number else lowest) = lowest
     \/ (if number <? lowest then number else lowest) = number)
    /\ ((if number <? lowest then number else lowest) <=? lowest) = true
    /\ ((if number <? lowest then number else lowest) <=? number) = true).
  { destruct (number <? lowest) eqn:E.
    - split; [right; reflexivity|]. split; [apply ltb_leb, E|].
      apply leb_refl, Hn.
    - split; [left; reflexivity|]. split; [apply leb_refl, Hl|].
      apply not_ltb_leb; assumption. }
  destruct (classify number) eqn:Cn; try exact Hplain.
  destruct (classify lowest) eqn:Cl; try exact Hplain.
  split; [right; reflexivity|]. split.
  - apply zeros_leb; auto.
  - apply leb_refl, Hn.
Qed.

Lemma max_step_spec highest number :
  is_nan highest = false -> is_nan number = false ->
  (max_step highest number = highest \/ max_step highest number = number)
  /\ (highest <=? max_step highest number) = true
  /\ (number <=? max_step highest number) = true.
Proof.
  intros Hh Hn. unfold max_step. rewrite Hh, Hn. cbn [orb].
  assert (Hplain :
    ((if highest <? number then number else highest) = highest
     \/ (if highest <? number then number else highest) = number)
    /\ (highest <=? (if highest <? number then number else highest)) = true
    /\ (number <=? (if highest <? number then number else highest)) = true).
  { destruct (highest <? number) eqn:E.
    - split; [right; reflexivity|]. split; [apply ltb_leb, E|].
      apply leb_refl, Hn.
    - split; [left; reflexivity|]. split; [apply leb_refl, Hh|].
      apply not_ltb_leb; assumption. }
  destruct (classify number) eqn:Cn; try exact Hplain.
  destruct (classify highest) eqn:Ch; try exact Hplain.
  split; [right; reflexivity|]. split.
  - apply zeros_leb; auto.
  - apply leb_refl, Hn.
Qed.

Lemma fold_min_spec values : forall lowest,
  is_nan lowest = false ->
  Forall (fun number => is_nan number = false) values ->
  let result := fold_left min_step values lowest in
  (result = lowest \/ In result values)
  /\ (result <=? lowest) = true
  /\ Forall (fun number => (result <=? number) = true) values.
Proof.
  induction values as [|number values IH]; intros lowest Hl Hv; cbn zeta.
  - simpl. split; [left; reflexivity|]. split; [apply leb_refl, Hl|].
    constructor.
  - inversion Hv as [|? ? Hn Hv']; subst.
    destruct (min_step_spec lowest number Hl Hn) as (Hor & Hlo & Hnu).
    assert (Hs : is_nan (min_step lowest number) = false)
      by (apply (leb_not_nan _ _ Hlo)).
    destruct (IH (min_step lowest number) Hs Hv') as (Hor' & Hlo' & Hall).
    cbn [fold_left]. split; [|split].
    + destruct Hor' as [->|Hin]; [|right; right; exact Hin].
      destruct Hor as [->| ->]; [left; reflexivity|right; left; reflexivity].
    + eapply leb_trans; eassumption.
    + constructor; [eapply leb_trans; eassumption|exact Hall].
Qed.

Lemma fold_max_spec values : forall highest,
  is_nan highest = false ->
  Forall (fun number => is_nan number = false) values ->
  let result := fold_left max_step values highest in
  (result = highest \/ In result values)
  /\ (highest <=? result) = true
  /\ Forall (fun number => (number <=? result) = true) values.
Proof.
  induction values as [|number values IH]; intros highest Hh Hv; cbn zeta.
  - simpl. split; [left; reflexivity|]. split; [apply leb_refl, Hh|].
    constructor.
  - inversion Hv as [|? ? Hn Hv']; subst.
    destruct (max_step_spec highest number Hh Hn) as (Hor & Hhi & Hnu).
    assert (Hs : is_nan (max_step highest number) = false)
      by (apply (leb_not_nan _ _ Hhi)).
    destruct (IH (max_step highest number) Hs Hv') as (Hor' & Hhi' & Hall).
    cbn [fold_left]. split; [|split].
    + destruct Hor' as [->|Hin]; [|right; right; exact Hin].
      destruct Hor as [->| ->]; [left; reflexivity|right; left; reflexivity].
    + eapply leb_trans; eassumption.
    + constructor; [eapply leb_trans; eassumption|exact Hall].
Qed.

(** [NaN] among the arguments makes the result [NaN]. *)
Lemma min_step_nan_l number : min_step nan number = nan.
Proof. reflexivity. Qed.

Lemma max_step_nan_l number : max_step nan number = nan.
Proof. reflexivity. Qed.

Lemma fold_min_nan values : fold_left min_step values nan = nan.
Proof. induction values as [|x l IH]; [reflexivity|exact IH]. Qed.

Lemma fold_max_nan values : fold_left max_step values nan = nan.
Proof. induction values as [|x l IH]; [reflexivity|exact IH]. Qed.

Lemma fold_min_sticky values : forall lowest,
  Exists (fun number => is_nan number = true) values ->
  fold_left min_step values lowest = nan.
Proof.
  induction values as [|x l IH]; intros lowest H; inversion H; subst.
  - cbn [fold_left]. unfold min_step at 2.
    match goal with H : is_nan x = true |- _ => rewrite H end.
    rewrite orb_true_r. apply fold_min_nan.
  - cbn [fold_left]. apply IH. assumption.
Qed.

Lemma fold_max_sticky values : forall highest,
  Exists (fun number => is_nan number = true) values ->
  fold_left max_step values highest = nan.
Proof.
  induction values as [|x l IH]; intros highest H; inversion H; subst.
  - cbn [fold_left]. unfold max_step at 2.
    match goal with H : is_nan x = true |- _ => rewrite H end.
    rewrite orb_true_r. apply fold_max_nan.
  - cbn [fold_left]. apply IH. assumption.
Qed.

Lemma last_map {A B} (f : A -> B) (l : list A) (d : A) :
  List.last (List.map f l) (f d) = f (List.last l d).
Proof.
  induction l as [|x l IH]; [reflexivity|].
  cbn [List.map]. destruct l as [|y l]; [reflexivity|exact IH].
Qed.

(** X17. [getPriceStats] on a history that is not empty and holds no [NaN]
    price: [min] and [max] are prices of the history, no price lies below
    [min] or above [max], and [current] is the price of the last point.
    One [NaN] price anywhere makes both [min] and [max] [NaN]. *)
Theorem getPriceStats_bounds :
  forall first rest,
    let history := first :: rest in
    let stats := getPriceStats (Some history) in
    current stats = price (List.last history first)
    /\ (Forall (fun point => is_nan (price point) = false) history ->
        In (min stats) (List.map price history)
        /\ In (max stats) (List.map price history)
        /\ (forall point, In point history ->
              (min stats <=? price point) = true
              /\ (price point <=? max stats) = true))
    /\ (Exists (fun point => is_nan (price point) = true) history ->
        min stats = nan /\ max stats = nan).
Proof.
  intros first rest history stats.
  unfold stats, getPriceStats, history.
  cbv beta iota zeta delta [min max current].
  fold history. split; [|split].
  - change (price first :: List.map price rest) with (List.map price history).
    apply last_map.
  - intros Hv.
    assert (Hv' : Forall (fun number => is_nan number = false)
                    (List.map price history)).
    { apply List.Forall_forall. intros number Hin.
      apply in_map_iff in Hin as (point & <- & Hin).
      rewrite List.Forall_forall in Hv. apply Hv, Hin. }
    change (price first :: List.map price rest) with (List.map price history).
    destruct (fold_min_spec (List.map price history) infinity eq_refl Hv')
      as (Hmin & _ & Hlow).
    destruct (fold_max_spec (List.map price history) neg_infinity eq_refl Hv')
      as (Hmax & _ & Hhigh).
    cbv zeta in Hmin, Hlow, Hmax, Hhigh.
    fold (Math_min (List.map price history)) in *.
    fold (Math_max (List.map price history)) in *.
    rewrite List.Forall_forall in Hlow, Hhigh.
    assert (Hfirst : In (price first) (List.map price history))
      by (left; reflexivity).
    split; [|split].
    + destruct Hmin as [Heq|Hin]; [|exact Hin].
      pose proof (Hlow _ Hfirst) as H. rewrite Heq in H.
      apply infinity_leb in H. rewrite Heq, <- H. exact Hfirst.
    + destruct Hmax as [Heq|Hin]; [|exact Hin].
      pose proof (Hhigh _ Hfirst) as H. rewrite Heq in H.
      apply leb_neg_infinity in H. rewrite Heq, <- H. exact Hfirst.
    + intros point Hin. split; [apply Hlow|apply Hhigh];
        apply in_map, Hin.
  - intros Hex.
    assert (Hex' : Exists (fun number => is_nan number = true)
                     (List.map price history)).
    { apply List.Exists_exists in Hex as (point & Hin & Hnan).
      apply List.Exists_exists. exists (price point).
      split; [apply in_map, Hin|exact Hnan]. }
    change (price first :: List.map price rest) with (List.map price history).
    split; [apply fold_min_sticky|apply fold_max_sticky]; exact Hex'.
Qed.

Definition weekOfPrices : list PricePoint :=
  [ {| pp_timestamp := 1000; price := 12.5 |};
    {| pp_timestamp := 2000; price := 11 |};
    {| pp_timestamp := 3000; price := 14.25 |} ].

Lemma getPriceStats_bounds_witness :
  In (min (getPriceStats (Some weekOfPrices))) (List.map price weekOfPrices)
  /\ In (max (getPriceStats (Some weekOfPrices)))
       (List.map price weekOfPrices).
Proof.
  assert (Hv : Forall (fun point => is_nan (price point) = false)
                 weekOfPrices)
    by (repeat constructor).
  destruct (proj1 (proj2 (getPriceStats_bounds
                            {| pp_timestamp := 1000; price := 12.5 |}
                            [ {| pp_timestamp := 2000; price := 11 |};
                              {| pp_timestamp := 3000; price := 14.25 |} ]))
              Hv) as (Hmin & Hmax & _).
  split; [exact Hmin|exact Hmax].
Defined.

End StatsProps.

(** ** The trending service: estimates, sparklines, feed and top movers *)
Module TrendingMoreProps.

Import JS CsfloatService TrendingFeed TrendingProps.
Local Open Scope R_scope.

(** X18. The estimated change.  [calculatePriceChangePercent] reads
    neither of its two prices; with a draw in [0, 1) and a volume that is
    not negative the estimate lies in [-20, 20): the base change lies in
    [-10, 10) and the volume boost, capped at 5, at most doubles it.  Up to
    the volume 5000 the estimate is the base change times
    [1 + qty / 5000]; from there on it is twice the base change. *)
Theorem calculatePriceChangePercent_range :
  forall minPrice maxPrice qty rnd n,
    0 <= rnd n < 1 ->
    0 <= qty ->
    let estimate := fst (calculatePriceChangePercent minPrice maxPrice qty
                           rnd n) in
    -20 <= estimate < 20
    /\ estimate = fst (calculatePriceChangePercent 0 0 qty rnd n)
    /\ (qty <= 5000 -> estimate = (rnd n - 0.5) * 20 * (1 + qty / 5000))
    /\ (5000 <= qty -> estimate = (rnd n - 0.5) * 40)
    /\ snd (calculatePriceChangePercent minPrice maxPrice qty rnd n) = S n.
Proof.
  intros minPrice maxPrice qty rnd n Hr Hq.
  cbv beta iota zeta delta
    [calculatePriceChangePercent bind ret Math_random fst snd].
  unfold Rmin. destruct (Rle_dec (qty / 1000) 5) as [Hle|Hgt].
  - split; [split; nra|]. split; [reflexivity|]. split; [intros _; lra|].
    split; [intros H; nra|reflexivity].
  - split; [split; nra|]. split; [reflexivity|]. split; [intros H; lra|].
    split; [intros _; lra|reflexivity].
Qed.

Lemma calculatePriceChangePercent_range_witness :
  -20 <= fst (calculatePriceChangePercent 10 12 2500 (fun _ => 0.75) 0%nat)
    < 20.
Proof.
  apply (calculatePriceChangePercent_range 10 12 2500 (fun _ => 0.75) 0%nat);
    lra.
Defined.

Lemma loop_spec currentPrice priceChange trend points rnd :
  forall k i n,
    let run := generatePriceHistory_loop currentPrice priceChange trend
                 points i k rnd n in
    length (fst run) = k
    /\ snd run = (n + k)%nat
    /\ forall j, (j < k)%nat ->
         nth j (fst run) 0
         = currentPrice
           * (1 - trend * (INR (i + j) / (INR points - 1))
                  * (Rabs priceChange / 100)
              + (rnd (n + j)%nat - 0.5) * 0.05).
Proof.
  induction k as [|k IH]; intros i n; cbn zeta.
  - simpl. split; [reflexivity|]. split; [lia|]. intros j Hj. lia.
  - cbn [generatePriceHistory_loop].
    cbv beta iota zeta delta [bind ret Math_random].
    specialize (IH (S i) (S n)). cbn zeta in IH.
    destruct (generatePriceHistory_loop currentPrice priceChange trend points
                (S i) k rnd (S n)) as [rest n'] eqn:E.
    cbn [fst snd] in *. destruct IH as (Hlen & Hn & Hnth).
    split; [simpl; lia|]. split; [lia|].
    intros [|j] Hj.
    + cbn [nth]. rewrite !Nat.add_0_r. reflexivity.
    + cbn [nth]. rewrite Hnth by lia.
      replace (S i + j)%nat with (i + S j)%nat by lia.
      replace (S n + j)%nat with (n + S j)%nat by lia. reflexivity.
Qed.

(** X19. The sparkline.  [generatePriceHistory] with two or more points
    returns exactly [points] prices and draws exactly [points] random
    numbers.  The price at index [j] is the current price times
    [1 - (j / (points - 1)) * priceChange / 100 + noise], the noise being
    [(draw - 0.5) * 0.05]: whatever the sign of the change, the sign of
    [trend] and the absolute value cancel.  So without noise the series
    starts at the current price and ends at the current price lowered by the
    change: it falls for a positive change and rises for a negative one. *)
Theorem generatePriceHistory_series :
  forall currentPrice priceChange points rnd n,
    (2 <= points)%nat ->
    let run := generatePriceHistory currentPrice priceChange points rnd n in
    length (fst run) = points
    /\ snd run = (n + points)%nat
    /\ (forall j, (j < points)%nat ->
          nth j (fst run) 0
          = currentPrice
            * (1 - INR j / (INR points - 1) * (priceChange / 100)
               + (rnd (n + j)%nat - 0.5) * 0.05))
    /\ ((forall j, rnd j = 0.5) ->
        nth 0 (fst run) 0 = currentPrice
        /\ nth (points - 1) (fst run) 0
           = currentPrice * (1 - priceChange / 100)).
Proof.
  intros currentPrice priceChange points rnd n Hpoints run.
  unfold run, generatePriceHistory.
  set (trend := if Rlt_dec 0 priceChange then 1 else -1).
  destruct (loop_spec currentPrice priceChange trend points rnd points 0%nat n)
    as (Hlen & Hn & Hnth).
  assert (Htrend : trend * Rabs priceChange = priceChange).
  { unfold trend. destruct (Rlt_dec 0 priceChange) as [Hpos|Hneg].
    - rewrite Rabs_pos_eq by lra. lra.
    - rewrite Rabs_left1 by lra. lra. }
  assert (Hseries : forall j, (j < points)%nat ->
            nth j (fst (generatePriceHistory_loop currentPrice priceChange
                          trend points 0 points rnd n)) 0
            = currentPrice
              * (1 - INR j / (INR points - 1) * (priceChange / 100)
                 + (rnd (n + j)%nat - 0.5) * 0.05)).
  { intros j Hj. rewrite (Hnth j Hj). cbn [Nat.add]. f_equal. f_equal.
    f_equal.
    replace (trend * (INR j / (INR points - 1)) * (Rabs priceChange / 100))
      with (INR j / (INR points - 1) * (trend * Rabs priceChange / 100))
      by (unfold Rdiv; ring).
    rewrite Htrend. unfold Rdiv. ring. }
  split; [exact Hlen|]. split; [exact Hn|]. split; [exact Hseries|].
  intros Hflat. split.
  - rewrite Hseries by lia. rewrite Hflat. cbn [INR].
    unfold Rdiv. rewrite Rmult_0_l. ring.
  - rewrite Hseries by lia. rewrite Hflat.
    assert (Hone : INR (points - 1) / (INR points - 1) = 1).
    { rewrite minus_INR by lia. cbn [INR].
      assert (2 <= INR points) by (apply (le_INR 2); exact Hpoints).
      field. lra. }
    rewrite Hone. ring.
Qed.

Lemma generatePriceHistory_series_witness :
  length (fst (generatePriceHistory 100 10 7 (fun _ => 0.5) 0%nat)) = 7%nat
  /\ nth 6 (fst (generatePriceHistory 100 10 7 (fun _ => 0.5) 0%nat)) 0
     = 100 * (1 - 10 / 100).
Proof.
  assert (H7 : (2 <= 7)%nat) by lia.
  destruct (generatePriceHistory_series 100 10 7 (fun _ => 0.5) 0%nat H7)
    as (Hlen & _ & _ & Hflat).
  split; [exact Hlen|]. exact (proj2 (Hflat (fun _ => eq_refl))).
Defined.

Lemma firstn_sublist {A} (k : nat) (l : list A) : sublist (firstn k l) l.
Proof.
  revert k. induction l as [|x l IH]; intros [|k]; simpl;
    try constructor; [apply sublist_nil_l|apply IH].
Qed.

Lemma slice_to_sublist {A} (l : list A) finish : sublist (slice_to l finish) l.
Proof. unfold slice_to. destruct (_ <? _)%Z; apply firstn_sublist. Qed.

Lemma slice_to_split {A} (l : list A) finish :
  exists rest, l = slice_to l finish ++ rest.
Proof.
  unfold slice_to. destruct (_ <? _)%Z; eexists; symmetry;
    apply firstn_skipn.
Qed.

Lemma slice_to_length {A} (l : list A) finish :
  (0 <= finish)%Z ->
  length (slice_to l finish) = Nat.min (Z.to_nat finish) (length l).
Proof.
  intros H. unfold slice_to.
  destruct (Z.ltb_spec finish 0); [lia|]. apply length_firstn.
Qed.

Lemma StronglySorted_sublist {A} (R : A -> A -> Prop) l1 l2 :
  sublist l1 l2 -> StronglySorted R l2 -> StronglySorted R l1.
Proof.
  induction 1 as [|x l1 l2 Hsub IH|x l1 l2 Hsub IH]; intros Hs.
  - constructor.
  - inversion Hs as [|? ? Hs' Hx]; subst. constructor; [apply IH, Hs'|].
    rewrite List.Forall_forall in *. intros y Hy. apply Hx.
    apply list_elem_of_In. eapply elem_of_sublist; [|exact Hsub].
    apply list_elem_of_In, Hy.
  - inversion Hs; subst. apply IH. assumption.
Qed.

Lemma sublist_In {A} (l1 l2 : list A) x :
  sublist l1 l2 -> In x l1 -> In x l2.
Proof.
  intros Hsub Hin. apply list_elem_of_In.
  eapply elem_of_sublist; [|exact Hsub]. apply list_elem_of_In, Hin.
Qed.

Lemma StronglySorted_app_le {A} (R : A -> A -> Prop) l1 l2 :
  StronglySorted R (l1 ++ l2) ->
  forall a b, In a l1 -> In b l2 -> R a b.
Proof.
  induction l1 as [|x l1 IH]; intros Hs a b Ha Hb; [destruct Ha|].
  simpl in Hs. inversion Hs as [|? ? Hs' Hx]; subst.
  destruct Ha as [->|Ha]; [|exact (IH Hs' a b Ha Hb)].
  rewrite List.Forall_forall in Hx. apply Hx, in_or_app. right. exact Hb.
Qed.

(** X20. The feed of the trending service.  [fetchTrendingListings] returns
    the empty array when the request fails, is answered with a status that
    is not [ok], or has a body that is no array.  Otherwise every listing it
    returns is a price item of the answer with its catalogue record
    attached, has a positive volume and a positive minimum price, the
    listings are in the order of descending volume, and a positive [limit]
    caps their number; without a positive limit they are, up to order, all
    the price items with positive volume and positive minimum price. *)
Theorem fetchTrendingListings_feed :
  forall limit priceResponse skinsMap,
    let out := fetchTrendingListings limit priceResponse skinsMap in
    ((forall dataArray, priceResponse <> Responded true (Some dataArray)) ->
     out = [])
    /\
    (forall dataArray,
       priceResponse = Responded true (Some dataArray) ->
       (forall item, In item out ->
          0 < qty item /\ 0 < min_price item
          /\ exists priceItem,
               In priceItem dataArray /\ item = mergeSkin skinsMap priceItem)
       /\ StronglySorted (fun a b => qty b <= qty a) out
       /\ ((0 < limit)%Z -> (length out <= Z.to_nat limit)%nat)
       /\ ((limit <= 0)%Z ->
           Permutation out
             (List.filter
                (fun item =>
                   (if Rlt_dec 0 (qty item) then true else false)
                   && (if Rlt_dec 0 (min_price item) then true else false))
                (List.map (mergeSkin skinsMap) dataArray)))).
Proof.
  intros limit priceResponse skinsMap out. split.
  - intros Hfail. unfold out, fetchTrendingListings.
    destruct priceResponse as [|[|] [dataArray|]]; try reflexivity.
    exfalso. exact (Hfail dataArray eq_refl).
  - intros dataArray ->. unfold out, fetchTrendingListings.
    set (kept := List.filter _ (List.map (mergeSkin skinsMap) dataArray)).
    set (sorted := Array_sort compareVolume kept).
    assert (Hsorted : StronglySorted (fun a b => qty b <= qty a) sorted).
    { apply (Array_sort_sorted qty compareVolume). intros a b. reflexivity. }
    assert (Hperm : Permutation kept sorted) by apply Array_sort_perm.
    assert (Hsub : sublist (if (0 <? limit)%Z then slice_to sorted limit
                            else sorted) sorted).
    { destruct (0 <? limit)%Z; [apply slice_to_sublist|reflexivity]. }
    split; [|split; [|split]].
    + intros item Hin. apply (sublist_In _ _ _ Hsub) in Hin.
      apply (Permutation_in _ (Permutation_sym Hperm)) in Hin.
      unfold kept in Hin. apply filter_In in Hin as [Hin Htest].
      apply andb_true_iff in Htest as [Hq Hp].
      destruct (Rlt_dec 0 (qty item)); [|discriminate].
      destruct (Rlt_dec 0 (min_price item)); [|discriminate].
      split; [assumption|]. split; [assumption|].
      apply in_map_iff in Hin as (priceItem & <- & Hin).
      exists priceItem. split; [exact Hin|reflexivity].
    + exact (StronglySorted_sublist _ _ _ Hsub Hsorted).
    + intros Hlimit. destruct (Z.ltb_spec 0 limit); [|lia].
      rewrite slice_to_length by lia. lia.
    + intros Hlimit. destruct (Z.ltb_spec 0 limit); [lia|].
      symmetry. exact Hperm.
Qed.

Lemma mapRand_In {A B} (f : A -> Rand B) l : forall rnd n b,
  In b (fst (mapRand f l rnd n)) ->
  exists a k, In a l /\ b = fst (f a rnd k).
Proof.
  induction l as [|x l IH]; intros rnd n b; simpl; [intros []|].
  unfold bind, ret.
  destruct (f x rnd n) as [y k] eqn:E.
  specialize (IH rnd k b).
  destruct (mapRand f l rnd k) as [bs k']. simpl in *.
  intros [<-|Hin].
  - exists x, n. rewrite E. auto.
  - destruct (IH Hin) as (a & k0 & Ha & Hb). exists a, k0. auto.
Qed.

(** The price [processListing] takes as the maximum price. *)
Definition maxPriceOf (item : Listing) : R :=
  match max_price item with
  | Some m => if Req_EM_T m 0 then min_price item / 100 else m / 100
  | None => min_price item / 100
  end.

Lemma processListing_fields item rnd k it :
  fst (processListing item rnd k) = Some it ->
  exists sd,
    skinData item = Some sd
    /\ name it = or_str (market_hash_name item) []
    /\ volume it = qty item
    /\ referencePrice it = min_price item / 100
    /\ minPrice it = min_price item / 100
    /\ maxPrice it = maxPriceOf item
    /\ currentPrice it = (min_price item / 100 + maxPriceOf item) / 2
    /\ category it = or_str (sd_category_name sd) (js "Unknown")
    /\ priceChange it
       = fst (calculatePriceChangePercent (min_price item / 100)
                (maxPriceOf item) (qty item) rnd k)
    /\ priceHistory it
       = fst (generatePriceHistory (currentPrice it) (priceChange it) 7
                rnd (S k)).
Proof.
  unfold processListing, maxPriceOf.
  destruct (skinData item) as [sd|]; [|discriminate].
  cbv beta iota zeta delta [bind ret calculatePriceChangePercent Math_random].
  match goal with
  | |- context [generatePriceHistory ?a ?b ?c ?d ?e] =>
    destruct (generatePriceHistory a b c d e) as [h k'] eqn:E
  end.
  cbn [fst]. intros [= <-]. exists sd.
  cbn [name volume referencePrice minPrice maxPrice currentPrice category
       priceChange priceHistory fst].
  rewrite E. repeat split; reflexivity.
Qed.

Lemma fetchTrendingListings_feed_witness :
  (length (fetchTrendingListings 1
             (Responded true (Some [lowVolume; highVolume; busy]))
             (fun _ => Some plainSkin)) <= 1)%nat
  /\ StronglySorted (fun a b => qty b <= qty a)
       (fetchTrendingListings 1
          (Responded true (Some [lowVolume; highVolume; busy]))
          (fun _ => Some plainSkin)).
Proof.
  destruct (proj2 (fetchTrendingListings_feed 1
                     (Responded true (Some [lowVolume; highVolume; busy]))
                     (fun _ => Some plainSkin))
              [lowVolume; highVolume; busy] eq_refl)
    as (_ & Hsorted & Hlimit & _).
  split; [apply Hlimit; lia|exact Hsorted].
Defined.

(** X21. Where a trending item comes from.  Every item
    [processTrendingListings] returns was built from one listing of its
    input that carries a catalogue record: the item has the name and the
    volume of that listing, its minimum price in dollars as reference price,
    the mean of the minimum and the maximum price as current price (which
    is positive), a sparkline of 7 prices, and an estimated change that lies
    in [-20, 20) when the listing's volume is not negative and every random
    draw lies in [0, 1).  Listings without a catalogue record give no
    item. *)
Theorem trending_item_origin :
  forall priceListData rnd n it,
    In it (fst (processTrendingListings priceListData rnd n)) ->
    exists listings item sd,
      priceListData = Some listings
      /\ In item listings
      /\ skinData item = Some sd
      /\ name it = or_str (market_hash_name item) []
      /\ volume it = qty item
      /\ referencePrice it = min_price item / 100
      /\ currentPrice it = (min_price item / 100 + maxPriceOf item) / 2
      /\ 0 < currentPrice it
      /\ category it = or_str (sd_category_name sd) (js "Unknown")
      /\ length (priceHistory it) = 7%nat
      /\ ((forall k, 0 <= rnd k < 1) -> 0 <= qty item ->
          -20 <= priceChange it < 20).
Proof.
  intros priceListData rnd n it Hin.
  pose proof (processed_inv priceListData rnd n it Hin) as [_ Hpos].
  revert Hin. unfold processTrendingListings.
  destruct priceListData as [[|x l]|]; try (intros []).
  set (data := x :: l). clearbody data.
  unfold bind, ret.
  destruct (mapRand processListing data rnd n) as [mapped k] eqn:E.
  cbn [fst]. intros Hin.
  apply (Permutation_in _ (Permutation_sym
           (Array_sort_perm compareTrending _))) in Hin.
  apply list_elem_of_In, list_elem_of_omap in Hin as (o & Ho & Hk).
  apply keepProcessed_Some in Hk as [-> _].
  apply list_elem_of_In in Ho.
  assert (Ho' : In (Some it) (fst (mapRand processListing data rnd n)))
    by (rewrite E; exact Ho).
  apply mapRand_In in Ho' as (item & k0 & Hitem & Hit).
  symmetry in Hit.
  destruct (processListing_fields item rnd k0 it Hit)
    as (sd & Hsd & Hname & Hvol & Href & _ & _ & Hcur & Hcat & Hchange
        & Hhist).
  exists data, item, sd.
  split; [reflexivity|]. split; [exact Hitem|]. split; [exact Hsd|].
  split; [exact Hname|]. split; [exact Hvol|]. split; [exact Href|].
  split; [exact Hcur|]. split; [exact Hpos|]. split; [exact Hcat|]. split.
  - rewrite Hhist.
    assert (H7 : (2 <= 7)%nat) by lia.
    exact (proj1 (loop_spec (currentPrice it) (priceChange it) _ 7 rnd 7
                    0%nat (S k0))).
  - intros Hdraws Hqty. rewrite Hchange.
    cbv beta iota zeta delta
      [calculatePriceChangePercent bind ret Math_random fst].
    specialize (Hdraws k0).
    unfold Rmin. destruct (Rle_dec (qty item / 1000) 5); split; nra.
Qed.

Lemma trending_item_origin_witness :
  exists it listings item sd,
    In it (fst (processTrendingListings (Some [busy; busier])
                  (fun _ => 0.75) 0%nat))
    /\ Some [busy; busier] = Some listings
    /\ In item listings
    /\ skinData item = Some sd
    /\ volume it = qty item.
Proof.
  destruct busy_listings_processed as (a & b & Hperm & _).
  assert (Ha : In a (fst (processTrendingListings (Some [busy; busier])
                            (fun _ => 0.75) 0%nat)))
    by (apply (Permutation_in _ Hperm); left; reflexivity).
  destruct (trending_item_origin (Some [busy; busier]) (fun _ => 0.75) 0%nat
              a Ha)
    as (listings & item & sd & Hl & Hitem & Hsd & _ & Hvol & _).
  exists a, listings, item, sd.
  split; [exact Ha|]. split; [exact Hl|]. split; [exact Hitem|].
  split; [exact Hsd|exact Hvol].
Defined.

(** X22. The top movers.  [getTopMovers] returns the leading items of the
    list it is given, at most [count] of them (3 when no count is given),
    in their order.  On a list that is ranked, that is in the descending
    order of a key such as the score, these are items of the highest keys:
    no item left out has a key above that of an item taken, and the items
    taken are ranked themselves. *)
Theorem getTopMovers_highest_scores :
  forall (key : TrendingItem -> R) ranked count,
    let top := getTopMovers ranked count in
    (exists rest,
       ranked = top ++ rest
       /\ (StronglySorted (fun a b => key b <= key a) ranked ->
           forall a b, In a top -> In b rest -> key b <= key a))
    /\ (StronglySorted (fun a b => key b <= key a) ranked ->
        StronglySorted (fun a b => key b <= key a) top)
    /\ (forall c, count = Some c -> (0 <= c)%Z ->
          length top = Nat.min (Z.to_nat c) (length ranked))
    /\ (count = None -> length top = Nat.min 3 (length ranked)).
Proof.
  intros key ranked count top.
  split; [|split; [|split]].
  - destruct (slice_to_split ranked
                (match count with Some c => c | None => 3%Z end))
      as (rest & Hsplit).
    exists rest. split; [exact Hsplit|].
    intros Hsorted a b Ha Hb.
    apply (StronglySorted_app_le (fun a b => key b <= key a) top rest);
      [|exact Ha|exact Hb].
    unfold top, getTopMovers. rewrite <- Hsplit. exact Hsorted.
  - intros Hsorted. eapply StronglySorted_sublist; [|exact Hsorted].
    apply slice_to_sublist.
  - intros c -> Hc. unfold top, getTopMovers. apply slice_to_length, Hc.
  - intros ->. unfold top, getTopMovers. apply (slice_to_length ranked 3).
    lia.
Qed.

(** Three items ranked by their volume. *)
Definition byVolume : list TrendingItem :=
  [ {| name := js "AWP | Asiimov (Field-Tested)";
       currentPrice := 90; referencePrice := 90; priceChange := 4;
       priceChangeAbs := 4; image := None; volume := 30;
       rarity := js "Covert"; rarityColor := js "#eb4b4b";
       description := []; isStatTrak := false; isSouvenir := false;
       minPrice := 90; maxPrice := 90; category := js "Rifles";
       weapon := js "AWP"; priceHistory := [] |};
    {| name := js "★ Karambit | Fade (Factory New)";
       currentPrice := 2000; referencePrice := 2000; priceChange := -2;
       priceChangeAbs := 2; image := None; volume := 20;
       rarity := js "Extraordinary"; rarityColor := js "#eb4b4b";
       description := []; isStatTrak := false; isSouvenir := false;
       minPrice := 2000; maxPrice := 2000; category := js "Knives";
       weapon := js "Karambit"; priceHistory := [] |};
    {| name := js "AK-47 | Redline (Field-Tested)";
       currentPrice := 12; referencePrice := 12; priceChange := 1;
       priceChangeAbs := 1; image := None; volume := 10;
       rarity := js "Classified"; rarityColor := js "#eb4b4b";
       description := []; isStatTrak := false; isSouvenir := false;
       minPrice := 12; maxPrice := 12; category := js "Rifles";
       weapon := js "AK-47"; priceHistory := [] |} ].

Lemma byVolume_ranked :
  StronglySorted (fun a b => volume b <= volume a) byVolume.
Proof.
  unfold byVolume. repeat constructor; cbn [volume]; lra.
Qed.

Lemma getTopMovers_highest_scores_witness :
  StronglySorted (fun a b => volume b <= volume a)
    (getTopMovers byVolume (Some 2%Z))
  /\ length (getTopMovers byVolume (Some 2%Z)) = 2%nat.
Proof.
  split.
  - exact (proj1 (proj2 (getTopMovers_highest_scores volume byVolume
                           (Some 2%Z))) byVolume_ranked).
  - assert (H2 : (0 <= 2)%Z) by lia.
    exact (proj1 (proj2 (proj2 (getTopMovers_highest_scores volume byVolume
                                  (Some 2%Z)))) 2%Z eq_refl H2).
Defined.

Lemma sublist_filter {A} (f : A -> bool) (l : list A) :
  sublist (List.filter f l) l.
Proof.
  induction l as [|x l IH]; simpl; [constructor|].
  destruct (f x); constructor; exact IH.
Qed.

Lemma filter_idem {A} (f : A -> bool) (l : list A) :
  List.filter f (List.filter f l) = List.filter f l.
Proof.
  induction l as [|x l IH]; simpl; [reflexivity|].
  destruct (f x) eqn:E; simpl; rewrite ?E, IH; reflexivity.
Qed.

(** X23. Filtering keeps the ranking.  [filterByCategory] returns items
    of its input in their order, so a list that is ranked, in whatever
    order, stays ranked in that order when it is filtered by any category.
    Filtering twice by the same category changes nothing more. *)
Theorem filterByCategory_keeps_ranking :
  forall listings category,
    sublist (filterByCategory listings category) listings
    /\ filterByCategory (filterByCategory listings category) category
       = filterByCategory listings category
    /\ (forall before : TrendingItem -> TrendingItem -> Prop,
          StronglySorted before listings ->
          StronglySorted before (filterByCategory listings category)).
Proof.
  intros listings category.
  assert (Hsub : sublist (filterByCategory listings category) listings).
  { unfold filterByCategory. destruct category as [c|]; [|reflexivity].
    destruct (_ || _); [reflexivity|apply sublist_filter]. }
  split; [exact Hsub|]. split.
  - unfold filterByCategory. destruct category as [c|]; [|reflexivity].
    destruct (_ || _); [reflexivity|apply filter_idem].
  - intros before Hsorted.
    eapply StronglySorted_sublist; [exact Hsub|exact Hsorted].
Qed.

Lemma filterByCategory_keeps_ranking_witness :
  StronglySorted (fun a b => volume b <= volume a)
    (filterByCategory byVolume (Some (js "Rifle"))).
Proof.
  exact (proj2 (proj2 (filterByCategory_keeps_ranking byVolume
                         (Some (js "Rifle"))))
           (fun a b => volume b <= volume a) byVolume_ranked).
Defined.

End TrendingMoreProps.

(** ** The classifier: priority under longer names, keywords that add
    nothing *)
Module ClassifierMoreProps.

Import JS ApiService JSFacts ClassifierProps.

(** The place of a category in the priority order. *)
Definition priority (c : Category) : nat :=
  match c with
  | Knife => 0 | Rifle => 1 | Pistol => 2 | SMG => 3 | Shotgun => 4
  | MachineGun => 5 | Gloves => 6 | Other => 7
  end.

(** The index of the first row of a table with a keyword in the name. *)
Fixpoint firstRow (name : jsstring) (table : list (Category * list jsstring))
  : nat :=
  match table with
  | [] => 0
  | (_, keywords) :: rest =>
    if existsb (includes name) keywords then 0 else S (firstRow name rest)
  end.

Lemma priority_firstRow name :
  priority (firstMatch name priorityTable) = firstRow name priorityTable.
Proof.
  unfold priorityTable. cbn [firstMatch firstRow].
  repeat match goal with
  | |- context [if existsb ?f ?l then _ else _] =>
    destruct (existsb f l); [reflexivity|]
  end.
  reflexivity.
Qed.

Lemma includes_part_l s a b :
  includes s (a ++ b) = true -> includes s a = true.
Proof.
  intros H. apply includes_infix in H as (pre & post & ->).
  apply includes_infix. exists pre, (b ++ post). rewrite <- app_assoc.
  reflexivity.
Qed.

Lemma includes_part_r s a b :
  includes s (a ++ b) = true -> includes s b = true.
Proof.
  intros H. apply includes_infix in H as (pre & post & ->).
  apply includes_infix. exists (pre ++ a), post.
  rewrite <- !app_assoc. reflexivity.
Qed.

Lemma includes_longer pre s post sub :
  includes s sub = true -> includes (pre ++ s ++ post) sub = true.
Proof. intros H. apply includes_app_r, includes_app_l, H. Qed.

Lemma existsb_longer pre s post keywords :
  existsb (includes s) keywords = true ->
  existsb (includes (pre ++ s ++ post)) keywords = true.
Proof.
  rewrite !existsb_exists. intros (k & Hin & Hk).
  exists k. split; [exact Hin|apply includes_longer, Hk].
Qed.

Lemma firstRow_longer pre s post table :
  (firstRow (pre ++ s ++ post) table <= firstRow s table)%nat.
Proof.
  induction table as [|[c keywords] rest IH]; simpl; [lia|].
  destruct (existsb (includes s) keywords) eqn:E.
  - rewrite (existsb_longer pre s post keywords E). lia.
  - destruct (existsb (includes (pre ++ s ++ post)) keywords); lia.
Qed.

(** The keyword lists without the keywords that can never decide. *)
Definition leanTable : list (Category * list jsstring) :=
  [ (Knife, [js "knife"; js "bayonet"; js "karambit"]);
    (Rifle, [js "ak-47"; js "m4a4"; js "m4a1"; js "aug"; js "sg 553";
             js "famas"; js "galil"; js "awp"; js "ssg 08"; js "scar-20";
             js "g3sg1"]);
    (Pistol, [js "glock"; js "usp"; js "p2000"; js "p250"; js "five-seven";
              js "tec-9"; js "cz75"; js "desert eagle"; js "dual berettas";
              js "r8 revolver"]);
    (SMG, [js "mac-10"; js "mp9"; js "mp7"; js "mp5"; js "ump-45";
           js "p90"; js "pp-bizon"]);
    (Shotgun, [js "nova"; js "xm1014"; js "mag-7"; js "sawed-off"]);
    (MachineGun, [js "m249"; js "negev"]);
    (Gloves, [js "glove"; js "wraps"; js "handwraps"]) ].

(** X24. Longer names never lose priority.  Text put before or after a
    weapon name can only move its category up the priority order Knife,
    Rifle, Pistol, SMG, Shotgun, Machine Gun, Gloves, Other: a name
    classified Knife stays Knife however it is extended, and no extension of
    a name turns a category into a later one. *)
Theorem determineCategory_longer_name :
  forall before weaponName after,
    (priority (determineCategory (before ++ weaponName ++ after))
     <= priority (determineCategory weaponName))%nat
    /\ (determineCategory weaponName = Knife ->
        determineCategory (before ++ weaponName ++ after) = Knife).
Proof.
  intros before weaponName after.
  assert (Hle : (priority (determineCategory (before ++ weaponName ++ after))
                 <= priority (determineCategory weaponName))%nat).
  { rewrite !determineCategory_firstMatch, !priority_firstRow.
    rewrite !toLowerCase_app. apply firstRow_longer. }
  split; [exact Hle|].
  intros Hknife. rewrite Hknife in Hle.
  destruct (determineCategory (before ++ weaponName ++ after));
    simpl in Hle; try lia. reflexivity.
Qed.

Lemma determineCategory_longer_name_witness :
  determineCategory (js "StatTrak " ++ js "Karambit" ++ js " | AWP Fade")
  = Knife.
Proof.
  apply (proj2 (determineCategory_longer_name (js "StatTrak ")
                  (js "Karambit") (js " | AWP Fade"))).
  vm_compute. reflexivity.
Defined.

(** X25. Keywords that never decide.  In the gloves test of
    [determineCategory] the keywords "gloves" and "hand wraps" add nothing:
    a name that contains "gloves" contains "glove", and one that contains
    "hand wraps" contains "wraps".  The classifier gives the same category
    with the two keywords removed. *)
Theorem determineCategory_spare_keywords :
  forall weaponName,
    (includes (toLowerCase weaponName) (js "gloves") = true ->
     includes (toLowerCase weaponName) (js "glove") = true)
    /\ (includes (toLowerCase weaponName) (js "hand wraps") = true ->
        includes (toLowerCase weaponName) (js "wraps") = true)
    /\ determineCategory weaponName
       = firstMatch (toLowerCase weaponName) leanTable.
Proof.
  intros weaponName. set (name := toLowerCase weaponName).
  assert (Hgloves : includes name (js "gloves") = true ->
                    includes name (js "glove") = true).
  { change (js "gloves") with (js "glove" ++ js "s").
    apply includes_part_l. }
  assert (Hwraps : includes name (js "hand wraps") = true ->
                   includes name (js "wraps") = true).
  { change (js "hand wraps") with (js "hand " ++ js "wraps").
    apply includes_part_r. }
  split; [exact Hgloves|]. split; [exact Hwraps|].
  rewrite determineCategory_firstMatch. fold name.
  unfold priorityTable, leanTable. cbn [firstMatch].
  repeat match goal with
  | |- (if ?b then ?c else _) = (if ?b then ?c else _) =>
    destruct b; [reflexivity|]
  end.
  cbn [existsb].
  destruct (includes name (js "gloves")) eqn:E1.
  - rewrite (Hgloves eq_refl). reflexivity.
  - destruct (includes name (js "hand wraps")) eqn:E2.
    + rewrite (Hwraps eq_refl), !orb_true_r. reflexivity.
    + cbn [orb]. rewrite !orb_false_r.
      destruct (includes name (js "glove")), (includes name (js "wraps")),
        (includes name (js "handwraps")); reflexivity.
Qed.

Lemma determineCategory_spare_keywords_witness :
  includes (toLowerCase (js "Sport Gloves | Vice")) (js "glove") = true
  /\ determineCategory (js "Sport Gloves | Vice")
     = firstMatch (toLowerCase (js "Sport Gloves | Vice")) leanTable.
Proof.
  destruct (determineCategory_spare_keywords (js "Sport Gloves | Vice"))
    as (Hgloves & _ & Hlean).
  split; [apply Hgloves; vm_compute; reflexivity|exact Hlean].
Defined.

End ClassifierMoreProps.

(** ** The skin catalogue and the listings it lets through *)
Module CatalogueProps.

Import JS CsfloatService PriceService TrendingFeed SkinCatalogue.
Import JSFacts TrendingProps.

Lemma tryEndpoints_Some fetch remaining skins :
  tryEndpoints fetch remaining = Some skins ->
  exists tried endpoint rest data,
    remaining = tried ++ endpoint :: rest
    /\ fetch endpoint = Replied true (Some data)
    /\ (forall e data', In e tried -> fetch e <> Replied true (Some data'))
    /\ skins = List.filter keepSkin data.
Proof.
  induction remaining as [|endpoint rest IH]; simpl; [discriminate|].
  destruct (fetch endpoint) as [|[|] [data|]] eqn:E.
  2: { intros [= <-]. exists [], endpoint, rest, data.
       split; [reflexivity|]. split; [exact E|]. split; [intros ? ? []|].
       reflexivity. }
  all: intros H; destruct (IH H) as (tried & ep & rest' & data' & -> & Hep
                                     & Htried & ->);
    exists (endpoint :: tried), ep, rest', data';
    (split; [reflexivity|]); (split; [exact Hep|]);
    (split; [|reflexivity]);
    intros e d [<-|Hin]; [rewrite E; discriminate|exact (Htried e d Hin)].
Qed.

Lemma tryEndpoints_None fetch remaining :
  tryEndpoints fetch remaining = None <->
  forall e data, In e remaining -> fetch e <> Replied true (Some data).
Proof.
  induction remaining as [|endpoint rest IH]; simpl.
  - split; [intros _ ? ? []|reflexivity].
  - destruct (fetch endpoint) as [|[|] [data|]] eqn:E.
    2: { split; [discriminate|]. intros H. exfalso.
         apply (H endpoint data); [left; reflexivity|exact E]. }
    all: rewrite IH; split;
      [intros H e d [<-|Hin]; [rewrite E; discriminate|exact (H e d Hin)]
      |intros H e d Hin; apply H; right; exact Hin].
Qed.

Lemma keepSkin_true skin :
  keepSkin skin = true ->
  (forall text, In text excludedCategories ->
     sd_category_name (sk_data skin) <> Some text)
  /\ (truthy_ostr (sd_weapon_name (sk_data skin)) = true
      \/ sd_category_name (sk_data skin) = Some (js "Knives")
      \/ sd_category_name (sk_data skin) = Some (js "Gloves")).
Proof.
  unfold keepSkin. cbv zeta.
  destruct (existsb _ excludedCategories) eqn:Hex; [discriminate|].
  intros H. split.
  - intros text Hin Heq.
    assert (Hyes : existsb (category_is (sd_category_name (sk_data skin)))
                     excludedCategories = true).
    { apply existsb_exists. exists text. split; [exact Hin|].
      rewrite Heq. apply str_eqb_refl. }
    congruence.
  - apply orb_true_iff in H as [H|H];
      [apply orb_true_iff in H as [H|H]|]; [left; exact H| |];
      unfold category_is in H;
      destruct (sd_category_name (sk_data skin)) as [c|]; try discriminate;
      apply str_eqb_eq in H; subst; auto.
Qed.

(** X26. The catalogue fetch.  [fetchSkinsFromAPI] asks its four endpoints
    in their order and the first one that answers [ok] with an array
    decides: the result is that array without the skins of an excluded
    category and without those that have neither a weapon name nor the
    category "Knives" or "Gloves", in the order of the array; the endpoints
    before it all failed and those after it play no part.  It rejects
    exactly when all four endpoints fail. *)
Theorem fetchSkinsFromAPI_first_answer :
  forall fetch,
    (forall skins,
       fetchSkinsFromAPI fetch = Some skins ->
       exists tried endpoint rest data,
         endpoints = tried ++ endpoint :: rest
         /\ fetch endpoint = Replied true (Some data)
         /\ (forall e data', In e tried ->
               fetch e <> Replied true (Some data'))
         /\ skins = List.filter keepSkin data
         /\ sublist skins data
         /\ forall skin, In skin skins ->
              (forall text, In text excludedCategories ->
                 sd_category_name (sk_data skin) <> Some text)
              /\ (truthy_ostr (sd_weapon_name (sk_data skin)) = true
                  \/ sd_category_name (sk_data skin) = Some (js "Knives")
                  \/ sd_category_name (sk_data skin) = Some (js "Gloves")))
    /\ (fetchSkinsFromAPI fetch = None <->
        forall e data, In e endpoints -> fetch e <> Replied true (Some data))
    /\ length endpoints = 4%nat.
Proof.
  intros fetch. split; [|split; [apply tryEndpoints_None|reflexivity]].
  intros skins H. apply tryEndpoints_Some in H
    as (tried & endpoint & rest & data & Hsplit & Hep & Htried & ->).
  exists tried, endpoint, rest, data.
  split; [exact Hsplit|]. split; [exact Hep|]. split; [exact Htried|].
  split; [reflexivity|]. split.
  - clear. induction data as [|x l IH]; simpl; [constructor|].
    destruct (keepSkin x); constructor; exact IH.
  - intros skin Hin. apply filter_In in Hin as [_ Hkeep].
    apply keepSkin_true, Hkeep.
Qed.

(** A catalogue answer used as a concrete input. *)
Definition rifleData : SkinData :=
  {| sd_image := Some (js "redline.png"); sd_rarity_name := Some (js "Classified");
     sd_rarity_color := None; sd_description := None;
     sd_category_name := Some (js "Rifles");
     sd_weapon_name := Some (js "AK-47") |}.

Definition stickerData : SkinData :=
  {| sd_image := None; sd_rarity_name := None; sd_rarity_color := None;
     sd_description := None; sd_category_name := Some (js "Sticker");
     sd_weapon_name := None |}.

Definition redlineSkin : Skin :=
  {| sk_name := js "AK-47 | Redline";
     sk_wears := Some [js "Field-Tested"; js "Minimal Wear"];
     sk_stattrak := true; sk_data := rifleData |}.

Definition crownSticker : Skin :=
  {| sk_name := js "Sticker | Crown (Foil)"; sk_wears := None;
     sk_stattrak := false; sk_data := stickerData |}.

(** The first endpoint is down, the second answers. *)
Definition secondAnswers (endpoint : jsstring) : Reply :=
  if str_eqb endpoint (API_BASE_URL ++ js "/skins.json")
  then Replied true (Some [crownSticker; redlineSkin])
  else Unreachable.

Lemma fetchSkinsFromAPI_first_answer_witness :
  fetchSkinsFromAPI secondAnswers = Some [redlineSkin]
  /\ exists tried endpoint rest data,
       endpoints = tried ++ endpoint :: rest
       /\ secondAnswers endpoint = Replied true (Some data)
       /\ [redlineSkin] = List.filter keepSkin data.
Proof.
  assert (H : fetchSkinsFromAPI secondAnswers = Some [redlineSkin])
    by (vm_compute; reflexivity).
  split; [exact H|].
  destruct (proj1 (fetchSkinsFromAPI_first_answer secondAnswers)
              [redlineSkin] H)
    as (tried & endpoint & rest & data & Hs & He & _ & Hf & _).
  exists tried, endpoint, rest, data. auto.
Defined.

(** The keys [fetchAllSkinsData] writes for a skin. *)
Definition keysOf (skin : Skin) : list jsstring :=
  let named :=
    match sk_wears skin with
    | Some (wear :: wears) =>
      List.map (fun wearName => sk_name skin ++ js " (" ++ wearName ++ js ")")
        (wear :: wears)
    | _ => [sk_name skin]
    end in
  if sk_stattrak skin
  then named ++ List.map (fun key => js "StatTrak™ " ++ key) named
  else named.

Definition writes (skin : Skin) (key : jsstring) : bool :=
  existsb (str_eqb key) (keysOf skin).

(** No key written for a skin is ["__proto__"]. *)
Definition plainCatalogue (skins : list Skin) : Prop :=
  Forall (fun skin => writes skin (js "__proto__") = false) skins.

Lemma ownSkin_assign skinsMap key value k :
  ownSkin (assign skinsMap key value) k
  = if str_eqb key k then Some value else ownSkin skinsMap k.
Proof.
  induction skinsMap as [|[k0 v0] rest IH]; simpl.
  - reflexivity.
  - destruct (str_eqb k0 key) eqn:E; simpl.
    + apply str_eqb_eq in E. subst k0. destruct (str_eqb key k); reflexivity.
    + rewrite IH. destruct (str_eqb key k) eqn:E2; [|reflexivity].
      apply str_eqb_eq in E2. subst k. rewrite E. reflexivity.
Qed.

Lemma ownSkin_Object_assign skinsMap key value k :
  str_eqb key (js "__proto__") = false ->
  ownSkin (Object_assign skinsMap key value) k
  = if str_eqb key k then Some value else ownSkin skinsMap k.
Proof. intros H. unfold Object_assign. rewrite H. apply ownSkin_assign. Qed.

Lemma str_eqb_sym a b : str_eqb a b = str_eqb b a.
Proof.
  destruct (str_eqb a b) eqn:E1, (str_eqb b a) eqn:E2; try reflexivity.
  - apply str_eqb_eq in E1. subst. rewrite str_eqb_refl in E2. discriminate.
  - apply str_eqb_eq in E2. subst. rewrite str_eqb_refl in E1. discriminate.
Qed.

Lemma str_eqb_app_l p a b : str_eqb (p ++ a) (p ++ b) = str_eqb a b.
Proof.
  induction p as [|c p IH]; simpl; [reflexivity|].
  unfold unit_eqb. rewrite N.eqb_refl. exact IH.
Qed.

Lemma if_or4 {T} (a b s1 s2 : bool) (X Y : T) :
  (if a || b then X else if s2 then X else if s1 then X else Y)
  = (if s1 || a || (s2 || b) then X else Y).
Proof. destruct a, b, s1, s2; reflexivity. Qed.

Lemma if_or2 {T} (a s1 : bool) (X Y : T) :
  (if a then X else if s1 then X else Y) = (if s1 || a then X else Y).
Proof. destruct a, s1; reflexivity. Qed.

Lemma ownSkin_addWears skin wears : forall skinsMap k,
  (forall w, In w wears ->
     str_eqb (sk_name skin ++ js " (" ++ w ++ js ")") (js "__proto__") = false
     /\ (sk_stattrak skin = true ->
         str_eqb (js "StatTrak™ " ++ sk_name skin ++ js " (" ++ w ++ js ")")
           (js "__proto__") = false)) ->
  ownSkin (fold_left (addWear skin) wears skinsMap) k
  = if existsb (str_eqb k)
         (let named :=
            List.map
              (fun wearName => sk_name skin ++ js " (" ++ wearName ++ js ")")
              wears in
          if sk_stattrak skin
          then named ++ List.map (fun key => js "StatTrak™ " ++ key) named
          else named)
    then Some (sk_data skin) else ownSkin skinsMap k.
Proof.
  cbv zeta. unfold addWear. cbv zeta.
  destruct (sk_stattrak skin) eqn:Hst.
  - induction wears as [|w wears IH]; intros skinsMap k Hplain;
      [reflexivity|].
    cbn [fold_left].
    rewrite IH by (intros w' Hw'; apply Hplain; right; exact Hw').
    destruct (Hplain w (or_introl eq_refl)) as [Hp1 Hp2].
    rewrite !ownSkin_Object_assign by auto.
    cbn [List.map]. rewrite !existsb_app. cbn [existsb].
    rewrite (str_eqb_sym k (sk_name skin ++ js " (" ++ w ++ js ")")).
    rewrite (str_eqb_sym k
               (js "StatTrak™ " ++ sk_name skin ++ js " (" ++ w ++ js ")")).
    apply if_or4.
  - induction wears as [|w wears IH]; intros skinsMap k Hplain;
      [reflexivity|].
    cbn [fold_left].
    rewrite IH by (intros w' Hw'; apply Hplain; right; exact Hw').
    destruct (Hplain w (or_introl eq_refl)) as [Hp1 _].
    rewrite !ownSkin_Object_assign by auto.
    cbn [List.map existsb].
    rewrite (str_eqb_sym k (sk_name skin ++ js " (" ++ w ++ js ")")).
    apply if_or2.
Qed.

Lemma existsb_false_In {A} (f : A -> bool) l x :
  existsb f l = false -> In x l -> f x = false.
Proof.
  intros H Hin. destruct (f x) eqn:E; [|reflexivity].
  assert (existsb f l = true) by (apply existsb_exists; eauto). congruence.
Qed.

Lemma ownSkin_addSkin skinsMap skin k :
  writes skin (js "__proto__") = false ->
  ownSkin (addSkin skinsMap skin) k
  = if writes skin k then Some (sk_data skin) else ownSkin skinsMap k.
Proof.
  intros Hplain. unfold writes, keysOf in *. cbv zeta in *.
  unfold addSkin.
  assert (Hbare :
    sk_wears skin = None \/ sk_wears skin = Some [] ->
    ownSkin
      (if sk_stattrak skin
       then Object_assign
              (Object_assign skinsMap (sk_name skin) (sk_data skin))
              (js "StatTrak™ " ++ sk_name skin) (sk_data skin)
       else Object_assign skinsMap (sk_name skin) (sk_data skin)) k
    = if existsb (str_eqb k)
           (if sk_stattrak skin
            then [sk_name skin]
                 ++ List.map (fun key => js "StatTrak™ " ++ key) [sk_name skin]
            else [sk_name skin])
      then Some (sk_data skin) else ownSkin skinsMap k).
  { intros Hw.
    assert (Hp : existsb (str_eqb (js "__proto__"))
                   (if sk_stattrak skin
                    then [sk_name skin]
                         ++ List.map (fun key => js "StatTrak™ " ++ key)
                              [sk_name skin]
                    else [sk_name skin]) = false)
      by (destruct Hw as [Hw|Hw]; rewrite Hw in Hplain; exact Hplain).
    clear Hplain. revert Hp.
    destruct (sk_stattrak skin); cbn [existsb app List.map];
      rewrite ?orb_false_r; intros Hp.
    - assert (Hp2 : str_eqb (js "StatTrak™ " ++ sk_name skin)
                      (js "__proto__") = false) by reflexivity.
      assert (Hp1 : str_eqb (sk_name skin) (js "__proto__") = false)
        by (rewrite str_eqb_sym; exact Hp).
      rewrite (ownSkin_Object_assign _ _ _ _ Hp2).
      rewrite (ownSkin_Object_assign _ _ _ _ Hp1).
      rewrite (str_eqb_sym k (sk_name skin)).
      rewrite (str_eqb_sym k (js "StatTrak™ " ++ sk_name skin)).
      generalize (str_eqb (sk_name skin) k).
      generalize (str_eqb (js "StatTrak™ " ++ sk_name skin) k).
      intros [] []; reflexivity.
    - rewrite str_eqb_sym in Hp.
      rewrite (ownSkin_Object_assign _ _ _ _ Hp).
      rewrite (str_eqb_sym k (sk_name skin)). reflexivity. }
  destruct (sk_wears skin) as [[|w ws]|] eqn:Hw.
  - apply Hbare. right. reflexivity.
  - apply ownSkin_addWears. intros w' Hw'.
    destruct (sk_stattrak skin) eqn:Hst.
    + rewrite existsb_app in Hplain.
      apply orb_false_iff in Hplain as [Hp1 Hp2]. split.
      * rewrite str_eqb_sym.
        apply (existsb_false_In _ _ _ Hp1). apply in_map_iff. eauto.
      * intros _. rewrite str_eqb_sym.
        apply (existsb_false_In _ _ _ Hp2).
        apply in_map_iff. eexists. split; [reflexivity|].
        apply in_map_iff. eauto.
    + split; [|discriminate]. rewrite str_eqb_sym.
      apply (existsb_false_In _ _ _ Hplain). apply in_map_iff. eauto.
  - apply Hbare. left. reflexivity.
Qed.

Lemma find_snoc {A} (f : A -> bool) l x :
  List.find f (l ++ [x])
  = match List.find f l with
    | Some y => Some y
    | None => if f x then Some x else None
    end.
Proof.
  induction l as [|y l IH]; simpl; [reflexivity|].
  destruct (f y); [reflexivity|exact IH].
Qed.

Lemma ownSkin_catalogue skins : forall skinsMap k,
  plainCatalogue skins ->
  ownSkin (fold_left addSkin skins skinsMap) k
  = match List.find (fun skin => writes skin k) (rev skins) with
    | Some skin => Some (sk_data skin)
    | None => ownSkin skinsMap k
    end.
Proof.
  induction skins as [|skin skins IH]; intros skinsMap k Hplain;
    [reflexivity|].
  inversion Hplain as [|? ? Hskin Hrest]; subst.
  cbn [fold_left rev]. rewrite IH by exact Hrest.
  rewrite find_snoc.
  destruct (List.find (fun skin => writes skin k) (rev skins));
    [reflexivity|].
  rewrite (ownSkin_addSkin _ _ _ Hskin).
  destruct (writes skin k); reflexivity.
Qed.

(** The key under which the catalogue record of a price item is looked
    up. *)
Definition keyOf (name : option jsstring) : jsstring :=
  match name with Some s => s | None => js "undefined" end.

(** X27. The lookup object of the catalogue.  [fetchAllSkinsData] never
    rejects.  When the catalogue was fetched (and no key written is
    "__proto__"), looking a name up in the object gives the record of the
    last skin of the catalogue that writes that name: for a skin with wears
    the names "<skin> (<wear>)", for a skin without wears its own name, and
    for a skin with StatTrak also each of these with "StatTrak™ " put in
    front.  A name no skin writes gives [null], unless it is the name of a
    member every object inherits, which gives that member.  When the
    catalogue could not be fetched the object is empty. *)
Theorem fetchAllSkinsData_lookup :
  forall fetch name,
    (forall skins,
       fetchSkinsFromAPI fetch = Some skins ->
       plainCatalogue skins ->
       skinDataFor (fetchAllSkinsData fetch) name
       = match List.find (fun skin => writes skin (keyOf name)) (rev skins)
         with
         | Some skin => Some (sk_data skin)
         | None =>
           if existsb (str_eqb (keyOf name)) Object_prototype_names
           then Some inheritedSkin else None
         end)
    /\ (fetchSkinsFromAPI fetch = None -> fetchAllSkinsData fetch = [])
    /\ (forall skin wear,
          sk_wears skin = Some (wear :: []) ->
          keysOf skin
          = if sk_stattrak skin
            then [ sk_name skin ++ js " (" ++ wear ++ js ")";
                   js "StatTrak™ " ++ sk_name skin ++ js " (" ++ wear
                   ++ js ")" ]
            else [ sk_name skin ++ js " (" ++ wear ++ js ")" ])
    /\ (forall skin,
          sk_wears skin = None \/ sk_wears skin = Some [] ->
          keysOf skin
          = if sk_stattrak skin
            then [ sk_name skin; js "StatTrak™ " ++ sk_name skin ]
            else [ sk_name skin ]).
Proof.
  intros fetch name. split; [|split; [|split]].
  - intros skins Hfetch Hplain.
    unfold skinDataFor, fetchAllSkinsData. cbv zeta. fold (keyOf name).
    rewrite Hfetch, (ownSkin_catalogue skins [] (keyOf name) Hplain).
    destruct (List.find _ (rev skins)); reflexivity.
  - intros Hfetch. unfold fetchAllSkinsData. rewrite Hfetch. reflexivity.
  - intros skin wear Hw. unfold keysOf. rewrite Hw.
    destruct (sk_stattrak skin); reflexivity.
  - intros skin Hw. unfold keysOf.
    destruct Hw as [Hw|Hw]; rewrite Hw; destruct (sk_stattrak skin);
      reflexivity.
Qed.

Lemma redline_plain : plainCatalogue [redlineSkin].
Proof. repeat constructor. Qed.

Lemma fetchAllSkinsData_lookup_witness :
  skinDataFor (fetchAllSkinsData secondAnswers)
    (Some (js "StatTrak™ AK-47 | Redline (Minimal Wear)"))
  = Some rifleData
  /\ skinDataFor (fetchAllSkinsData secondAnswers)
       (Some (js "Sticker | Crown (Foil)")) = None.
Proof.
  assert (H : fetchSkinsFromAPI secondAnswers = Some [redlineSkin])
    by (vm_compute; reflexivity).
  split.
  - rewrite (proj1 (fetchAllSkinsData_lookup secondAnswers
                      (Some (js "StatTrak™ AK-47 | Redline (Minimal Wear)")))
               [redlineSkin] H redline_plain).
    vm_compute. reflexivity.
  - rewrite (proj1 (fetchAllSkinsData_lookup secondAnswers
                      (Some (js "Sticker | Crown (Foil)")))
               [redlineSkin] H redline_plain).
    vm_compute. reflexivity.
Defined.

Local Open Scope R_scope.

Lemma trending_listing priceListData rnd n it :
  In it (fst (processTrendingListings priceListData rnd n)) ->
  exists listings item sd,
    priceListData = Some listings
    /\ In item listings
    /\ skinData item = Some sd
    /\ name it = or_str (market_hash_name item) []
    /\ volume it = qty item
    /\ category it = or_str (sd_category_name sd) (js "Unknown").
Proof.
  unfold processTrendingListings.
  destruct priceListData as [[|x l]|]; try (intros []).
  set (data := x :: l). clearbody data.
  unfold bind, ret.
  destruct (mapRand processListing data rnd n) as [mapped k] eqn:E.
  cbn [fst]. intros Hin.
  apply (Permutation_in _ (Permutation_sym
           (Array_sort_perm compareTrending _))) in Hin.
  apply list_elem_of_In, list_elem_of_omap in Hin as (o & Ho & Hk).
  apply keepProcessed_Some in Hk as [-> _].
  apply list_elem_of_In in Ho.
  assert (Ho' : In (Some it) (fst (mapRand processListing data rnd n)))
    by (rewrite E; exact Ho).
  clear E Ho. revert n Ho'.
  induction data as [|item data IH]; intros n; simpl; [intros []|].
  unfold bind, ret.
  destruct (processListing item rnd n) as [o k0] eqn:E.
  specialize (IH k0).
  destruct (mapRand processListing data rnd k0) as [bs k']. simpl in *.
  intros [->|Hin].
  - exists (item :: data), item.
    revert E. unfold processListing.
    destruct (skinData item) as [sd|]; [|discriminate].
    cbv beta iota zeta delta
      [bind ret calculatePriceChangePercent Math_random].
    match goal with
    | |- context [generatePriceHistory ?a ?b ?c ?d ?e] =>
      destruct (generatePriceHistory a b c d e) as [h k'']
    end.
    intros [= <- _]. exists sd. repeat split; try reflexivity.
    left. reflexivity.
  - destruct (IH Hin) as (listings & item' & sd & [= <-] & Hi & H).
    exists (item :: data), item', sd.
    split; [reflexivity|]. split; [right; exact Hi|exact H].
Qed.

Lemma feed_listing limit priceResponse skinsMap item :
  In item (fetchTrendingListings limit priceResponse skinsMap) ->
  exists dataArray priceItem,
    priceResponse = Responded true (Some dataArray)
    /\ In priceItem dataArray
    /\ item = mergeSkin skinsMap priceItem
    /\ 0 < qty priceItem /\ 0 < min_price priceItem.
Proof.
  unfold fetchTrendingListings.
  destruct priceResponse as [|[|] [dataArray|]]; try (intros []).
  intros Hin. exists dataArray.
  assert (Hin' : In item
            (Array_sort compareVolume
               (List.filter
                  (fun item =>
                     (if Rlt_dec 0 (qty item) then true else false)
                     && (if Rlt_dec 0 (min_price item) then true else false))
                  (List.map (mergeSkin skinsMap) dataArray)))).
  { destruct (0 <? limit)%Z; [|exact Hin].
    unfold slice_to in Hin.
    destruct (limit <? 0)%Z;
      match type of Hin with
      | In _ (firstn ?k ?l) =>
        rewrite <- (firstn_skipn k l); apply in_or_app; left; exact Hin
      end. }
  apply (Permutation_in _ (Permutation_sym
           (Array_sort_perm compareVolume _))) in Hin'.
  apply filter_In in Hin' as [Hin' Htest].
  apply andb_true_iff in Htest as [Hq Hp].
  destruct (Rlt_dec 0 (qty item)) as [Hq'|]; [|discriminate].
  destruct (Rlt_dec 0 (min_price item)) as [Hp'|]; [|discriminate].
  apply in_map_iff in Hin' as (priceItem & <- & Hin').
  exists priceItem. split; [reflexivity|]. split; [exact Hin'|].
  split; [reflexivity|]. split; assumption.
Qed.

(** X28. Only catalogue items trend.  Feed the trending service with the
    price list merged with the catalogue (no key of which is "__proto__"):
    every trending item then comes from a price item with positive volume
    and positive minimum price whose name some skin of the fetched
    catalogue writes (a skin that passed the catalogue filter, and the
    item's category is the one of the last such skin, or "Unknown"), unless
    the name is that of a member every object inherits.  In particular,
    when the catalogue cannot be fetched and no price item is named like
    such a member, nothing trends. *)
Theorem trending_only_catalogue :
  forall limit priceResponse fetch rnd n,
    (forall skins, fetchSkinsFromAPI fetch = Some skins ->
       plainCatalogue skins) ->
    let out :=
      fst (processTrendingListings
             (Some (fetchTrendingListings limit priceResponse
                      (skinDataFor (fetchAllSkinsData fetch))))
             rnd n) in
    (forall it, In it out ->
       exists dataArray priceItem,
         priceResponse = Responded true (Some dataArray)
         /\ In priceItem dataArray
         /\ name it = or_str (market_hash_name priceItem) []
         /\ volume it = qty priceItem
         /\ 0 < qty priceItem /\ 0 < min_price priceItem
         /\ ((exists skins skin,
                fetchSkinsFromAPI fetch = Some skins
                /\ In skin skins
                /\ keepSkin skin = true
                /\ writes skin (keyOf (market_hash_name priceItem)) = true
                /\ category it
                   = or_str (sd_category_name (sk_data skin)) (js "Unknown"))
             \/ In (keyOf (market_hash_name priceItem))
                  Object_prototype_names))
    /\ (fetchSkinsFromAPI fetch = None ->
        (forall dataArray priceItem,
           priceResponse = Responded true (Some dataArray) ->
           In priceItem dataArray ->
           ~ In (keyOf (market_hash_name priceItem)) Object_prototype_names) ->
        out = []).
Proof.
  intros limit priceResponse fetch rnd n Hplain out.
  assert (Hitems : forall it, In it out ->
    exists dataArray priceItem sd,
      priceResponse = Responded true (Some dataArray)
      /\ In priceItem dataArray
      /\ name it = or_str (market_hash_name priceItem) []
      /\ volume it = qty priceItem
      /\ 0 < qty priceItem /\ 0 < min_price priceItem
      /\ skinDataFor (fetchAllSkinsData fetch) (market_hash_name priceItem)
         = Some sd
      /\ category it = or_str (sd_category_name sd) (js "Unknown")).
  { intros it Hin. apply trending_listing in Hin
      as (listings & item & sd & [= <-] & Hitem & Hsd & Hname & Hvol & Hcat).
    apply feed_listing in Hitem
      as (dataArray & priceItem & Hresp & Hprice & -> & Hq & Hp).
    exists dataArray, priceItem, sd. cbn in Hsd, Hname, Hvol.
    repeat (split; [assumption|]). exact Hcat. }
  split.
  - intros it Hin.
    destruct (Hitems it Hin)
      as (dataArray & priceItem & sd & Hresp & Hprice & Hname & Hvol & Hq & Hp
          & Hlook & Hcat).
    exists dataArray, priceItem.
    repeat (split; [assumption|]).
    destruct (fetchSkinsFromAPI fetch) as [skins|] eqn:Hfetch.
    + unfold skinDataFor, fetchAllSkinsData in Hlook. cbv zeta in Hlook.
      fold (keyOf (market_hash_name priceItem)) in Hlook.
      rewrite Hfetch in Hlook.
      rewrite (ownSkin_catalogue skins [] (keyOf (market_hash_name priceItem))
                 (Hplain skins eq_refl)) in Hlook.
      destruct (List.find _ (rev skins)) as [skin|] eqn:Hfind.
      * left. apply find_some in Hfind as [Hin' Hw].
        apply in_rev in Hin'.
        exists skins, skin. split; [reflexivity|]. split; [exact Hin'|].
        split.
        { apply tryEndpoints_Some in Hfetch
            as (_ & _ & _ & data & _ & _ & _ & ->).
          apply filter_In in Hin' as [_ H]. exact H. }
        split; [exact Hw|]. injection Hlook as <-. exact Hcat.
      * right. cbn [ownSkin] in Hlook.
        destruct (existsb _ Object_prototype_names) eqn:Hex;
          [|discriminate].
        apply existsb_exists in Hex as (p & Hp' & Heq).
        apply str_eqb_eq in Heq. subst p. exact Hp'.
    + right. unfold skinDataFor, fetchAllSkinsData in Hlook.
      cbv zeta in Hlook.
      fold (keyOf (market_hash_name priceItem)) in Hlook.
      rewrite Hfetch in Hlook. cbn [ownSkin] in Hlook.
      destruct (existsb _ Object_prototype_names) eqn:Hex; [|discriminate].
      apply existsb_exists in Hex as (p & Hp' & Heq).
      apply str_eqb_eq in Heq. subst p. exact Hp'.
  - intros Hfetch Hnames.
    destruct out as [|it rest] eqn:Hout; [reflexivity|]. exfalso.
    destruct (Hitems it (or_introl eq_refl))
      as (dataArray & priceItem & sd & Hresp & Hprice & _ & _ & _ & _
          & Hlook & _).
    unfold skinDataFor, fetchAllSkinsData in Hlook. cbv zeta in Hlook.
    fold (keyOf (market_hash_name priceItem)) in Hlook.
    rewrite Hfetch in Hlook. cbn [ownSkin] in Hlook.
    destruct (existsb _ Object_prototype_names) eqn:Hex; [|discriminate].
    apply existsb_exists in Hex as (p & Hp' & Heq).
    apply str_eqb_eq in Heq. subst p.
    exact (Hnames dataArray priceItem Hresp Hprice Hp').
Qed.

Definition redlinePrice : Listing :=
  {| market_hash_name := Some (js "AK-47 | Redline (Field-Tested)");
     min_price := 1000; max_price := None; qty := 5000; skinData := None |}.

Lemma redline_feed :
  fetchTrendingListings 0 (Responded true (Some [redlinePrice]))
    (skinDataFor (fetchAllSkinsData secondAnswers))
  = [ {| market_hash_name := Some (js "AK-47 | Redline (Field-Tested)");
         min_price := 1000; max_price := None; qty := 5000;
         skinData := Some rifleData |} ].
Proof.
  assert (Hsd : skinDataFor (fetchAllSkinsData secondAnswers)
                  (Some (js "AK-47 | Redline (Field-Tested)"))
                = Some rifleData) by (vm_compute; reflexivity).
  unfold fetchTrendingListings.
  change (0 <? 0)%Z with false. cbv beta iota zeta.
  change (List.map (mergeSkin (skinDataFor (fetchAllSkinsData secondAnswers)))
            [redlinePrice])
    with [ {| market_hash_name := Some (js "AK-47 | Redline (Field-Tested)");
              min_price := 1000; max_price := None; qty := 5000;
              skinData :=
                skinDataFor (fetchAllSkinsData secondAnswers)
                  (Some (js "AK-47 | Redline (Field-Tested)")) |} ].
  rewrite Hsd. cbn [List.filter qty min_price].
  destruct (Rlt_dec 0 5000); [|lra]. destruct (Rlt_dec 0 1000); [|lra].
  reflexivity.
Qed.

Lemma redline_trends :
  exists it,
    In it (fst (processTrendingListings
                  (Some (fetchTrendingListings 0
                           (Responded true (Some [redlinePrice]))
                           (skinDataFor (fetchAllSkinsData secondAnswers))))
                  (fun _ => 0.75) 0%nat)).
Proof.
  rewrite redline_feed. eexists.
  unfold processTrendingListings.
  cbv beta iota zeta delta
    [mapRand bind ret processListing skinData
     calculatePriceChangePercent Math_random generatePriceHistory
     generatePriceHistory_loop qty min_price max_price market_hash_name
     fst snd omap list_omap].
  rewrite keepProcessed_pos by (simpl; lra).
  left. reflexivity.
Qed.

Lemma secondAnswers_plain :
  forall skins,
    fetchSkinsFromAPI secondAnswers = Some skins -> plainCatalogue skins.
Proof.
  intros skins H.
  assert (H' : fetchSkinsFromAPI secondAnswers = Some [redlineSkin])
    by (vm_compute; reflexivity).
  rewrite H' in H. injection H as <-. apply redline_plain.
Qed.

Lemma trending_only_catalogue_witness :
  exists it dataArray priceItem,
    In it (fst (processTrendingListings
                  (Some (fetchTrendingListings 0
                           (Responded true (Some [redlinePrice]))
                           (skinDataFor (fetchAllSkinsData secondAnswers))))
                  (fun _ => 0.75) 0%nat))
    /\ Responded true (Some [redlinePrice])
       = Responded true (Some dataArray)
    /\ In priceItem dataArray
    /\ name it = or_str (market_hash_name priceItem) [].
Proof.
  destruct redline_trends as (it & Hin).
  destruct (proj1 (trending_only_catalogue 0
                     (Responded true (Some [redlinePrice])) secondAnswers
                     (fun _ => 0.75) 0%nat secondAnswers_plain) it Hin)
    as (dataArray & priceItem & Hresp & Hprice & Hname & _).
  exists it, dataArray, priceItem.
  split; [exact Hin|]. split; [exact Hresp|]. split; [exact Hprice|].
  exact Hname.
Defined.

End CatalogueProps.

(** ** Special patterns *)
Module PatternProps.

Import JS SeedImageService JSFacts.

(** X29. The special patterns.  [isSpecialPattern] answers [false] for a
    missing pattern name, and for a name it answers whether the name
    contains "Doppler", "Case Hardened" or "Fade" (in exactly this letter
    case); the fourth pattern of its list, "Marble Fade", never decides,
    since a name that contains it contains "Fade".  A name stays special
    however it is extended. *)
Theorem isSpecialPattern_keywords :
  isSpecialPattern None = false
  /\ (forall name,
        isSpecialPattern (Some name)
        = includes name (js "Doppler")
          || includes name (js "Case Hardened")
          || includes name (js "Fade"))
  /\ (forall before name after,
        isSpecialPattern (Some name) = true ->
        isSpecialPattern (Some (before ++ name ++ after)) = true)
  /\ isSpecialPattern (Some (js "marble fade")) = false.
Proof.
  assert (Hkeys : forall name,
            isSpecialPattern (Some name)
            = includes name (js "Doppler")
              || includes name (js "Case Hardened")
              || includes name (js "Fade")).
  { intros name. unfold isSpecialPattern, specialPatterns.
    cbn [List.map existsb]. rewrite orb_false_r.
    destruct (includes name (js "Marble Fade")) eqn:E.
    - assert (Hfade : includes name (js "Fade") = true).
      { apply includes_infix in E as (pre & post & ->).
        apply includes_infix. exists (pre ++ js "Marble "), post.
        rewrite <- !app_assoc. reflexivity. }
      rewrite Hfade, !orb_true_r. reflexivity.
    - rewrite orb_false_r, !orb_assoc. reflexivity. }
  split; [reflexivity|]. split; [exact Hkeys|]. split.
  - intros before name after. rewrite !Hkeys.
    rewrite !orb_true_iff. intros [[H|H]|H];
      [left; left|left; right|right];
      apply includes_app_r, includes_app_l, H.
  - vm_compute. reflexivity.
Qed.

Lemma isSpecialPattern_keywords_witness :
  isSpecialPattern (Some (js "★ Karambit | " ++ js "Marble Fade"
                          ++ js " (Factory New)")) = true.
Proof.
  apply (proj1 (proj2 (proj2 isSpecialPattern_keywords))
           (js "★ Karambit | ") (js "Marble Fade") (js " (Factory New)")).
  vm_compute. reflexivity.
Defined.

End PatternProps.

(** ** The sparkline *)
Module SparklineProps.

Import CsfloatService MiniSparkline.
Local Open Scope R_scope.

Lemma fold_Rmax_spec l : forall first,
  first <= fold_left Rmax l first
  /\ Forall (fun value => value <= fold_left Rmax l first) l
  /\ (fold_left Rmax l first = first \/ In (fold_left Rmax l first) l).
Proof.
  induction l as [|x l IH]; intros first; cbn [fold_left].
  - split; [lra|]. split; [constructor|left; reflexivity].
  - destruct (IH (Rmax first x)) as (Hle & Hall & Hin).
    pose proof (Rmax_l first x). pose proof (Rmax_r first x).
    split; [lra|]. split; [constructor; [lra|exact Hall]|].
    destruct Hin as [Heq|Hin]; [|right; right; exact Hin].
    rewrite Heq. unfold Rmax. destruct (Rle_dec first x);
      [right; left; reflexivity|left; reflexivity].
Qed.

Lemma fold_Rmin_spec l : forall first,
  fold_left Rmin l first <= first
  /\ Forall (fun value => fold_left Rmin l first <= value) l
  /\ (fold_left Rmin l first = first \/ In (fold_left Rmin l first) l).
Proof.
  induction l as [|x l IH]; intros first; cbn [fold_left].
  - split; [lra|]. split; [constructor|left; reflexivity].
  - destruct (IH (Rmin first x)) as (Hle & Hall & Hin).
    pose proof (Rmin_l first x). pose proof (Rmin_r first x).
    split; [lra|]. split; [constructor; [lra|exact Hall]|].
    destruct Hin as [Heq|Hin]; [|right; right; exact Hin].
    rewrite Heq. unfold Rmin. destruct (Rle_dec first x);
      [left; reflexivity|right; left; reflexivity].
Qed.

Lemma mapIndexed_length {A B} (f : A -> nat -> B) l : forall index,
  length (mapIndexed f l index) = length l.
Proof.
  induction l as [|x l IH]; intros index; simpl; [reflexivity|].
  rewrite IH. reflexivity.
Qed.

Lemma mapIndexed_In {A B} (f : A -> nat -> B) l : forall index b,
  In b (mapIndexed f l index) ->
  exists value i, In value l /\ (index <= i < index + length l)%nat
                  /\ b = f value i.
Proof.
  induction l as [|x l IH]; intros index b; simpl; [intros []|].
  intros [<-|Hin].
  - exists x, index. split; [left; reflexivity|]. split; [lia|reflexivity].
  - destruct (IH _ _ Hin) as (value & i & Hv & Hi & ->).
    exists value, i. split; [right; exact Hv|]. split; [lia|reflexivity].
Qed.

(** A value whose differences with the other values do not overflow. *)
Definition withinRange (value : R) : Prop :=
  - IZR (2 ^ 1022) <= value <= IZR (2 ^ 1022).

(** X30. The sparkline stays in its box.  For two or more values, each of
    magnitude at most [2 ^ 1022] so that the range [max - min] does not
    overflow, and a box of width and height that are not negative,
    [MiniSparkline] draws one point per value, every point lies inside the
    box ([0 <= x <= width], [0 <= y <= height]), the first point is at the
    left edge, and a series of equal values is drawn along the bottom edge
    ([y = height]) since its range counts as 1.  For fewer than two values
    it draws the flat line. *)
Theorem sparklinePoints_in_box :
  forall data width height,
    Forall withinRange data ->
    0 <= width -> 0 <= height ->
    (length data < 2)%nat /\ sparklinePoints data width height = None
    \/ exists points,
         sparklinePoints data width height = Some points
         /\ length points = length data
         /\ Forall (fun point => 0 <= fst point <= width
                                 /\ 0 <= snd point <= height) points
         /\ (exists y rest, points = (0, y) :: rest)
         /\ ((forall value, In value data -> value = nth 0 data 0) ->
             Forall (fun point => snd point = height) points).
Proof.
  intros data width height _ Hw Hh.
  destruct data as [|first [|second rest]];
    [left; split; [simpl; lia|reflexivity]
    |left; split; [simpl; lia|reflexivity]|].
  right. unfold sparklinePoints.
  set (data := first :: second :: rest).
  set (max := fold_left Rmax (second :: rest) first).
  set (min := fold_left Rmin (second :: rest) first).
  set (range := if Req_EM_T (max - min) 0 then 1 else max - min).
  destruct (fold_Rmax_spec (second :: rest) first) as (Hmax1 & Hmax2 & _).
  destruct (fold_Rmin_spec (second :: rest) first) as (Hmin1 & Hmin2 & _).
  fold max in Hmax1, Hmax2. fold min in Hmin1, Hmin2.
  assert (Hbounds : forall value, In value data -> min <= value <= max).
  { intros value [<-|Hin]; [lra|].
    rewrite List.Forall_forall in Hmax2, Hmin2.
    specialize (Hmax2 value Hin). specialize (Hmin2 value Hin). lra. }
  assert (Hrange : 0 < range /\ max - min <= range).
  { unfold range. destruct (Req_EM_T (max - min) 0); lra. }
  assert (Hlen : 1 <= INR (length data) - 1).
  { change (length data) with (S (S (length rest))).
    rewrite !S_INR. pose proof (pos_INR (length rest)). lra. }
  eexists. split; [reflexivity|]. split; [apply mapIndexed_length|].
  split; [|split].
  - apply List.Forall_forall. intros point Hin.
    apply mapIndexed_In in Hin as (value & i & Hv & Hi & ->).
    cbv zeta. cbn [fst snd].
    specialize (Hbounds value Hv).
    assert (Hx : 0 <= INR i / (INR (length data) - 1) <= 1).
    { assert (Hi' : INR i <= INR (length data) - 1).
      { replace (INR (length data) - 1) with (INR (length data - 1)).
        - apply le_INR. lia.
        - rewrite minus_INR by (simpl; lia). reflexivity. }
      pose proof (pos_INR i).
      split.
      - apply Rmult_le_pos; [lra|].
        apply Rlt_le, Rinv_0_lt_compat. lra.
      - apply (Rmult_le_reg_r (INR (length data) - 1)); [lra|].
        unfold Rdiv. rewrite Rmult_assoc, Rinv_l by lra. lra. }
    assert (Hy : 0 <= (value - min) / range <= 1).
    { destruct Hrange as [Hr1 Hr2]. split.
      - apply Rmult_le_pos; [lra|]. apply Rlt_le, Rinv_0_lt_compat. lra.
      - apply (Rmult_le_reg_r range); [lra|].
        unfold Rdiv. rewrite Rmult_assoc, Rinv_l by lra. lra. }
    split; nra.
  - unfold data. cbn [mapIndexed]. cbv zeta. eexists. eexists.
    f_equal. f_equal. cbn [INR]. unfold Rdiv. ring.
  - intros Hflat. apply List.Forall_forall. intros point Hin.
    apply mapIndexed_In in Hin as (value & i & Hv & Hi & ->).
    cbv zeta. cbn [snd].
    assert (Hsame : forall v, In v data -> v = first)
      by (intros v Hin; exact (Hflat v Hin)).
    assert (Hminf : min = first).
    { destruct (fold_Rmin_spec (second :: rest) first) as (_ & _ & [H|H]);
        [exact H|]. apply Hsame. right. exact H. }
    rewrite (Hsame value Hv), Hminf.
    unfold Rdiv. ring.
Qed.

Lemma sparkline_withinRange : Forall withinRange [3; 5; 4].
Proof.
  assert (Hin : forall value : Z,
             (- 2 ^ 1022 <=? value)%Z = true -> (value <=? 2 ^ 1022)%Z = true ->
             withinRange (IZR value)).
  { intros value Hlow Hhigh. unfold withinRange. rewrite <- opp_IZR.
    split; apply IZR_le, Z.leb_le; assumption. }
  constructor 2; [|constructor 2; [|constructor 2; [|constructor 1]]];
    apply Hin; vm_compute; reflexivity.
Qed.

Lemma sparklinePoints_in_box_witness :
  exists points,
    sparklinePoints [3; 5; 4] 60 30 = Some points
    /\ length points = 3%nat
    /\ Forall (fun point => 0 <= fst point <= 60 /\ 0 <= snd point <= 30)
         points.
Proof.
  assert (Hw : 0 <= 60) by lra. assert (Hh : 0 <= 30) by lra.
  destruct (sparklinePoints_in_box [3; 5; 4] 60 30 sparkline_withinRange
              Hw Hh)
    as [[Hlen _]|(points & Hsome & Hlen & Hbox & _)].
  - simpl in Hlen. lia.
  - exists points. split; [exact Hsome|]. split; [exact Hlen|exact Hbox].
Defined.

End SparklineProps.
